(** * QUIC loss detection (draft 19) and header handling of quicker

    A shallow embedding of [src/loss-detection/loss.detection.draft19.ts]
    (class [QuicLossDetection]) and of
    [src/utilities/handlers/header.handler.ts] (class [HeaderHandler]),
    with the properties of both that the specification states, further
    properties of the two classes, and the bookkeeping of
    [src/http/http3/common/http3.response.ts] (class [Http3Response]).

    Conventions of the embedding.
    - A JavaScript [number] is a rational ([Q]): the arithmetic of the
      source without its rounding.  The constants and the time stamps of
      the detector are integers or dyadic fractions.
    - A [Bignum] packet number is an integer ([Z]).
    - The object [this] of the detector is the record [QuicLossDetection];
      methods are computations of the monad [M], which threads that record,
      collects what the method hands to its collaborators (events emitted,
      calls of the RTT estimator) and may end in a [TypeError] where the
      source reads a property of [undefined].
    - Listeners of the emitted events do not call back into the detector
      while a method runs, and the clock does not advance within one
      method: a method reads one value [now]. *)

From Stdlib Require Import List ZArith QArith Qminmax Qabs Qpower Bool Lia Lqa
  Ascii.
Import ListNotations.

Local Open Scope Z_scope.

(** ** Packets, frames and the collaborators of the detector *)

(** Modelled from the spec: the enumeration [PacketType] that the detector
    and the header handler use is not among the sources (the file at hand
    declares an older one).  Its members are the packet types the spec
    names in its data model. *)
Inductive PacketType : Type :=
| PacketType_Initial
| PacketType_Retry
| PacketType_Handshake
| PacketType_Protected0RTT
| PacketType_Protected1RTT
| PacketType_VersionNegotiation.

(** Modelled from the spec: the encryption level an ACK frame was received
    at ([crypto/crypto.context] is not among the sources). *)
Inductive EncryptionLevel : Type := INITIAL | ZERO_RTT | HANDSHAKE | ONE_RTT.

(** [enum kPacketNumberSpace] *)
Inductive kPacketNumberSpace : Type := Initial | Handshake | ApplicationData.

Definition kPacketNumberSpace_eqb (a b : kPacketNumberSpace) : bool :=
  match a, b with
  | Initial, Initial | Handshake, Handshake
  | ApplicationData, ApplicationData => true
  | _, _ => false
  end.

(** The part of a [BasePacket] the detector reads: the packet number in its
    header, its type, and the answers of [isRetransmittable()] and
    [isHandshake()]. *)
Record BasePacket : Type := mkBasePacket {
  packetNumber : Z;
  packetType : PacketType;
  isRetransmittable : bool;
  isHandshake : bool
}.

(** [interface SentPacket] *)
Record SentPacket : Type := mkSentPacket {
  packet : BasePacket;
  time : Q;
  sent_isRetransmittable : bool
}.

(** The part of an [AckFrame] the detector reads. *)
Record AckFrame : Type := mkAckFrame {
  getLargestAcknowledged : Z;
  getCryptoLevel : option EncryptionLevel;
  determineAckedPacketNumbers : list Z;
  getAckDelay : Q
}.

(** The fields of [RTTMeasurement] the detector reads. *)
Record RTTMeasurement : Type := mkRTT {
  latestRtt : Q;
  smoothedRtt : Q;
  rttVar : Q;
  minRtt : Q;
  maxAckDelay : Q
}.

(** Modelled from the spec: the class [Alarm] is not among the sources.
    Section 2 of the spec: a cancellable one-shot timer with [start(ms)],
    [reset()] and [isRunning()]. *)
Inductive Alarm : Type :=
| AlarmIdle
| AlarmRunning (duration : Q).

Definition Alarm_start (duration : Q) (_ : Alarm) : Alarm := AlarmRunning duration.
Definition Alarm_reset (_ : Alarm) : Alarm := AlarmIdle.
Definition Alarm_isRunning (a : Alarm) : bool :=
  match a with AlarmIdle => false | AlarmRunning _ => true end.

(** What the detector takes from classes that are not among the sources:
    [RTTMeasurement.updateRTT], which reads the clock, and the result of
    JavaScript's [>] on two [Bignum] objects. *)
Class Collaborators : Type := {
  updateRTT : Q -> AckFrame -> SentPacket -> RTTMeasurement -> RTTMeasurement;
  bignum_gt : Z -> Z -> bool
}.

(** ** The state of the detector *)

(** An array indexed by [kPacketNumberSpace]. *)
Record PerSpace (A : Type) : Type := mkPerSpace {
  atInitial : A;
  atHandshake : A;
  atApplicationData : A
}.
Arguments mkPerSpace {A} _ _ _.
Arguments atInitial {A} _.
Arguments atHandshake {A} _.
Arguments atApplicationData {A} _.

Definition at_space {A} (space : kPacketNumberSpace) (a : PerSpace A) : A :=
  match space with
  | Initial => atInitial a
  | Handshake => atHandshake a
  | ApplicationData => atApplicationData a
  end.

Definition set_space {A} (space : kPacketNumberSpace) (x : A) (a : PerSpace A)
  : PerSpace A :=
  match space with
  | Initial => mkPerSpace x (atHandshake a) (atApplicationData a)
  | Handshake => mkPerSpace (atInitial a) x (atApplicationData a)
  | ApplicationData => mkPerSpace (atInitial a) (atHandshake a) x
  end.

(** [type SentPackets = { [key: string]: SentPacket }].  The key of a packet
    is the 16-digit hexadecimal rendering of its number, which stands here as
    the number itself.  Such a key starts with a zero for every number below
    [2^60] and is then no array index, so [Object.keys] lists the keys in
    the order of their insertion: the object is the list of its entries in
    that order. *)
Definition SentPackets : Type := list (Z * SentPacket).

Fixpoint sp_lookup (key : Z) (m : SentPackets) : option SentPacket :=
  match m with
  | [] => None
  | (k, v) :: m' => if k =? key then Some v else sp_lookup key m'
  end.

(** [delete m[key]] *)
Definition sp_delete (key : Z) (m : SentPackets) : SentPackets :=
  filter (fun e => negb (fst e =? key)) m.

(** [m[key] = v] for a key that [m] does not have. *)
Definition sp_add (key : Z) (v : SentPacket) (m : SentPackets) : SentPackets :=
  m ++ [(key, v)].

(** [Object.keys(m)] *)
Definition sp_keys (m : SentPackets) : list Z := map fst m.

Record QuicLossDetection : Type := mkLossDetection {
  lossDetectionAlarm : Alarm;
  cryptoCount : Z;
  ptoCount : Z;
  timeOfLastSentAckElicitingPacket : Q;
  timeOfLastSentCryptoPacket : Q;
  largestAckedPacket : PerSpace Z;
  lossTime : PerSpace Q;
  sentPackets : PerSpace SentPackets;
  ackElicitingPacketsOutstanding : Z;
  cryptoOutstanding : Z;
  rttMeasurer : RTTMeasurement
}.

Definition set_lossDetectionAlarm (x : Alarm) (s : QuicLossDetection) :=
  mkLossDetection x (cryptoCount s) (ptoCount s)
    (timeOfLastSentAckElicitingPacket s) (timeOfLastSentCryptoPacket s)
    (largestAckedPacket s) (lossTime s) (sentPackets s)
    (ackElicitingPacketsOutstanding s) (cryptoOutstanding s) (rttMeasurer s).

Definition set_cryptoCount (x : Z) (s : QuicLossDetection) :=
  mkLossDetection (lossDetectionAlarm s) x (ptoCount s)
    (timeOfLastSentAckElicitingPacket s) (timeOfLastSentCryptoPacket s)
    (largestAckedPacket s) (lossTime s) (sentPackets s)
    (ackElicitingPacketsOutstanding s) (cryptoOutstanding s) (rttMeasurer s).

Definition set_ptoCount (x : Z) (s : QuicLossDetection) :=
  mkLossDetection (lossDetectionAlarm s) (cryptoCount s) x
    (timeOfLastSentAckElicitingPacket s) (timeOfLastSentCryptoPacket s)
    (largestAckedPacket s) (lossTime s) (sentPackets s)
    (ackElicitingPacketsOutstanding s) (cryptoOutstanding s) (rttMeasurer s).

Definition set_timeOfLastSentAckElicitingPacket (x : Q) (s : QuicLossDetection) :=
  mkLossDetection (lossDetectionAlarm s) (cryptoCount s) (ptoCount s)
    x (timeOfLastSentCryptoPacket s)
    (largestAckedPacket s) (lossTime s) (sentPackets s)
    (ackElicitingPacketsOutstanding s) (cryptoOutstanding s) (rttMeasurer s).

Definition set_timeOfLastSentCryptoPacket (x : Q) (s : QuicLossDetection) :=
  mkLossDetection (lossDetectionAlarm s) (cryptoCount s) (ptoCount s)
    (timeOfLastSentAckElicitingPacket s) x
    (largestAckedPacket s) (lossTime s) (sentPackets s)
    (ackElicitingPacketsOutstanding s) (cryptoOutstanding s) (rttMeasurer s).

Definition set_largestAckedPacket (x : PerSpace Z) (s : QuicLossDetection) :=
  mkLossDetection (lossDetectionAlarm s) (cryptoCount s) (ptoCount s)
    (timeOfLastSentAckElicitingPacket s) (timeOfLastSentCryptoPacket s)
    x (lossTime s) (sentPackets s)
    (ackElicitingPacketsOutstanding s) (cryptoOutstanding s) (rttMeasurer s).

Definition set_lossTime (x : PerSpace Q) (s : QuicLossDetection) :=
  mkLossDetection (lossDetectionAlarm s) (cryptoCount s) (ptoCount s)
    (timeOfLastSentAckElicitingPacket s) (timeOfLastSentCryptoPacket s)
    (largestAckedPacket s) x (sentPackets s)
    (ackElicitingPacketsOutstanding s) (cryptoOutstanding s) (rttMeasurer s).

Definition set_sentPackets (x : PerSpace SentPackets) (s : QuicLossDetection) :=
  mkLossDetection (lossDetectionAlarm s) (cryptoCount s) (ptoCount s)
    (timeOfLastSentAckElicitingPacket s) (timeOfLastSentCryptoPacket s)
    (largestAckedPacket s) (lossTime s) x
    (ackElicitingPacketsOutstanding s) (cryptoOutstanding s) (rttMeasurer s).

Definition set_ackElicitingPacketsOutstanding (x : Z) (s : QuicLossDetection) :=
  mkLossDetection (lossDetectionAlarm s) (cryptoCount s) (ptoCount s)
    (timeOfLastSentAckElicitingPacket s) (timeOfLastSentCryptoPacket s)
    (largestAckedPacket s) (lossTime s) (sentPackets s)
    x (cryptoOutstanding s) (rttMeasurer s).

Definition set_cryptoOutstanding (x : Z) (s : QuicLossDetection) :=
  mkLossDetection (lossDetectionAlarm s) (cryptoCount s) (ptoCount s)
    (timeOfLastSentAckElicitingPacket s) (timeOfLastSentCryptoPacket s)
    (largestAckedPacket s) (lossTime s) (sentPackets s)
    (ackElicitingPacketsOutstanding s) x (rttMeasurer s).

Definition set_rttMeasurer (x : RTTMeasurement) (s : QuicLossDetection) :=
  mkLossDetection (lossDetectionAlarm s) (cryptoCount s) (ptoCount s)
    (timeOfLastSentAckElicitingPacket s) (timeOfLastSentCryptoPacket s)
    (largestAckedPacket s) (lossTime s) (sentPackets s)
    (ackElicitingPacketsOutstanding s) (cryptoOutstanding s) x.

(** The object the constructor builds, around the estimator it is given. *)
Definition constructor (rttMeasurer : RTTMeasurement) : QuicLossDetection :=
  mkLossDetection AlarmIdle 0 0 0%Q 0%Q
    (mkPerSpace 0 0 0) (mkPerSpace 0%Q 0%Q 0%Q) (mkPerSpace [] [] [])
    0 0 rttMeasurer.

(** ** What a method hands to its collaborators *)

Inductive Action : Type :=
| PACKET_ACKED (p : BasePacket)
| PACKETS_LOST (lost : list BasePacket)
| RETRANSMIT_PACKET (p : BasePacket)
| Call_updateRTT (ackFrame : AckFrame) (p : SentPacket).

(** ** The monad of the methods *)

Inductive Outcome (A : Type) : Type :=
| Done (a : A) (s : QuicLossDetection) (out : list Action)
| TypeError.
Arguments Done {A} _ _ _.
Arguments TypeError {A}.

Definition M (A : Type) : Type := QuicLossDetection -> Outcome A.

Definition ret {A} (a : A) : M A := fun s => Done a s [].

Definition bind {A B} (c : M A) (k : A -> M B) : M B :=
  fun s =>
    match c s with
    | Done a s1 o1 =>
        match k a s1 with
        | Done b s2 o2 => Done b s2 (o1 ++ o2)
        | TypeError => TypeError
        end
    | TypeError => TypeError
    end.

Definition gets {A} (f : QuicLossDetection -> A) : M A :=
  fun s => Done (f s) s [].

Definition modify (f : QuicLossDetection -> QuicLossDetection) : M unit :=
  fun s => Done tt (f s) [].

Definition emit (a : Action) : M unit := fun s => Done tt s [a].

Definition throwTypeError {A} : M A := fun _ => TypeError.

Declare Scope monad_scope.
Delimit Scope monad_scope with monad.
Notation "x <- c ;; k" := (bind c (fun x => k))
  (at level 61, c at next level, right associativity) : monad_scope.
Notation "c ;; k" := (bind c (fun _ => k))
  (at level 61, right associativity) : monad_scope.
Local Open Scope monad_scope.

(** [if (b) { c }] *)
Definition when (b : bool) (c : M unit) : M unit := if b then c else ret tt.

(** [l.forEach(f)] *)
Fixpoint forEach {A} (l : list A) (f : A -> M unit) : M unit :=
  match l with
  | [] => ret tt
  | x :: l' => f x ;; forEach l' f
  end.

(** A [forEach] whose callback updates a captured local [acc]. *)
Fixpoint forEachAcc {A B} (l : list A) (f : B -> A -> M B) (acc : B) : M B :=
  match l with
  | [] => ret acc
  | x :: l' => acc' <- f acc x ;; forEachAcc l' f acc'
  end.

(** Reading [this.sentPackets[space][key]] to use a property of it at once:
    a [TypeError] when there is no such entry. *)
Definition readSent (space : kPacketNumberSpace) (key : Z) : M SentPacket :=
  found <- gets (fun s => sp_lookup key (at_space space (sentPackets s))) ;;
  match found with
  | Some v => ret v
  | None => throwTypeError
  end.

(** ** Constants *)

Definition kPacketThreshold : Z := 3.
Definition kTimeThreshold : Q := (9 / 8)%Q.
Definition kGranularity : Q := 50%Q.
Definition kInitialRTT : Q := 100%Q.

(** The three spaces, in the order in which the loops of the source list
    them. *)
Definition allSpaces : list kPacketNumberSpace :=
  [Initial; Handshake; ApplicationData].

(** ** The methods of [QuicLossDetection] *)

Definition findPacketSpaceFromPacket (p : BasePacket) : kPacketNumberSpace :=
  match packetType p with
  | PacketType_Handshake => Handshake
  | PacketType_Initial => Initial
  | _ => ApplicationData
  end.

Definition findPacketSpaceFromAckFrame (frame : AckFrame) : kPacketNumberSpace :=
  match getCryptoLevel frame with
  | Some HANDSHAKE => Handshake
  | Some INITIAL => Initial
  | _ => ApplicationData
  end.

(** [a < b] on numbers *)
Definition Qlt_bool (a b : Q) : bool := negb (Qle_bool b a).

(** [a !== 0] on numbers *)
Definition Qnonzero (a : Q) : bool := negb (Qeq_bool a 0%Q).

Definition getEarliestLossTime (s : QuicLossDetection) : Q * kPacketNumberSpace :=
  fold_left
    (fun (acc : Q * kPacketNumberSpace) pnSpace =>
       let lt := at_space pnSpace (lossTime s) in
       if Qnonzero lt && (Qeq_bool (fst acc) 0%Q || Qlt_bool lt (fst acc))
       then (lt, pnSpace) else acc)
    [Handshake; ApplicationData]
    (at_space Initial (lossTime s), Initial).

(** The duration of the crypto retransmission alarm. *)
Definition cryptoAlarmDuration (s : QuicLossDetection) : Q :=
  let rtt := rttMeasurer s in
  let alarmDuration :=
    (if Qeq_bool (smoothedRtt rtt) 0 then kInitialRTT * 2 else smoothedRtt rtt * 2)%Q in
  let alarmDuration := Qmax (alarmDuration + maxAckDelay rtt)%Q kGranularity in
  let pw := Qpower 2%Q (cryptoCount s) in
  (alarmDuration * pw)%Q.

(** The duration of the PTO alarm. *)
Definition ptoAlarmDuration (s : QuicLossDetection) : Q :=
  let rtt := rttMeasurer s in
  let alarmDuration := (smoothedRtt rtt + rttVar rtt * 4 + maxAckDelay rtt)%Q in
  let alarmDuration := Qmax alarmDuration kGranularity in
  (alarmDuration * Qpower 2%Q (ptoCount s))%Q.

(** The locals [alarmDuration] and [time] of [setLossDetectionAlarm] once
    the mode is chosen. *)
Definition alarmDurationAndTime (s : QuicLossDetection) : Q * Q :=
  let time := timeOfLastSentAckElicitingPacket s in
  let earliestLoss := fst (getEarliestLossTime s) in
  if negb (cryptoOutstanding s =? 0) then
    (cryptoAlarmDuration s, timeOfLastSentCryptoPacket s)
  else if Qnonzero earliestLoss then
    ((earliestLoss - timeOfLastSentAckElicitingPacket s)%Q, time)
  else
    (ptoAlarmDuration s, time).

(** The timeout listener registered with the alarm resets the alarm and
    calls [onLossDetectionAlarm]; it is [alarmTimeout] below.  Of the
    locals, only [alarmDuration] reaches the alarm: [time] is not read
    after its assignment. *)
Definition setLossDetectionAlarm : M unit :=
  outstanding <- gets ackElicitingPacketsOutstanding ;;
  if outstanding =? 0 then
    modify (fun s => set_lossDetectionAlarm (Alarm_reset (lossDetectionAlarm s)) s)
  else
    locals <- gets alarmDurationAndTime ;;
    let alarmDuration := fst locals in
    running <- gets (fun s => Alarm_isRunning (lossDetectionAlarm s)) ;;
    when (negb running)
      (modify (fun s =>
         set_lossDetectionAlarm (Alarm_start alarmDuration (lossDetectionAlarm s)) s)).

Definition onPacketSent (now : Q) (basePacket : BasePacket) : M unit :=
  let space := findPacketSpaceFromPacket basePacket in
  let currentTime := now in
  let packetNumber := packetNumber basePacket in
  let sentPacket :=
    mkSentPacket basePacket currentTime (isRetransmittable basePacket) in
  when (isHandshake basePacket)
    (modify (fun s =>
       set_timeOfLastSentCryptoPacket currentTime
         (set_cryptoOutstanding (cryptoOutstanding s + 1) s))) ;;
  when (isRetransmittable basePacket)
    (modify (fun s =>
       set_timeOfLastSentAckElicitingPacket currentTime
         (set_ackElicitingPacketsOutstanding
            (ackElicitingPacketsOutstanding s + 1) s))) ;;
  setLossDetectionAlarm ;;
  found <- gets (fun s => sp_lookup packetNumber (at_space space (sentPackets s))) ;;
  match found with
  | Some _ => ret tt (* logged as an error; the packet is not stored again *)
  | None =>
      modify (fun s =>
        set_sentPackets
          (set_space space
             (sp_add packetNumber sentPacket (at_space space (sentPackets s)))
             (sentPackets s)) s)
  end.

(** The three reads of [this.sentPackets[space][key]] in the source have no
    write between them; the entry is read once here. *)
Definition removeFromSentPackets (space : kPacketNumberSpace) (packetNumber : Z)
  : M unit :=
  found <- gets (fun s => sp_lookup packetNumber (at_space space (sentPackets s))) ;;
  match found with
  | None => ret tt (* logged as an error *)
  | Some entry =>
      when (isRetransmittable (packet entry))
        (modify (fun s =>
           set_ackElicitingPacketsOutstanding
             (ackElicitingPacketsOutstanding s - 1) s)) ;;
      when (isHandshake (packet entry))
        (modify (fun s => set_cryptoOutstanding (cryptoOutstanding s - 1) s)) ;;
      modify (fun s =>
        set_sentPackets
          (set_space space
             (sp_delete packetNumber (at_space space (sentPackets s)))
             (sentPackets s)) s)
  end.

Definition retransmitPacket (sentPacket : SentPacket) : M unit :=
  when (isRetransmittable (packet sentPacket))
    (emit (RETRANSMIT_PACKET (packet sentPacket))).

(** The [while] loop of [sendPackets] over the keys of one space, from
    index [i] on ([keys] is what is left of the array).  [None] is the
    [return] of the method, [Some sendCount] the end of the loop. *)
Fixpoint sendPackets_while (amount : Z) (space : kPacketNumberSpace)
    (keys : list Z) (sendCount : Z) : M (option Z) :=
  match keys with
  | [] => ret (Some sendCount)
  | key :: keys' =>
      entry <- readSent space key ;;
      if isRetransmittable (packet entry) then
        retransmitPacket entry ;;
        removeFromSentPackets space (packetNumber (packet entry)) ;;
        let sendCount := sendCount + 1 in
        if sendCount =? amount then ret None
        else sendPackets_while amount space keys' sendCount
      else sendPackets_while amount space keys' sendCount
  end.

(** The [for] loop of [sendPackets] over the spaces that are left. *)
Fixpoint sendPackets_for (amount : Z) (spaces : list kPacketNumberSpace)
    (sendCount : Z) : M unit :=
  match spaces with
  | [] => ret tt
  | space :: spaces' =>
      keys <- gets (fun s => sp_keys (at_space space (sentPackets s))) ;;
      r <- sendPackets_while amount space keys sendCount ;;
      match r with
      | None => ret tt
      | Some sendCount' => sendPackets_for amount spaces' sendCount'
      end
  end.

Definition sendPackets (amount : Z) : M unit :=
  sendPackets_for amount allSpaces 0.

Definition sendOnePacket : M unit := sendPackets 1.
Definition sendTwoPackets : M unit := sendPackets 2.

Definition retransmitAllUnackedHandshakeData : M unit :=
  forEach allSpaces (fun space =>
    keys <- gets (fun s => sp_keys (at_space space (sentPackets s))) ;;
    forEach keys (fun key =>
      entry <- readSent space key ;;
      when (isHandshake (packet entry))
        (retransmitPacket entry ;;
         removeFromSentPackets space (packetNumber (packet entry))))).

(** [Object.keys(this.sendPackets)] in [detectLostPackets]: [sendPackets] is
    the method above, a function object, and a function has no enumerable
    property of its own. *)
Definition keys_of_method_sendPackets : list Z := [].

(** [lossDelay] of [detectLostPackets] *)
Definition lossDelay (rtt : RTTMeasurement) : Q :=
  (kTimeThreshold * Qmax (latestRtt rtt) (smoothedRtt rtt))%Q.

Section Detector.

Context {collaborators : Collaborators}.

(** The callback of the first [forEach] of [detectLostPackets]; [lostPackets]
    is the array it pushes to. *)
Definition detectLostPackets_callback (space : kPacketNumberSpace)
    (lossDelay lostSendTime : Q) (lostPN : Z)
    (lostPackets : list BasePacket) (key : Z) : M (list BasePacket) :=
  let unackedPacketNumber := key in
  largest <- gets (fun s => at_space space (largestAckedPacket s)) ;;
  if bignum_gt unackedPacketNumber largest then ret lostPackets
  else
    unacked <- readSent space key ;;
    if Qle_bool (time unacked) lostSendTime
       || (packetNumber (packet unacked) <=? lostPN)
    then
      removeFromSentPackets space unackedPacketNumber ;;
      ret (lostPackets ++ [packet unacked])
    else
      modify (fun s =>
        let lt := at_space space (lossTime s) in
        let lt' := if Qeq_bool lt 0%Q then (time unacked + lossDelay)%Q
                   else Qmin lt (time unacked + lossDelay)%Q in
        set_lossTime (set_space space lt' (lossTime s)) s) ;;
      ret lostPackets.

Definition detectLostPackets (now : Q) (space : kPacketNumberSpace) : M unit :=
  modify (fun s => set_lossTime (set_space space 0%Q (lossTime s)) s) ;;
  rtt <- gets rttMeasurer ;;
  let lossDelay := lossDelay rtt in
  let lostSendTime := (now - lossDelay)%Q in
  largest <- gets (fun s => at_space space (largestAckedPacket s)) ;;
  let lostPN := largest - kPacketThreshold in
  lostPackets <-
    forEachAcc keys_of_method_sendPackets
      (detectLostPackets_callback space lossDelay lostSendTime lostPN) [] ;;
  when (0 <? Z.of_nat (length lostPackets))
    (emit (PACKETS_LOST lostPackets) ;;
     forEach lostPackets (fun p =>
       found <- gets (fun s =>
                  sp_lookup (packetNumber p) (at_space space (sentPackets s))) ;;
       match found with
       | Some sentPacket =>
           when (isHandshake (packet sentPacket))
             (modify (fun s => set_cryptoOutstanding (cryptoOutstanding s - 1) s))
       | None => ret tt
       end)).

Definition updateRtt (now : Q) (ackFrame : AckFrame) : M unit :=
  let space := findPacketSpaceFromAckFrame ackFrame in
  largestAcknowledgedPacket <-
    gets (fun s => sp_lookup (getLargestAcknowledged ackFrame)
                     (at_space space (sentPackets s))) ;;
  match largestAcknowledgedPacket with
  | Some p =>
      if sent_isRetransmittable p then
        emit (Call_updateRTT ackFrame p) ;;
        modify (fun s => set_rttMeasurer (updateRTT now ackFrame p (rttMeasurer s)) s)
      else ret tt
  | None => ret tt
  end.

(** A pure reading of the maps: the packets the numbers of the frame stand
    for, each number looked up in the three spaces. *)
Definition determineNewlyAckedPackets (receivedAckFrame : AckFrame)
    (s : QuicLossDetection) : list BasePacket :=
  flat_map (fun packetnumber =>
    flat_map (fun space =>
      match sp_lookup packetnumber (at_space space (sentPackets s)) with
      | Some foundPacket => [packet foundPacket]
      | None => []
      end) allSpaces)
    (determineAckedPacketNumbers receivedAckFrame).

Definition onSentPacketAcked (sentPacket : BasePacket) : M unit :=
  let ackedPacketNumber := packetNumber sentPacket in
  when (isRetransmittable sentPacket) (emit (PACKET_ACKED sentPacket)) ;;
  removeFromSentPackets (findPacketSpaceFromPacket sentPacket) ackedPacketNumber.

Definition onAckReceived (now : Q) (ackFrame : AckFrame) : M unit :=
  let space := findPacketSpaceFromAckFrame ackFrame in
  modify (fun s =>
    set_largestAckedPacket
      (set_space space
         (Z.max (getLargestAcknowledged ackFrame)
                (at_space space (largestAckedPacket s)))
         (largestAckedPacket s)) s) ;;
  updateRtt now ackFrame ;;
  acked <- gets (determineNewlyAckedPackets ackFrame) ;;
  forEach acked onSentPacketAcked ;;
  detectLostPackets now space ;;
  modify (set_cryptoCount 0) ;;
  modify (set_ptoCount 0) ;;
  setLossDetectionAlarm.

Definition onLossDetectionAlarm (now : Q) : M unit :=
  earliest <- gets getEarliestLossTime ;;
  let earliestLossTime := fst earliest in
  let space := snd earliest in
  outstanding <- gets cryptoOutstanding ;;
  (if 0 <? outstanding then
     retransmitAllUnackedHandshakeData ;;
     modify (fun s => set_cryptoCount (cryptoCount s + 1) s)
   else if Qnonzero earliestLossTime then
     detectLostPackets now space
   else
     sendTwoPackets ;;
     modify (fun s => set_ptoCount (ptoCount s + 1) s)) ;;
  setLossDetectionAlarm.

(** The listener [setLossDetectionAlarm] registers for the timeout of the
    alarm: the firing of the alarm. *)
Definition alarmTimeout (now : Q) : M unit :=
  modify (fun s => set_lossDetectionAlarm (Alarm_reset (lossDetectionAlarm s)) s) ;;
  onLossDetectionAlarm now.

Definition reset : M unit :=
  modify (fun s => set_lossDetectionAlarm (Alarm_reset (lossDetectionAlarm s)) s) ;;
  modify (set_sentPackets (mkPerSpace [] [] [])).

End Detector.

(** ** The RTT estimator of the specification *)

(** Modelled from the spec: the class [RTTMeasurement] is not among the
    sources.  Section 4.3 of the spec, with [0] for a value that is not set
    yet, as in the test [smoothedRtt == 0] of the detector. *)
Definition updateRTT_spec (now : Q) (ackFrame : AckFrame) (p : SentPacket)
    (rtt : RTTMeasurement) : RTTMeasurement :=
  let latest := (now - time p)%Q in
  let min_rtt := if Qeq_bool (minRtt rtt) 0%Q then latest
                 else Qmin (minRtt rtt) latest in
  let candidate := (latest - Qmin (getAckDelay ackFrame) (maxAckDelay rtt))%Q in
  let adjusted := if Qle_bool min_rtt candidate then candidate else latest in
  if Qeq_bool (smoothedRtt rtt) 0%Q then
    mkRTT latest adjusted (adjusted / 2)%Q min_rtt (maxAckDelay rtt)
  else
    mkRTT latest
      ((7 / 8) * smoothedRtt rtt + (1 / 8) * adjusted)%Q
      ((3 / 4) * rttVar rtt + (1 / 4) * Qabs (smoothedRtt rtt - adjusted))%Q
      min_rtt (maxAckDelay rtt).

(** The detector with the estimator of the specification and the numeric
    order on packet numbers. *)
Definition specCollaborators : Collaborators :=
  {| updateRTT := updateRTT_spec; bignum_gt := Z.gtb |}.

(** ** The header handler *)

Inductive HeaderType : Type := LongHeader | ShortHeader | VersionNegotiationHeader.

(** Modelled from the spec: [LongHeaderType] is not among the sources; the
    spec's data model gives a long header the types Initial, 0-RTT,
    Handshake and Retry. *)
Inductive LongHeaderType : Type :=
| LongHeaderType_Initial
| LongHeaderType_Retry
| LongHeaderType_Handshake
| LongHeaderType_Protected0RTT.

Inductive EndpointType : Type := Client | Server.

(** Modelled from the spec: [HandshakeState] is not among the sources; the
    handler tells the state [SERVER_HELLO], in which a server starts, from
    every other state. *)
Inductive HandshakeState : Type :=
| SERVER_HELLO
| OtherHandshakeState (tag : nat).

Inductive ConnectionErrorCodes : Type := VERSION_NEGOTIATION_ERROR | PROTOCOL_VIOLATION.
Inductive QuickerErrorCodes : Type := IGNORE_PACKET_ERROR.

(** What the handler throws (the message of an error is left out). *)
Inductive Thrown : Type :=
| QuicError (code : ConnectionErrorCodes)
| QuickerError (code : QuickerErrorCodes).

(** The fields of a header that the handler reads or writes; those of the
    subclasses [LongHeader] and [ShortHeader] are present in every header,
    as the casts of the source are unchecked.  The parsed buffer, which the
    handler only re-assembles, is left out. *)
Record Header : Type := mkHeader {
  getHeaderType : HeaderType;
  getPacketType : LongHeaderType;
  getVersion : Z;
  getPayloadLength : Z;
  getSpinBit : bool;
  getPacketNumber : Z;
  getPacketNumberSize : Z
}.

Definition setPacketNumber (pn : Z) (h : Header) : Header :=
  mkHeader (getHeaderType h) (getPacketType h) (getVersion h)
    (getPayloadLength h) (getSpinBit h) pn (getPacketNumberSize h).

Definition setPayloadLength (len : Z) (h : Header) : Header :=
  mkHeader (getHeaderType h) (getPacketType h) (getVersion h)
    len (getSpinBit h) (getPacketNumber h) (getPacketNumberSize h).

(** The part of a [Connection] the handler reads or writes;
    [highestReceivedNumber] is the highest received number of each packet
    number space. *)
Record Connection : Type := mkConnection {
  getEndpointType : EndpointType;
  connectionVersion : Z;
  getHandshakeState : HandshakeState;
  connectionSpinBit : bool;
  highestReceivedNumber : PerSpace (option Z)
}.

Definition setVersion (v : Z) (c : Connection) : Connection :=
  mkConnection (getEndpointType c) v (getHandshakeState c)
    (connectionSpinBit c) (highestReceivedNumber c).

Definition setSpinBit (b : bool) (c : Connection) : Connection :=
  mkConnection (getEndpointType c) (connectionVersion c) (getHandshakeState c)
    b (highestReceivedNumber c).

Definition setHighestReceivedNumber (space : kPacketNumberSpace) (pn : Z)
    (c : Connection) : Connection :=
  mkConnection (getEndpointType c) (connectionVersion c) (getHandshakeState c)
    (connectionSpinBit c)
    (set_space space (Some pn) (highestReceivedNumber c)).

(** Modelled from the spec: [getEncryptionContextByPacketType] and the
    packet number space of a context are not among the sources.  Data model
    of the spec: Initial and Handshake packets belong to the space of their
    name, 0-RTT and 1-RTT packets to ApplicationData. *)
Definition packetNumberSpaceOfType (t : PacketType) : kPacketNumberSpace :=
  match t with
  | PacketType_Initial => Initial
  | PacketType_Handshake => Handshake
  | _ => ApplicationData
  end.

(** What the handler takes from classes that are not among the sources:
    [VersionValidation.validateVersion]; the removal of the header
    protection by the AEAD of the packet type followed by [VLIE.decodePn],
    which gives the decoded number and the count of bytes it took; and
    [PacketNumber.adjustNumber]. *)
Class HeaderCollaborators : Type := {
  validateVersion : Z -> Header -> option Z;
  decodePn : PacketType -> Connection -> Header -> list Z -> EndpointType -> Z * Z;
  adjustNumber : Z -> Z -> Z -> Z
}.

Inductive Handled : Type :=
| Returned (connection : Connection) (header : Header) (offset : Z)
| Threw (e : Thrown).

Definition HandshakeState_is_SERVER_HELLO (st : HandshakeState) : bool :=
  match st with SERVER_HELLO => true | _ => false end.

Definition HeaderType_eqb (a b : HeaderType) : bool :=
  match a, b with
  | LongHeader, LongHeader | ShortHeader, ShortHeader
  | VersionNegotiationHeader, VersionNegotiationHeader => true
  | _, _ => false
  end.

Definition handleShortHeader (connection : Connection) (shortHeader : Header)
    (highestCurrentPacketNumber : bool) : Connection :=
  if highestCurrentPacketNumber then
    let spinbit :=
      match getEndpointType connection with
      | Client => negb (getSpinBit shortHeader)
      | Server => getSpinBit shortHeader
      end in
    setSpinBit spinbit connection
  else connection.

Definition handleLongHeader (connection : Connection) (longHeader : Header)
    (highestCurrentPacketNumber : bool) : Connection := connection.

Section Handler.

Context {headerCollaborators : HeaderCollaborators}.

Definition handleClientVersion (connection : Connection) (longHeader : Header)
  : Thrown + Z :=
  match validateVersion (connectionVersion connection) longHeader with
  | None =>
      match getPacketType longHeader with
      | LongHeaderType_Initial => inl (QuicError VERSION_NEGOTIATION_ERROR)
      | t =>
          if (match t with LongHeaderType_Protected0RTT => true | _ => false end)
             || HandshakeState_is_SERVER_HELLO (getHandshakeState connection)
          then inl (QuickerError IGNORE_PACKET_ERROR)
          else inl (QuicError PROTOCOL_VIOLATION)
      end
  | Some negotiatedVersion => inr negotiatedVersion
  end.

(** The type of the packet and with it the AEAD that unmasks its number. *)
Definition actualPacketType (header : Header) : PacketType :=
  match getHeaderType header with
  | LongHeader =>
      match getPacketType header with
      | LongHeaderType_Protected0RTT => PacketType_Protected0RTT
      | LongHeaderType_Handshake => PacketType_Handshake
      | _ => PacketType_Initial
      end
  | _ => PacketType_Protected1RTT
  end.

(** [handle], after the version of a long header was looked at, in the
    runs in which the parsed buffer of the header has four bytes or more,
    no collaborator throws and the [PacketNumber] object of the header is
    not the highest received number of a space; [handleObject] below has
    the other runs too. *)
Definition handle_decoded (connection : Connection) (header : Header)
    (offset : Z) (msg : list Z) (encryptingEndpoint : EndpointType) : Handled :=
  if HeaderType_eqb (getHeaderType header) VersionNegotiationHeader then
    Returned connection header offset
  else
    let actualPacketType := actualPacketType header in
    let decodedPnVlieOffset :=
      decodePn actualPacketType connection header msg encryptingEndpoint in
    let header := setPacketNumber (fst decodedPnVlieOffset) header in
    let offset := offset - 4 + snd decodedPnVlieOffset in
    let pnSpace := packetNumberSpaceOfType actualPacketType in
    let '(connection, header, highestCurrentPacketNumber) :=
      match at_space pnSpace (highestReceivedNumber connection) with
      | None =>
          (setHighestReceivedNumber pnSpace (getPacketNumber header) connection,
           header, true)
      | Some highestReceivedNumber =>
          let adjustedNumber :=
            adjustNumber highestReceivedNumber (getPacketNumber header)
              (getPacketNumberSize header) in
          if highestReceivedNumber <? adjustedNumber then
            (setHighestReceivedNumber pnSpace adjustedNumber connection,
             setPacketNumber adjustedNumber header, true)
          else
            (connection, setPacketNumber adjustedNumber header, false)
      end in
    match getHeaderType header with
    | LongHeader =>
        let lh :=
          setPayloadLength (getPayloadLength header - snd decodedPnVlieOffset)
            header in
        Returned (handleLongHeader connection lh highestCurrentPacketNumber)
          lh offset
    | ShortHeader =>
        Returned (handleShortHeader connection header highestCurrentPacketNumber)
          header offset
    | VersionNegotiationHeader => Returned connection header offset
    end.

Definition handle (connection : Connection) (header : Header) (offset : Z)
    (msg : list Z) (encryptingEndpoint : EndpointType) : Handled :=
  if HeaderType_eqb (getHeaderType header) LongHeader
     && (match getEndpointType connection with Server => true | Client => false end)
  then
    match handleClientVersion connection header with
    | inl e => Threw e
    | inr negotiatedVersion =>
        handle_decoded (setVersion negotiatedVersion connection) header offset
          msg encryptingEndpoint
    end
  else handle_decoded connection header offset msg encryptingEndpoint.

End Handler.

(** Modelled from the spec: the reconstruction of a packet number from its
    truncation ([PacketNumber.adjustNumber] is not among the sources),
    section 3 of the spec: the number congruent to the truncated one modulo
    [2^w] that is closest to the expected one, the higher of two at the same
    distance. *)
Definition adjustNumber_spec (highest truncated size : Z) : Z :=
  let w := 8 * size in
  let expected := highest + 1 in
  let win := 2 ^ w in
  let candidate := expected - (expected mod win) + (truncated mod win) in
  if (candidate + win / 2 <=? expected) then candidate + win
  else if (expected + win / 2 <? candidate) && (win <=? candidate) then candidate - win
  else candidate.

(** A handler that knows one version, reads the number of a packet from the
    first element of the datagram and reconstructs it as the spec says. *)
Definition exampleHeaderCollaborators : HeaderCollaborators :=
  {| validateVersion := fun ours h =>
       if getVersion h =? ours then Some ours else None;
     decodePn := fun _ _ _ msg _ => (hd 0 msg, 1);
     adjustNumber := adjustNumber_spec |}.

(** ** The states the straight-line methods leave *)

(** The entries of the map of a space. *)
Definition entries (space : kPacketNumberSpace) (s : QuicLossDetection)
  : SentPackets := at_space space (sentPackets s).

(** The state [removeFromSentPackets] leaves. *)
Definition removeFromSentPackets_state (space : kPacketNumberSpace)
    (packetNumber : Z) (s : QuicLossDetection) : QuicLossDetection :=
  match sp_lookup packetNumber (at_space space (sentPackets s)) with
  | None => s
  | Some entry =>
      let s1 := if isRetransmittable (packet entry)
                then set_ackElicitingPacketsOutstanding
                       (ackElicitingPacketsOutstanding s - 1) s
                else s in
      let s2 := if isHandshake (packet entry)
                then set_cryptoOutstanding (cryptoOutstanding s1 - 1) s1
                else s1 in
      set_sentPackets
        (set_space space
           (sp_delete packetNumber (at_space space (sentPackets s2)))
           (sentPackets s2)) s2
  end.

(** The state [setLossDetectionAlarm] leaves. *)
Definition setLossDetectionAlarm_state (s : QuicLossDetection) : QuicLossDetection :=
  if ackElicitingPacketsOutstanding s =? 0 then set_lossDetectionAlarm AlarmIdle s
  else
    match lossDetectionAlarm s with
    | AlarmIdle =>
        set_lossDetectionAlarm (AlarmRunning (fst (alarmDurationAndTime s))) s
    | AlarmRunning _ => s
    end.

(** ** Runs of the detector *)

(** What reaches the detector from outside: the three entry points, and the
    firing of its alarm. *)
Inductive Call : Type :=
| CallOnPacketSent (now : Q) (basePacket : BasePacket)
| CallOnAckReceived (now : Q) (ackFrame : AckFrame)
| CallAlarmTimeout (now : Q)
| CallReset.

Definition run_call {C : Collaborators} (c : Call) : M unit :=
  match c with
  | CallOnPacketSent now basePacket => onPacketSent now basePacket
  | CallOnAckReceived now ackFrame => onAckReceived now ackFrame
  | CallAlarmTimeout now => alarmTimeout now
  | CallReset => reset
  end.

Definition run_calls {C : Collaborators} (calls : list Call) : M unit :=
  forEach calls run_call.

(** ** Well-formed maps, and what the counters count *)

(** An entry is stored under the number of its packet, in the space of its
    packet. *)
Definition entry_ok (space : kPacketNumberSpace) (e : Z * SentPacket) : Prop :=
  packetNumber (packet (snd e)) = fst e
  /\ findPacketSpaceFromPacket (packet (snd e)) = space.

(** The maps of a detector as JavaScript objects: no key twice, and every
    entry where [onPacketSent] puts it. *)
Definition wf_map (space : kPacketNumberSpace) (m : SentPackets) : Prop :=
  NoDup (sp_keys m) /\ Forall (entry_ok space) m.

Definition wf (s : QuicLossDetection) : Prop :=
  forall space, wf_map space (entries space s).

Definition ackEliciting (e : Z * SentPacket) : bool :=
  isRetransmittable (packet (snd e)).

Definition carriesCrypto (e : Z * SentPacket) : bool :=
  isHandshake (packet (snd e)).

(** The entries of the given spaces, each with its space, in the order of
    the loops of the source. *)
Definition entriesOf (spaces : list kPacketNumberSpace) (s : QuicLossDetection)
  : list (kPacketNumberSpace * (Z * SentPacket)) :=
  flat_map (fun space => map (pair space) (entries space s)) spaces.

(** The number of sent packets, over the three spaces, that are
    ack-eliciting. *)
Definition countAckEliciting (s : QuicLossDetection) : Z :=
  Z.of_nat (length (filter (fun x => ackEliciting (snd x)) (entriesOf allSpaces s))).

(** The ack-eliciting entries of the given spaces: the packets
    [sendPackets] may retransmit, in the order in which it meets them. *)
Definition candidates (spaces : list kPacketNumberSpace) (s : QuicLossDetection)
  : list (kPacketNumberSpace * (Z * SentPacket)) :=
  flat_map (fun space => map (pair space) (filter ackEliciting (entries space s)))
    spaces.

Definition probes (amount : Z) (s : QuicLossDetection)
  : list (kPacketNumberSpace * (Z * SentPacket)) :=
  firstn (Z.to_nat amount) (candidates allSpaces s).

Definition probePacket (x : kPacketNumberSpace * (Z * SentPacket)) : BasePacket :=
  packet (snd (snd x)).

(** The state after [removeFromSentPackets] for each of the listed
    entries. *)
Definition removeAll (l : list (kPacketNumberSpace * (Z * SentPacket)))
    (s : QuicLossDetection) : QuicLossDetection :=
  fold_left (fun s x => removeFromSentPackets_state (fst x) (fst (snd x)) s) l s.

(** The packet is in none of the maps. *)
Definition absent (p : BasePacket) (s : QuicLossDetection) : Prop :=
  forall space e, In e (entries space s) -> packet (snd e) <> p.

(** The events that acknowledge a packet or declare it lost do not name
    [p]. *)
Definition neither_acked_nor_lost (p : BasePacket) (out : list Action) : Prop :=
  forall a, In a out ->
    a <> PACKET_ACKED p /\ (forall lost, a = PACKETS_LOST lost -> ~ In p lost).

(** The call registers a packet of the space and number of [p]. *)
Definition registers_again (p : BasePacket) (c : Call) : Prop :=
  match c with
  | CallOnPacketSent _ q =>
      findPacketSpaceFromPacket q = findPacketSpaceFromPacket p
      /\ packetNumber q = packetNumber p
  | _ => False
  end.

(** The entries of the given spaces that carry handshake data: what
    [retransmitAllUnackedHandshakeData] takes out of the maps. *)
Definition cryptoEntries (spaces : list kPacketNumberSpace) (s : QuicLossDetection)
  : list (kPacketNumberSpace * (Z * SentPacket)) :=
  flat_map (fun space => map (pair space) (filter carriesCrypto (entries space s)))
    spaces.

(** The events of [retransmitPacket] for each of the listed entries. *)
Definition retransmissions (l : list (kPacketNumberSpace * (Z * SentPacket)))
  : list Action :=
  flat_map (fun x => if isRetransmittable (probePacket x)
                     then [RETRANSMIT_PACKET (probePacket x)] else []) l.

(** The state and the events of [onPacketSent]. *)
Definition onPacketSent_state (now : Q) (basePacket : BasePacket)
    (s : QuicLossDetection) : QuicLossDetection :=
  let space := findPacketSpaceFromPacket basePacket in
  let s1 := if isHandshake basePacket
            then set_timeOfLastSentCryptoPacket now
                   (set_cryptoOutstanding (cryptoOutstanding s + 1) s)
            else s in
  let s2 := if isRetransmittable basePacket
            then set_timeOfLastSentAckElicitingPacket now
                   (set_ackElicitingPacketsOutstanding
                      (ackElicitingPacketsOutstanding s1 + 1) s1)
            else s1 in
  let s3 := setLossDetectionAlarm_state s2 in
  match sp_lookup (packetNumber basePacket) (entries space s3) with
  | Some _ => s3
  | None =>
      set_sentPackets
        (set_space space
           (sp_add (packetNumber basePacket)
              (mkSentPacket basePacket now (isRetransmittable basePacket))
              (entries space s3))
           (sentPackets s3)) s3
  end.

(** The state after [onSentPacketAcked] for each of the listed packets, and
    the events of these calls. *)
Definition ackAll_state (l : list BasePacket) (s : QuicLossDetection)
  : QuicLossDetection :=
  fold_left (fun s q =>
    removeFromSentPackets_state (findPacketSpaceFromPacket q) (packetNumber q) s)
    l s.

Definition ackAll_out (l : list BasePacket) : list Action :=
  flat_map (fun q => if isRetransmittable q then [PACKET_ACKED q] else []) l.

(** The sent packet [updateRtt] hands to the estimator, if any: the one
    stored under the largest acknowledged number in the space of the frame,
    when it was recorded as retransmittable. *)
Definition rttSample (ackFrame : AckFrame) (s : QuicLossDetection)
  : option SentPacket :=
  match sp_lookup (getLargestAcknowledged ackFrame)
          (entries (findPacketSpaceFromAckFrame ackFrame) s) with
  | Some p => if sent_isRetransmittable p then Some p else None
  | None => None
  end.

Section DetectorStates.

Context {collaborators : Collaborators}.

Definition updateRtt_state (now : Q) (ackFrame : AckFrame) (s : QuicLossDetection)
  : QuicLossDetection :=
  match rttSample ackFrame s with
  | Some p => set_rttMeasurer (updateRTT now ackFrame p (rttMeasurer s)) s
  | None => s
  end.

Definition updateRtt_out (ackFrame : AckFrame) (s : QuicLossDetection)
  : list Action :=
  match rttSample ackFrame s with
  | Some p => [Call_updateRTT ackFrame p]
  | None => []
  end.

(** The state and the events of [onAckReceived]. *)
Definition onAckReceived_state (now : Q) (ackFrame : AckFrame)
    (s : QuicLossDetection) : QuicLossDetection :=
  let space := findPacketSpaceFromAckFrame ackFrame in
  let s1 := set_largestAckedPacket
              (set_space space
                 (Z.max (getLargestAcknowledged ackFrame)
                    (at_space space (largestAckedPacket s)))
                 (largestAckedPacket s)) s in
  let s2 := updateRtt_state now ackFrame s1 in
  let s3 := ackAll_state (determineNewlyAckedPackets ackFrame s2) s2 in
  let s4 := set_lossTime (set_space space 0%Q (lossTime s3)) s3 in
  setLossDetectionAlarm_state (set_ptoCount 0 (set_cryptoCount 0 s4)).

Definition onAckReceived_out (ackFrame : AckFrame) (s : QuicLossDetection)
  : list Action :=
  updateRtt_out ackFrame s ++ ackAll_out (determineNewlyAckedPackets ackFrame s).

End DetectorStates.

(** The state and the events of the firing of the alarm, on well-formed
    maps. *)
Definition alarmTimeout_state (s : QuicLossDetection) : QuicLossDetection :=
  let s0 := set_lossDetectionAlarm AlarmIdle s in
  let earliest := getEarliestLossTime s0 in
  let s1 :=
    if 0 <? cryptoOutstanding s0 then
      let s' := removeAll (cryptoEntries allSpaces s0) s0 in
      set_cryptoCount (cryptoCount s' + 1) s'
    else if Qnonzero (fst earliest) then
      set_lossTime (set_space (snd earliest) 0%Q (lossTime s0)) s0
    else
      let s' := removeAll (probes 2 s0) s0 in
      set_ptoCount (ptoCount s' + 1) s' in
  setLossDetectionAlarm_state s1.

Definition alarmTimeout_out (s : QuicLossDetection) : list Action :=
  if 0 <? cryptoOutstanding s then retransmissions (cryptoEntries allSpaces s)
  else if Qnonzero (fst (getEarliestLossTime s)) then []
  else map (fun x => RETRANSMIT_PACKET (probePacket x)) (probes 2 s).

(** ** Properties of states *)

(** The duration of the specification for the crypto retransmission mode. *)
Definition cryptoDuration_spec (s : QuicLossDetection) : Q :=
  let rtt := rttMeasurer s in
  (Qmax (2 * (if Qeq_bool (smoothedRtt rtt) 0 then 100 else smoothedRtt rtt)
         + maxAckDelay rtt) 50
   * 2 ^ cryptoCount s)%Q.

(** The entry is stored under the number of its packet. *)
Definition key_is_number (e : Z * SentPacket) : Prop :=
  packetNumber (packet (snd e)) = fst e.

(** The counter agrees with the maps. *)
Definition counts (s : QuicLossDetection) : Prop :=
  ackElicitingPacketsOutstanding s = countAckEliciting s.

(** The states of a detector in use: what calls make of the object the
    constructor builds. *)
Definition reachable {C : Collaborators} (s : QuicLossDetection) : Prop :=
  exists rtt calls out, run_calls calls (constructor rtt) = Done tt s out.

(** ** Packets, states and runs of the examples *)

(** A handshake packet that elicits an ACK, and an ack-eliciting packet
    of the application data space. *)
Definition cryptoPacket (n : Z) : BasePacket :=
  mkBasePacket n PacketType_Initial true true.
Definition dataPacket (n : Z) : BasePacket :=
  mkBasePacket n PacketType_Protected1RTT true false.

Definition noSample : RTTMeasurement := mkRTT 0 0 0 0 0.

(** A detector with four packets of the application data space in flight,
    the second of which elicits no ACK, and its PTO alarm running. *)
Definition ackOnlyPacket (n : Z) : BasePacket :=
  mkBasePacket n PacketType_Protected1RTT false false.

Definition probeState : QuicLossDetection :=
  mkLossDetection (AlarmRunning 225) 0 0 3 0
    (mkPerSpace 0 0 0) (mkPerSpace 0 0 0)%Q
    (mkPerSpace [] []
       [(0, mkSentPacket (dataPacket 0) 0 true);
        (1, mkSentPacket (ackOnlyPacket 1) 1 false);
        (2, mkSentPacket (dataPacket 2) 2 true);
        (3, mkSentPacket (dataPacket 3) 3 true)])
    3 0 (mkRTT 100 100 25 100 25).

(** A detector without RTT sample whose crypto alarm has fired once, as
    [onPacketSent] finds it when the handshake packet is sent again: the
    counters are raised, the alarm is idle, the packet is not stored yet. *)
Definition idleCryptoState : QuicLossDetection :=
  mkLossDetection AlarmIdle 1 0 0 0
    (mkPerSpace 0 0 0) (mkPerSpace 0 0 0)%Q (mkPerSpace [] [] [])
    1 1 noSample.

(** The second scenario of the specification: the packets 0 to 5 are sent,
    10 ms apart, and an ACK for packet 4 alone arrives 100 ms after that
    packet left. *)
Definition packetThresholdScenario : list Call :=
  [CallOnPacketSent 0 (dataPacket 0); CallOnPacketSent 10 (dataPacket 1);
   CallOnPacketSent 20 (dataPacket 2); CallOnPacketSent 30 (dataPacket 3);
   CallOnPacketSent 40 (dataPacket 4); CallOnPacketSent 50 (dataPacket 5);
   CallOnAckReceived 140 (mkAckFrame 4 (Some ONE_RTT) [4] 0)].

(** A server that speaks version 1 and is past its first state. *)
Definition serverConnection (st : HandshakeState) : Connection :=
  mkConnection Server 1 st false (mkPerSpace None None None).


Definition longHeaderOfVersion2 (t : LongHeaderType) : Header :=
  mkHeader LongHeader t 2 100 false 0 1.

Definition shortHeader (spin : bool) : Header :=
  mkHeader ShortHeader LongHeaderType_Initial 1 0 spin 0 1.


(** ** Further notions for the properties of the detector *)

(** The number of sent packets, over the three spaces, that carry
    handshake data. *)
Definition countCrypto (s : QuicLossDetection) : Z :=
  Z.of_nat (length (filter (fun x => carriesCrypto (snd x)) (entriesOf allSpaces s))).

(** The removal [onSentPacketAcked] asks for, as an element of the lists
    [removeAll] takes: the space and the number of the packet. *)
Definition removalOf (q : BasePacket) : kPacketNumberSpace * (Z * SentPacket) :=
  (findPacketSpaceFromPacket q, (packetNumber q, mkSentPacket q 0%Q false)).

(** The duration of the specification for the PTO mode. *)
Definition ptoDuration_spec (s : QuicLossDetection) : Q :=
  let rtt := rttMeasurer s in
  (Qmax (smoothedRtt rtt + 4 * rttVar rtt + maxAckDelay rtt) 50
   * 2 ^ ptoCount s)%Q.

(** No loss time is set. *)
Definition noLossTime : PerSpace Q := mkPerSpace 0%Q 0%Q 0%Q.

(** Some sent packet elicits an ACK. *)
Definition ackElicitingInFlight (s : QuicLossDetection) : Prop :=
  exists space e, In e (entries space s) /\ ackEliciting e = true.

(** Some sent packet carries handshake data. *)
Definition cryptoInFlight (s : QuicLossDetection) : Prop :=
  exists space e, In e (entries space s) /\ carriesCrypto e = true.

(** One round of the loop of [getEarliestLossTime]. *)
Definition earlier (s : QuicLossDetection) (acc : Q * kPacketNumberSpace)
    (pnSpace : kPacketNumberSpace) : Q * kPacketNumberSpace :=
  let lt := at_space pnSpace (lossTime s) in
  if Qnonzero lt && (Qeq_bool (fst acc) 0%Q || Qlt_bool lt (fst acc))
  then (lt, pnSpace) else acc.

(** By how much each of the two counters of outstanding packets exceeds
    what the maps hold. *)
Definition excessAckEliciting (s : QuicLossDetection) : Z :=
  ackElicitingPacketsOutstanding s - countAckEliciting s.

Definition excessCrypto (s : QuicLossDetection) : Z :=
  cryptoOutstanding s - countCrypto s.

(** What holds of a detector in use between two calls: its maps are
    well-formed, neither counter is below what the maps hold, and the
    alarm is running exactly when ack-eliciting packets are counted,
    unless the maps are empty. *)
Definition inUse (s : QuicLossDetection) : Prop :=
  wf s
  /\ 0 <= excessAckEliciting s
  /\ 0 <= excessCrypto s
  /\ (Alarm_isRunning (lossDetectionAlarm s)
      = negb (ackElicitingPacketsOutstanding s =? 0)
      \/ forall space, entries space s = []).

(** A detector in the handshake: an Initial packet with handshake data, a
    Handshake packet with handshake data that elicits no ACK, and a packet
    of the application data space, with the crypto alarm running. *)
Definition handshakeAckPacket (n : Z) : BasePacket :=
  mkBasePacket n PacketType_Handshake false true.

Definition handshakeState : QuicLossDetection :=
  mkLossDetection (AlarmRunning 200) 0 0 2 1
    (mkPerSpace 0 0 0) (mkPerSpace 0 0 0)%Q
    (mkPerSpace [(0, mkSentPacket (cryptoPacket 0) 0 true)]
       [(0, mkSentPacket (handshakeAckPacket 0) 1 false)]
       [(0, mkSentPacket (dataPacket 0) 2 true)])
    2 2 noSample.

(** ** Further notions for the properties of the header handler *)


(** The connection behind the version gate of [handle]: a server has
    taken the negotiated version of a long header. *)
Definition afterVersionGate {H : HeaderCollaborators} (connection : Connection)
    (header : Header) : Connection :=
  match getHeaderType header, getEndpointType connection,
        validateVersion (connectionVersion connection) header with
  | LongHeader, Server, Some negotiatedVersion =>
      setVersion negotiatedVersion connection
  | _, _, _ => connection
  end.


(** ** The HTTP/3 response *)

Module Http3.

(** [class Http3Response]: a buffer is a list of bytes and a string a list
    of characters.  The headers, which only [Http3HeaderFrame] reads, are
    left out, and with them [setHeaderValue] and [toBuffer], which builds
    frames and reads files. *)
Record Http3Response : Type := mkHttp3Response {
  ready : bool;
  content : option (list Z);
  filePath : option (list ascii)
}.

(** The object after the field initialisers. *)
Definition new : Http3Response := mkHttp3Response false None None.

(** Each method returns its result and the object it leaves. *)
Definition sendFile (path : list ascii) (r : Http3Response)
  : bool * Http3Response :=
  if ready r then (false, r)
  else (true, mkHttp3Response true (content r) (Some path)).

Definition send (c : list Z) (r : Http3Response) : bool * Http3Response :=
  match content r, filePath r with
  | None, None => (true, mkHttp3Response true (Some c) (filePath r))
  | _, _ => (false, r)
  end.

Definition isReady (r : Http3Response) : bool := ready r.
Definition getContent (r : Http3Response) : option (list Z) := content r.
Definition getFilePath (r : Http3Response) : option (list ascii) := filePath r.

(** [path.endsWith("/")] *)
Definition endsWithSlash (path : list ascii) : bool :=
  match rev path with
  | c :: _ => Ascii.eqb c "/"%char
  | [] => false
  end.

Definition index_html : list ascii :=
  ["i"; "n"; "d"; "e"; "x"; "."; "h"; "t"; "m"; "l"]%char.

Definition parsePath (path : list ascii) : list ascii :=
  if endsWithSlash path then path ++ index_html else path.

(** The calls of an application that fills a response. *)
Inductive Call : Type :=
| CallSend (c : list Z)
| CallSendFile (path : list ascii).

Definition run_call (c : Call) (r : Http3Response) : bool * Http3Response :=
  match c with
  | CallSend b => send b r
  | CallSendFile path => sendFile path r
  end.

(** The results of the calls, in their order, and the object at the end. *)
Fixpoint run_calls (calls : list Call) (r : Http3Response)
  : list bool * Http3Response :=
  match calls with
  | [] => ([], r)
  | c :: calls' =>
      let (b, r1) := run_call c r in
      let (bs, r2) := run_calls calls' r1 in
      (b :: bs, r2)
  end.

End Http3.

(** ** The header handler on shared objects *)

(** [handle] again, with what [handle_decoded] leaves out: the parsed
    buffer of the header, of which the last four bytes are copied; the
    calls of the AEAD, of [VLIE.decodePn] and for the encryption context,
    which may throw; and the identity of [PacketNumber] objects, which
    the packet number space and the header may share.  A [Bignum] is an
    immutable value, as before; the arithmetic on packet numbers
    ([adjustNumber], [subtract], [lessThan], [toBuffer]) and the logging
    return; the collaborators write no object. *)

(** The [PacketNumber] objects that exist, each with its value, and the
    count of those created so far: [new PacketNumber] takes the next one. *)
Record Heap : Type := mkHeap {
  valueOf : nat -> Z;
  allocated : nat
}.

Definition getValue (pn : nat) (heap : Heap) : Z := valueOf heap pn.

Definition setValue (pn : nat) (value : Z) (heap : Heap) : Heap :=
  mkHeap (fun r => if Nat.eqb r pn then value else valueOf heap r)
    (allocated heap).

Definition newPacketNumber (value : Z) (heap : Heap) : nat * Heap :=
  (allocated heap,
   mkHeap (fun r => if Nat.eqb r (allocated heap) then value
                    else valueOf heap r)
     (S (allocated heap))).

(** A header as an object: [packetNumberOf] is its [PacketNumber] object,
    [parsedBuffer] the bytes the parser read for it. *)
Record HeaderObject : Type := mkHeaderObject {
  headerTypeOf : HeaderType;
  packetTypeOf : LongHeaderType;
  versionOf : Z;
  payloadLengthOf : Z;
  spinBitOf : bool;
  packetNumberOf : nat;
  packetNumberSizeOf : Z;
  parsedBuffer : list Z
}.

Definition setParsedBuffer (buffer : list Z) (h : HeaderObject) : HeaderObject :=
  mkHeaderObject (headerTypeOf h) (packetTypeOf h) (versionOf h)
    (payloadLengthOf h) (spinBitOf h) (packetNumberOf h)
    (packetNumberSizeOf h) buffer.

Definition setPayloadLengthOf (len : Z) (h : HeaderObject) : HeaderObject :=
  mkHeaderObject (headerTypeOf h) (packetTypeOf h) (versionOf h)
    len (spinBitOf h) (packetNumberOf h) (packetNumberSizeOf h)
    (parsedBuffer h).

(** A connection as an object: the highest received number of a packet
    number space is a [PacketNumber] object. *)
Record ConnectionObject : Type := mkConnectionObject {
  endpointTypeOf : EndpointType;
  connectionVersionOf : Z;
  handshakeStateOf : HandshakeState;
  connectionSpinBitOf : bool;
  highestReceivedObject : PerSpace (option nat)
}.

Definition setVersionOf (v : Z) (c : ConnectionObject) : ConnectionObject :=
  mkConnectionObject (endpointTypeOf c) v (handshakeStateOf c)
    (connectionSpinBitOf c) (highestReceivedObject c).

Definition setSpinBitOf (b : bool) (c : ConnectionObject) : ConnectionObject :=
  mkConnectionObject (endpointTypeOf c) (connectionVersionOf c)
    (handshakeStateOf c) b (highestReceivedObject c).

Definition setHighestReceivedObject (space : kPacketNumberSpace) (pn : nat)
    (c : ConnectionObject) : ConnectionObject :=
  mkConnectionObject (endpointTypeOf c) (connectionVersionOf c)
    (handshakeStateOf c) (connectionSpinBitOf c)
    (set_space space (Some pn) (highestReceivedObject c)).

(** What a reader of the objects sees: the header and the connection with
    the values of their [PacketNumber] objects. *)
Definition headerOf (heap : Heap) (h : HeaderObject) : Header :=
  mkHeader (headerTypeOf h) (packetTypeOf h) (versionOf h)
    (payloadLengthOf h) (spinBitOf h) (getValue (packetNumberOf h) heap)
    (packetNumberSizeOf h).

Definition valuesOf (heap : Heap) (a : PerSpace (option nat))
  : PerSpace (option Z) :=
  mkPerSpace (option_map (fun pn => getValue pn heap) (atInitial a))
    (option_map (fun pn => getValue pn heap) (atHandshake a))
    (option_map (fun pn => getValue pn heap) (atApplicationData a)).

Definition connectionOf (heap : Heap) (c : ConnectionObject) : Connection :=
  mkConnection (endpointTypeOf c) (connectionVersionOf c) (handshakeStateOf c)
    (connectionSpinBitOf c) (valuesOf heap (highestReceivedObject c)).

(** [msg.slice(start)] of a Node.js buffer: a negative start counts from
    the end, and a start beyond the end gives the empty buffer. *)
Definition slice_from (start : Z) (buffer : list Z) : list Z :=
  let len := Z.of_nat (length buffer) in
  let start := if start <? 0 then Z.max (len + start) 0 else Z.min start len in
  skipn (Z.to_nat start) buffer.

(** What the handler takes from classes that are not among the sources,
    beyond [HeaderCollaborators]: the removal of the header protection by
    the AEAD of the packet type and [VLIE.decodePn], each of which may
    throw ([None]); [Bignum.toBuffer]; and whether the connection has an
    encryption context for the packet type ([false]: the call for it
    throws or gives none). *)
Class ObjectCollaborators : Type := {
  pnDecrypt : PacketType -> Connection -> list Z -> Header -> list Z
              -> EndpointType -> option (list Z);
  VLIE_decodePn : list Z -> option (Z * Z);
  toBuffer : Z -> Z -> list Z;
  hasEncryptionContext : Connection -> PacketType -> bool
}.

(** What leaves [handle] other than its result. *)
Inductive Exception : Type :=
| ThrownByHandler (e : Thrown)
| RangeError
| ThrownByCollaborator.

(** The end of a call of [handle]: the objects as the call leaves them,
    with the header and the offset of the result or with what was
    thrown. *)
Inductive HandledObject : Type :=
| ObjectReturned (heap : Heap) (connection : ConnectionObject)
    (header : HeaderObject) (offset : Z)
| ObjectThrew (e : Exception) (heap : Heap) (connection : ConnectionObject)
    (header : HeaderObject) (offset : Z).

Definition handleShortHeaderObject (connection : ConnectionObject)
    (shortHeader : HeaderObject) (highestCurrentPacketNumber : bool)
  : ConnectionObject :=
  if highestCurrentPacketNumber then
    let spinbit :=
      match endpointTypeOf connection with
      | Client => negb (spinBitOf shortHeader)
      | Server => spinBitOf shortHeader
      end in
    setSpinBitOf spinbit connection
  else connection.

Definition handleLongHeaderObject (connection : ConnectionObject)
    (longHeader : HeaderObject) (highestCurrentPacketNumber : bool)
  : ConnectionObject := connection.

Section ObjectHandler.

Context {headerCollaborators : HeaderCollaborators}.
Context {objectCollaborators : ObjectCollaborators}.

(** The adjustment of the remote packet number, lines 76 to 91: a space
    without highest received number takes the [PacketNumber] object of the
    header itself. *)
Definition adjustRemotePacketNumber (pnSpace : kPacketNumberSpace)
    (heap : Heap) (connection : ConnectionObject) (header : HeaderObject)
  : Heap * ConnectionObject * bool :=
  match at_space pnSpace (highestReceivedObject connection) with
  | None =>
      (heap,
       setHighestReceivedObject pnSpace (packetNumberOf header) connection,
       true)
  | Some highestReceivedNumber =>
      let adjustedNumber :=
        adjustNumber (getValue highestReceivedNumber heap)
          (getValue (packetNumberOf header) heap)
          (packetNumberSizeOf header) in
      if getValue highestReceivedNumber heap <? adjustedNumber then
        let (fresh, heap) := newPacketNumber adjustedNumber heap in
        (setValue (packetNumberOf header) adjustedNumber heap,
         setHighestReceivedObject pnSpace fresh connection, true)
      else
        (setValue (packetNumberOf header) adjustedNumber heap, connection,
         false)
  end.

(** [handle], after the version of a long header was looked at. *)
Definition handleObject_decoded (heap : Heap) (connection : ConnectionObject)
    (header : HeaderObject) (offset : Z) (msg : list Z)
    (encryptingEndpoint : EndpointType) : HandledObject :=
  if HeaderType_eqb (headerTypeOf header) VersionNegotiationHeader then
    ObjectReturned heap connection header offset
  else
    let payload := slice_from offset msg in
    let fullPayload := parsedBuffer header ++ payload in
    let sourceStart := Z.of_nat (length (parsedBuffer header)) - 4 in
    if sourceStart <? 0 then
      ObjectThrew RangeError heap connection header offset
    else
      let pne := skipn (Z.to_nat sourceStart) (parsedBuffer header) in
      let actualPacketType := actualPacketType (headerOf heap header) in
      match pnDecrypt actualPacketType (connectionOf heap connection) pne
              (headerOf heap header) fullPayload encryptingEndpoint with
      | None => ObjectThrew ThrownByCollaborator heap connection header offset
      | Some pn =>
          match VLIE_decodePn pn with
          | None =>
              ObjectThrew ThrownByCollaborator heap connection header offset
          | Some decodedPnVlieOffset =>
              let heap :=
                setValue (packetNumberOf header) (fst decodedPnVlieOffset)
                  heap in
              let offset := offset - 4 + snd decodedPnVlieOffset in
              let header :=
                setParsedBuffer
                  (firstn (Z.to_nat sourceStart) (parsedBuffer header)
                   ++ toBuffer (fst decodedPnVlieOffset)
                        (snd decodedPnVlieOffset))
                  header in
              if hasEncryptionContext (connectionOf heap connection)
                   actualPacketType
              then
                let pnSpace := packetNumberSpaceOfType actualPacketType in
                let '(heap, connection, highestCurrentPacketNumber) :=
                  adjustRemotePacketNumber pnSpace heap connection header in
                match headerTypeOf header with
                | LongHeader =>
                    let lh :=
                      setPayloadLengthOf
                        (payloadLengthOf header - snd decodedPnVlieOffset)
                        header in
                    ObjectReturned heap
                      (handleLongHeaderObject connection lh
                         highestCurrentPacketNumber)
                      lh offset
                | ShortHeader =>
                    ObjectReturned heap
                      (handleShortHeaderObject connection header
                         highestCurrentPacketNumber)
                      header offset
                | VersionNegotiationHeader =>
                    ObjectReturned heap connection header offset
                end
              else
                ObjectThrew ThrownByCollaborator heap connection header offset
          end
      end.

Definition handleObject (heap : Heap) (connection : ConnectionObject)
    (header : HeaderObject) (offset : Z) (msg : list Z)
    (encryptingEndpoint : EndpointType) : HandledObject :=
  if HeaderType_eqb (headerTypeOf header) LongHeader
     && (match endpointTypeOf connection with
         | Server => true
         | Client => false
         end)
  then
    match handleClientVersion (connectionOf heap connection)
            (headerOf heap header) with
    | inl e => ObjectThrew (ThrownByHandler e) heap connection header offset
    | inr negotiatedVersion =>
        handleObject_decoded heap (setVersionOf negotiatedVersion connection)
          header offset msg encryptingEndpoint
    end
  else handleObject_decoded heap connection header offset msg
         encryptingEndpoint.

End ObjectHandler.

(** The objects of a call fit together: the [PacketNumber] objects of the
    header and of the spaces have been created. *)
Definition created (heap : Heap) (connection : ConnectionObject)
    (header : HeaderObject) : Prop :=
  (packetNumberOf header < allocated heap)%nat
  /\ forall space pn,
       at_space space (highestReceivedObject connection) = Some pn ->
       (pn < allocated heap)%nat.

(** Collaborators without header protection: the packet number is the
    first of the four sampled bytes and takes one byte. *)
Definition exampleObjectCollaborators : ObjectCollaborators :=
  {| pnDecrypt := fun _ _ pne _ _ _ => Some pne;
     VLIE_decodePn := fun pn => Some (hd 0 pn, 1);
     toBuffer := fun value _ => [value];
     hasEncryptionContext := fun _ _ => true |}.

(** A client whose application data space has the [PacketNumber] object 0,
    of value 7, as its highest received number, and the short header that
    object belongs to, with the given parsed buffer. *)
Definition heapOfFirstPacket : Heap :=
  mkHeap (fun pn => if Nat.eqb pn 0 then 7 else 0) 1.

Definition clientConnectionObject : ConnectionObject :=
  mkConnectionObject Client 1 (OtherHandshakeState 0) false
    (mkPerSpace None None (Some 0%nat)).

Definition firstShortHeader (buffer : list Z) : HeaderObject :=
  mkHeaderObject ShortHeader LongHeaderType_Initial 1 0 true 0 1 buffer.
(** * Properties *)

(** ** Running the methods *)

Lemma bind_Done {A B} (c : M A) (k : A -> M B) s a s1 o1 b s2 o2 :
  c s = Done a s1 o1 -> k a s1 = Done b s2 o2 ->
  bind c k s = Done b s2 (o1 ++ o2).
Proof. intros Hc Hk. unfold bind. rewrite Hc, Hk. reflexivity. Qed.

Lemma bind_silent {A B} (c : M A) (k : A -> M B) s a s1 :
  c s = Done a s1 [] -> bind c k s = k a s1.
Proof.
  intros Hc. unfold bind. rewrite Hc. destruct (k a s1); reflexivity.
Qed.

(** A step of a computation that starts with a read or a write of the
    state. *)
Ltac step_silent :=
  match goal with
  | |- bind ?c ?k ?s = _ => rewrite (bind_silent c k s _ _ eq_refl); cbv beta
  end.

Lemma removeFromSentPackets_run space packetNumber s :
  removeFromSentPackets space packetNumber s
  = Done tt (removeFromSentPackets_state space packetNumber s) [].
Proof.
  unfold removeFromSentPackets, removeFromSentPackets_state, bind, gets.
  destruct (sp_lookup packetNumber (at_space space (sentPackets s))) as [e|];
    [|reflexivity].
  destruct (isRetransmittable (packet e)), (isHandshake (packet e)); reflexivity.
Qed.

Lemma setLossDetectionAlarm_run s :
  setLossDetectionAlarm s = Done tt (setLossDetectionAlarm_state s) [].
Proof.
  unfold setLossDetectionAlarm, setLossDetectionAlarm_state, bind, gets.
  destruct (ackElicitingPacketsOutstanding s =? 0); [reflexivity|].
  destruct (lossDetectionAlarm s); reflexivity.
Qed.

(** [detectLostPackets] iterates over the keys of a method: its callback
    never runs, and all it does is to clear the loss time of the space. *)
Lemma detectLostPackets_run {C : Collaborators} now space s :
  detectLostPackets now space s
  = Done tt (set_lossTime (set_space space 0%Q (lossTime s)) s) [].
Proof. reflexivity. Qed.

Lemma reset_run {C : Collaborators} s :
  reset s
  = Done tt (set_sentPackets (mkPerSpace [] [] [])
               (set_lossDetectionAlarm AlarmIdle s)) [].
Proof. reflexivity. Qed.

(** ** The delay of the time threshold (claim C4) *)

Local Open Scope Q_scope.

(** C4, counterexample: with a latest and a smoothed RTT of 8 ms the delay
    of [detectLostPackets] is 9 ms, below the granularity of 50 ms. *)
Lemma lossDelay_below_granularity :
  lossDelay (mkRTT 8 8 0 8 0) == 9
  /\ ~ lossDelay (mkRTT 8 8 0 8 0)
       == Qmax ((9 # 8) * Qmax 8 8) kGranularity.
Proof. split; [reflexivity | discriminate]. Qed.

(** C4, amended: the delay of [detectLostPackets] is 9/8 times the larger
    of the latest and the smoothed RTT, with no floor: it is 9/8 of the
    smoothed RTT when that is the larger, 9/8 of the latest otherwise, and
    it is below the granularity as soon as both are below 400/9 ms. *)
Theorem lossDelay_is_time_threshold_of_max_rtt (rtt : RTTMeasurement) :
  lossDelay rtt == (9 # 8) * Qmax (latestRtt rtt) (smoothedRtt rtt)
  /\ (latestRtt rtt <= smoothedRtt rtt ->
      lossDelay rtt == (9 # 8) * smoothedRtt rtt)
  /\ (smoothedRtt rtt <= latestRtt rtt ->
      lossDelay rtt == (9 # 8) * latestRtt rtt)
  /\ (Qmax (latestRtt rtt) (smoothedRtt rtt) < 400 # 9 ->
      lossDelay rtt < kGranularity).
Proof.
  unfold lossDelay, kTimeThreshold, kGranularity.
  assert (E : 9 / 8 == 9 # 8) by reflexivity.
  split; [|split; [|split]].
  - rewrite E. reflexivity.
  - intros H. rewrite E. rewrite (Q.max_r _ _ H). reflexivity.
  - intros H. rewrite E. rewrite (Q.max_l _ _ H). reflexivity.
  - intros H. rewrite E.
    apply Qlt_le_trans with ((9 # 8) * (400 # 9)).
    + apply Qmult_lt_l; [reflexivity | exact H].
    + discriminate.
Qed.

Lemma lossDelay_is_time_threshold_of_max_rtt_witness :
  latestRtt (mkRTT 80 100 0 80 0) <= smoothedRtt (mkRTT 80 100 0 80 0)
  /\ lossDelay (mkRTT 80 100 0 80 0) == (9 # 8) * 100.
Proof.
  split; [discriminate|].
  apply (lossDelay_is_time_threshold_of_max_rtt (mkRTT 80 100 0 80 0)).
  discriminate.
Defined.

Local Close Scope Q_scope.

(** ** [reset] (claim C2) *)

(** C2, at the failing input: a detector that registered one
    ack-eliciting handshake packet and is reset has empty maps and no
    alarm, but still counts one ack-eliciting and one crypto packet
    outstanding: [reset] clears the maps and forgets the counters that go
    with them, which the constructor sets to zero. *)
Theorem reset_leaves_counters :
  exists s out,
    run_calls (C := specCollaborators)
      [CallOnPacketSent 0 (cryptoPacket 0); CallReset] (constructor noSample)
    = Done tt s out
    /\ sentPackets s = mkPerSpace [] [] []
    /\ lossDetectionAlarm s = AlarmIdle
    /\ ackElicitingPacketsOutstanding s = 1
    /\ cryptoOutstanding s = 1
    /\ ~ (cryptoCount s = 0 /\ ptoCount s = 0
          /\ ackElicitingPacketsOutstanding s = 0 /\ cryptoOutstanding s = 0).
Proof.
  eexists. eexists. split; [vm_compute; reflexivity|].
  cbn. repeat split. intros (_ & _ & H & _). discriminate H.
Qed.

(** [reset] writes the alarm and the maps only. *)
Lemma reset_keeps_the_rest {C : Collaborators} (s : QuicLossDetection) :
  exists s', reset s = Done tt s' []
    /\ cryptoCount s' = cryptoCount s /\ ptoCount s' = ptoCount s
    /\ ackElicitingPacketsOutstanding s' = ackElicitingPacketsOutstanding s
    /\ cryptoOutstanding s' = cryptoOutstanding s
    /\ largestAckedPacket s' = largestAckedPacket s
    /\ lossTime s' = lossTime s
    /\ rttMeasurer s' = rttMeasurer s.
Proof. eexists. split; [apply reset_run|]. cbn. repeat split. Qed.

(** What [reset] does do: it returns, emits nothing, and leaves the maps
    of the three spaces empty and the alarm cancelled. *)
Lemma reset_clears_maps_and_alarm {C : Collaborators} (s : QuicLossDetection) :
  exists s',
    reset s = Done tt s' []
    /\ (forall space, entries space s' = [])
    /\ Alarm_isRunning (lossDetectionAlarm s') = false.
Proof.
  eexists. split; [apply reset_run|]. split.
  - intros []; reflexivity.
  - reflexivity.
Qed.

(** ** [setLossDetectionAlarm] in crypto mode (claim C3) *)

Local Open Scope Q_scope.

Lemma cryptoAlarmDuration_spec (s : QuicLossDetection) :
  cryptoAlarmDuration s == cryptoDuration_spec s.
Proof.
  unfold cryptoAlarmDuration, cryptoDuration_spec, kInitialRTT, kGranularity.
  apply Qmult_comp; [|reflexivity].
  apply Q.max_compat; [|reflexivity].
  apply Qplus_comp; [|reflexivity].
  destruct (Qeq_bool (smoothedRtt (rttMeasurer s)) 0); apply Qmult_comm.
Qed.

(** The time of the last crypto packet has no part in the alarm
    [setLossDetectionAlarm] leaves: the local [time] that takes it is not
    read. *)
Lemma alarm_ignores_time_of_last_crypto_packet (t : Q) (s : QuicLossDetection) :
  lossDetectionAlarm
    (setLossDetectionAlarm_state (set_timeOfLastSentCryptoPacket t s))
  = lossDetectionAlarm (setLossDetectionAlarm_state s).
Proof.
  unfold setLossDetectionAlarm_state, alarmDurationAndTime. cbn.
  destruct (ackElicitingPacketsOutstanding s =? 0)%Z; [reflexivity|].
  destruct (lossDetectionAlarm s); [|reflexivity]. cbn.
  destruct (cryptoOutstanding s =? 0)%Z; [|reflexivity]. cbn.
  match goal with
  | |- context [Qnonzero ?x] => destruct (Qnonzero x); reflexivity
  end.
Qed.

(** C3, counterexample: an ack-eliciting data packet is sent, which arms
    the alarm as a PTO of 125 ms, then an ack-eliciting handshake packet.
    [setLossDetectionAlarm] now runs with both counters positive, and
    leaves the alarm at 125 ms, where the crypto mode asks for 225 ms. *)
Lemma crypto_alarm_not_armed_while_running :
  exists s out,
    run_calls (C := specCollaborators)
      [CallOnPacketSent 0 (dataPacket 0); CallOnPacketSent 1 (cryptoPacket 0)]
      (constructor (mkRTT 100 100 0 100 25))
    = Done tt s out
    /\ (0 < ackElicitingPacketsOutstanding s)%Z
    /\ (0 < cryptoOutstanding s)%Z
    /\ setLossDetectionAlarm s = Done tt s []
    /\ lossDetectionAlarm s = AlarmRunning 125
    /\ cryptoDuration_spec s == 225
    /\ ~ 125 == cryptoDuration_spec s.
Proof.
  eexists. eexists. split; [vm_compute; reflexivity|].
  repeat split; discriminate.
Qed.

(** C3, amended: when [setLossDetectionAlarm] runs with ack-eliciting and
    crypto packets outstanding and the alarm is not running, it starts the
    alarm with the duration
    [max(2 * (smoothedRtt or 100) + maxAckDelay, 50) * 2^cryptoCount];
    an alarm that is running is left as it is.  Nothing else of the
    detector changes and nothing is emitted. *)
Theorem crypto_alarm_armed_when_idle (s : QuicLossDetection) :
  (0 < ackElicitingPacketsOutstanding s)%Z ->
  (0 < cryptoOutstanding s)%Z ->
  exists s',
    setLossDetectionAlarm s = Done tt s' []
    /\ (Alarm_isRunning (lossDetectionAlarm s) = false ->
        exists d, lossDetectionAlarm s' = AlarmRunning d
                  /\ d == cryptoDuration_spec s)
    /\ (Alarm_isRunning (lossDetectionAlarm s) = true ->
        lossDetectionAlarm s' = lossDetectionAlarm s)
    /\ s' = set_lossDetectionAlarm (lossDetectionAlarm s') s.
Proof.
  intros Hack Hcrypto.
  exists (setLossDetectionAlarm_state s).
  split; [apply setLossDetectionAlarm_run|].
  unfold setLossDetectionAlarm_state.
  destruct (Z.eqb_spec (ackElicitingPacketsOutstanding s) 0) as [E|_]; [lia|].
  destruct s as [al cc pc ta tc la lt sp ae co rtt]; cbn in *.
  destruct al as [|d0]; cbn.
  - split; [|split; [discriminate | reflexivity]].
    intros _. eexists. split; [reflexivity|].
    unfold alarmDurationAndTime; cbn.
    destruct (Z.eqb_spec co 0) as [E|_]; [lia|]. cbn.
    apply (cryptoAlarmDuration_spec
             (mkLossDetection AlarmIdle cc pc ta tc la lt sp ae co rtt)).
  - split; [discriminate | split; reflexivity].
Qed.

Lemma crypto_alarm_armed_when_idle_witness :
  (0 < ackElicitingPacketsOutstanding idleCryptoState)%Z
  /\ (0 < cryptoOutstanding idleCryptoState)%Z
  /\ exists s', setLossDetectionAlarm idleCryptoState = Done tt s' []
       /\ lossDetectionAlarm s' = AlarmRunning 400.
Proof.
  split; [reflexivity|]. split; [reflexivity|].
  destruct (crypto_alarm_armed_when_idle idleCryptoState) as (s' & Hrun & _);
    [reflexivity | reflexivity |].
  exists s'. split; [exact Hrun|].
  vm_compute in Hrun. injection Hrun as <-. reflexivity.
Defined.

Local Close Scope Q_scope.

(** ** The header handler (claims C8 and C9) *)

Section HandlerProperties.

Context {H : HeaderCollaborators}.

(** C8: on a server, a long header whose version cannot be negotiated
    makes [handle] throw: the QUIC error VERSION_NEGOTIATION_ERROR for an
    Initial packet; failing that, the transient IGNORE_PACKET_ERROR for a
    0-RTT packet or in the handshake state SERVER_HELLO; and the QUIC error
    PROTOCOL_VIOLATION in every other case. *)
Theorem version_gate_errors (connection : Connection) (header : Header)
    (offset : Z) (msg : list Z) (encryptingEndpoint : EndpointType) :
  getHeaderType header = LongHeader ->
  getEndpointType connection = Server ->
  validateVersion (connectionVersion connection) header = None ->
  (getPacketType header = LongHeaderType_Initial ->
   handle connection header offset msg encryptingEndpoint
   = Threw (QuicError VERSION_NEGOTIATION_ERROR))
  /\ (getPacketType header <> LongHeaderType_Initial ->
      getPacketType header = LongHeaderType_Protected0RTT
      \/ getHandshakeState connection = SERVER_HELLO ->
      handle connection header offset msg encryptingEndpoint
      = Threw (QuickerError IGNORE_PACKET_ERROR))
  /\ (getPacketType header <> LongHeaderType_Initial ->
      getPacketType header <> LongHeaderType_Protected0RTT ->
      getHandshakeState connection <> SERVER_HELLO ->
      handle connection header offset msg encryptingEndpoint
      = Threw (QuicError PROTOCOL_VIOLATION)).
Proof.
  intros Hlong Hserver Hnone.
  unfold handle, handleClientVersion.
  rewrite Hlong, Hserver, Hnone. cbn.
  split; [|split].
  - intros ->. reflexivity.
  - intros Hni [Ht | Hs].
    + rewrite Ht. reflexivity.
    + rewrite Hs.
      destruct (getPacketType header); try reflexivity; congruence.
  - intros Hni Hn0 Hns.
    destruct (getPacketType header); try congruence;
      destruct (getHandshakeState connection); try congruence; reflexivity.
Qed.


End HandlerProperties.

Lemma version_gate_errors_witness :
  getHeaderType (longHeaderOfVersion2 LongHeaderType_Handshake) = LongHeader
  /\ getEndpointType (serverConnection (OtherHandshakeState 0)) = Server
  /\ validateVersion (HeaderCollaborators := exampleHeaderCollaborators)
       (connectionVersion (serverConnection (OtherHandshakeState 0)))
       (longHeaderOfVersion2 LongHeaderType_Handshake) = None
  /\ handle (headerCollaborators := exampleHeaderCollaborators)
       (serverConnection (OtherHandshakeState 0))
       (longHeaderOfVersion2 LongHeaderType_Handshake) 20 [0] Client
     = Threw (QuicError PROTOCOL_VIOLATION).
Proof.
  split; [reflexivity|]. split; [reflexivity|]. split; [reflexivity|].
  apply (version_gate_errors (H := exampleHeaderCollaborators)
           (serverConnection (OtherHandshakeState 0))
           (longHeaderOfVersion2 LongHeaderType_Handshake) 20 [0] Client);
    try reflexivity; discriminate.
Defined.


(** ** Maps as lists of entries *)

Lemma sp_lookup_None_iff key (m : SentPackets) :
  sp_lookup key m = None <-> ~ In key (sp_keys m).
Proof.
  induction m as [|[k v] m IH]; cbn.
  - tauto.
  - destruct (Z.eqb_spec k key) as [->|Hne].
    + split; [discriminate | intros Hn; contradiction Hn; now left].
    + rewrite IH. split; [intros Hn [E|Hin]; [congruence | tauto] | tauto].
Qed.

Lemma sp_lookup_In key v (m : SentPackets) :
  sp_lookup key m = Some v -> In (key, v) m.
Proof.
  induction m as [|[k w] m IH]; cbn; [discriminate|].
  destruct (Z.eqb_spec k key) as [->|Hne].
  - intros [= ->]. now left.
  - intros Hl. right. now apply IH.
Qed.

Lemma sp_lookup_middle key v (pre rest : SentPackets) :
  ~ In key (sp_keys pre) ->
  sp_lookup key (pre ++ (key, v) :: rest) = Some v.
Proof.
  induction pre as [|[k w] pre IH]; cbn; intros Hn.
  - now rewrite Z.eqb_refl.
  - destruct (Z.eqb_spec k key) as [->|Hne]; [tauto|]. apply IH. tauto.
Qed.

Lemma sp_delete_absent key (m : SentPackets) :
  ~ In key (sp_keys m) -> sp_delete key m = m.
Proof.
  induction m as [|[k v] m IH]; cbn; intros Hn; [reflexivity|].
  destruct (Z.eqb_spec k key) as [->|Hne]; [tauto|].
  cbn. f_equal. apply IH. tauto.
Qed.

Lemma sp_delete_middle key v (pre rest : SentPackets) :
  NoDup (sp_keys (pre ++ (key, v) :: rest)) ->
  sp_delete key (pre ++ (key, v) :: rest) = pre ++ rest.
Proof.
  unfold sp_keys. rewrite map_app. cbn. intros Hnd.
  pose proof (NoDup_remove_2 _ _ _ Hnd) as Hn.
  rewrite in_app_iff in Hn.
  unfold sp_delete. rewrite filter_app. cbn. rewrite Z.eqb_refl. cbn.
  f_equal; apply sp_delete_absent; unfold sp_keys; tauto.
Qed.

Lemma sp_delete_keys key (m : SentPackets) :
  NoDup (sp_keys m) -> NoDup (sp_keys (sp_delete key m)).
Proof.
  induction m as [|[k v] m IH]; cbn; intros Hnd; [constructor|].
  inversion Hnd as [|? ? Hn Hnd']; subst.
  destruct (negb (k =? key)); cbn; [|now apply IH].
  constructor; [|now apply IH].
  intros Hin. apply Hn. unfold sp_keys, sp_delete in *.
  apply in_map_iff in Hin as ((k' & v') & E & Hin). cbn in E. subst k'.
  apply filter_In in Hin as [Hin _].
  apply in_map_iff. now exists (k, v').
Qed.

Lemma sp_delete_In key e (m : SentPackets) :
  In e (sp_delete key m) -> In e m /\ fst e <> key.
Proof.
  unfold sp_delete. rewrite filter_In. intros [Hin Hk]. split; [exact Hin|].
  destruct (Z.eqb_spec (fst e) key); [discriminate | assumption].
Qed.

(** ** The maps after [removeFromSentPackets] *)

Lemma kPacketNumberSpace_eqb_eq a b :
  kPacketNumberSpace_eqb a b = true -> a = b.
Proof. destruct a, b; cbn; congruence. Qed.

Lemma at_set_space {A} space space' (x : A) (a : PerSpace A) :
  at_space space' (set_space space x a)
  = if kPacketNumberSpace_eqb space space' then x else at_space space' a.
Proof. destruct space, space'; reflexivity. Qed.

Lemma entries_removeFromSentPackets space key space' s :
  entries space' (removeFromSentPackets_state space key s)
  = if kPacketNumberSpace_eqb space space'
    then sp_delete key (entries space' s) else entries space' s.
Proof.
  unfold removeFromSentPackets_state, entries.
  destruct (sp_lookup key (at_space space (sentPackets s))) as [e|] eqn:Hl.
  - destruct (isRetransmittable (packet e)), (isHandshake (packet e)); cbn;
      rewrite at_set_space; destruct space, space'; reflexivity.
  - apply sp_lookup_None_iff in Hl.
    destruct space, space'; cbn; try reflexivity;
      symmetry; now apply sp_delete_absent.
Qed.

Lemma entries_removeFromSentPackets_same space key s :
  entries space (removeFromSentPackets_state space key s)
  = sp_delete key (entries space s).
Proof.
  rewrite entries_removeFromSentPackets. destruct space; reflexivity.
Qed.

Lemma entries_removeFromSentPackets_other space key space' s :
  space <> space' ->
  entries space' (removeFromSentPackets_state space key s) = entries space' s.
Proof.
  intros Hne. rewrite entries_removeFromSentPackets.
  destruct space, space'; try reflexivity; congruence.
Qed.

(** ** The loops of [sendPackets] *)

Lemma readSent_run space key v s :
  sp_lookup key (entries space s) = Some v ->
  readSent space key s = Done v s [].
Proof.
  intros Hl. unfold readSent, bind, gets. fold (entries space s).
  rewrite Hl. reflexivity.
Qed.

Lemma removeAll_app l1 l2 s :
  removeAll (l1 ++ l2) s = removeAll l2 (removeAll l1 s).
Proof. apply fold_left_app. Qed.

(** The [while] loop over what is left of the keys of a space: [pre] are
    the entries the loop has met and kept, [rest] those to come.  The loop
    retransmits and removes the first ack-eliciting entries of [rest],
    as many as are still asked for. *)
Lemma sendPackets_while_run amount space :
  forall (rest pre : SentPackets) s sendCount,
    entries space s = pre ++ rest ->
    NoDup (sp_keys (pre ++ rest)) ->
    Forall key_is_number rest ->
    0 <= sendCount < amount ->
    sendPackets_while amount space (sp_keys rest) sendCount s
    = Done
        (if (Z.to_nat (amount - sendCount) <=? length (filter ackEliciting rest))%nat
         then None
         else Some (sendCount + Z.of_nat (length (filter ackEliciting rest))))
        (removeAll
           (map (pair space)
              (firstn (Z.to_nat (amount - sendCount)) (filter ackEliciting rest)))
           s)
        (map (fun e => RETRANSMIT_PACKET (packet (snd e)))
           (firstn (Z.to_nat (amount - sendCount)) (filter ackEliciting rest))).
Proof.
  induction rest as [|[k v] rest IH]; intros pre s c Hent Hnd Hok Hc.
  - cbn. rewrite firstn_nil, Z.add_0_r.
    destruct (Z.to_nat (amount - c)) eqn:E; [lia | reflexivity].
  - assert (Hk : ~ In k (sp_keys pre)).
    { unfold sp_keys in Hnd. rewrite map_app in Hnd. cbn in Hnd.
      apply NoDup_remove_2 in Hnd. rewrite in_app_iff in Hnd.
      unfold sp_keys. tauto. }
    assert (Hl : sp_lookup k (entries space s) = Some v)
      by (rewrite Hent; now apply sp_lookup_middle).
    inversion Hok as [|? ? Hkv Hok']; subst. unfold key_is_number in Hkv.
    cbn in Hkv.
    cbn [sp_keys map fst sendPackets_while filter].
    change (map fst rest) with (sp_keys rest).
    rewrite (bind_silent _ _ _ _ _ (readSent_run _ _ _ _ Hl)).
    change (ackEliciting (k, v)) with (isRetransmittable (packet v)).
    destruct (isRetransmittable (packet v)) eqn:Hr.
    + set (s1 := removeFromSentPackets_state space k s).
      assert (Hent1 : entries space s1 = pre ++ rest).
      { unfold s1. rewrite entries_removeFromSentPackets_same, Hent.
        now apply (sp_delete_middle k v). }
      assert (Hnd1 : NoDup (sp_keys (pre ++ rest))).
      { unfold sp_keys in *. rewrite map_app in *. cbn in Hnd.
        now apply NoDup_remove_1 in Hnd. }
      assert (Hemit : retransmitPacket v s
                      = Done tt s [RETRANSMIT_PACKET (packet v)]).
      { unfold retransmitPacket, when. rewrite Hr. reflexivity. }
      unfold bind at 1. rewrite Hemit.
      rewrite Hkv.
      rewrite (bind_silent _ _ _ _ _ (removeFromSentPackets_run space k s)).
      fold s1.
      destruct (Z.eqb_spec (c + 1) amount) as [E|Hne].
      * replace (Z.to_nat (amount - c)) with 1%nat by lia.
        cbn. reflexivity.
      * replace (Z.to_nat (amount - c))
          with (S (Z.to_nat (amount - (c + 1)))) by lia.
        rewrite (IH pre s1 (c + 1) Hent1 Hnd1 Hok' ltac:(lia)).
        cbn [firstn map length Nat.leb removeAll fold_left fst snd app].
        destruct (Z.to_nat (amount - (c + 1))
                  <=? length (filter ackEliciting rest))%nat;
          [reflexivity|].
        do 2 f_equal. lia.
    + apply (IH (pre ++ [(k, v)]) s c).
      * rewrite Hent, <- app_assoc. reflexivity.
      * rewrite <- app_assoc. exact Hnd.
      * exact Hok'.
      * exact Hc.
Qed.

(** ** Well-formed maps are kept by removals *)

Lemma wf_map_delete space key m :
  wf_map space m -> wf_map space (sp_delete key m).
Proof.
  intros [Hnd Hok]. split; [now apply sp_delete_keys|].
  rewrite Forall_forall in *. intros e Hin.
  apply sp_delete_In in Hin as [Hin _]. now apply Hok.
Qed.

Lemma wf_removeFromSentPackets space key s :
  wf s -> wf (removeFromSentPackets_state space key s).
Proof.
  intros Hwf space'. rewrite entries_removeFromSentPackets.
  destruct (kPacketNumberSpace_eqb space space'); [|apply Hwf].
  apply wf_map_delete, Hwf.
Qed.

Lemma wf_removeAll l s : wf s -> wf (removeAll l s).
Proof.
  revert s. induction l as [|x l IH]; intros s Hwf; [exact Hwf|].
  cbn. apply IH, wf_removeFromSentPackets, Hwf.
Qed.

Lemma entries_removeAll_other space space' l s :
  (forall x, In x l -> fst x = space) -> space <> space' ->
  entries space' (removeAll l s) = entries space' s.
Proof.
  intros Hl Hne. revert s. induction l as [|x l IH]; intros s; [reflexivity|].
  cbn. rewrite IH by (intros y Hy; apply Hl; now right).
  apply entries_removeFromSentPackets_other.
  rewrite (Hl x) by now left. exact Hne.
Qed.

Lemma candidates_same_entries spaces s s' :
  (forall space, In space spaces -> entries space s' = entries space s) ->
  candidates spaces s' = candidates spaces s.
Proof.
  induction spaces as [|space spaces IH]; intros Hsame; [reflexivity|].
  cbn. rewrite (Hsame space) by now left.
  f_equal. apply IH. intros sp Hin. apply Hsame. now right.
Qed.

Lemma wf_key_is_number space s :
  wf s -> Forall key_is_number (entries space s).
Proof.
  intros Hwf. destruct (Hwf space) as [_ Hok].
  eapply Forall_impl; [|exact Hok]. intros e [He _]. exact He.
Qed.

(** The [for] loop over the spaces that are left: the first ack-eliciting
    entries of these spaces, as many as are still asked for, are
    retransmitted and removed. *)
Lemma sendPackets_for_run amount :
  forall spaces s sendCount,
    NoDup spaces -> wf s -> 0 <= sendCount < amount ->
    sendPackets_for amount spaces sendCount s
    = Done tt
        (removeAll (firstn (Z.to_nat (amount - sendCount)) (candidates spaces s)) s)
        (map (fun x => RETRANSMIT_PACKET (probePacket x))
           (firstn (Z.to_nat (amount - sendCount)) (candidates spaces s))).
Proof.
  induction spaces as [|space spaces IH]; intros s c Hnd Hwf Hc.
  - cbn. rewrite firstn_nil. reflexivity.
  - inversion Hnd as [|? ? Hnotin Hnd']; subst.
    cbn [sendPackets_for candidates flat_map].
    rewrite (bind_silent _ _ s _ s eq_refl).
    unfold bind at 1.
    change (at_space space (sentPackets s)) with (entries space s).
    rewrite (sendPackets_while_run amount space (entries space s) [] s c
               eq_refl (proj1 (Hwf space)) (wf_key_is_number space s Hwf) Hc).
    set (cands := filter ackEliciting (entries space s)).
    set (n := Z.to_nat (amount - c)).
    rewrite firstn_app, firstn_map, length_map.
    destruct (Nat.leb_spec n (length cands)) as [Hle|Hgt].
    + replace (n - length cands)%nat with 0%nat by lia.
      cbn [ret firstn]. rewrite !app_nil_r, map_map. reflexivity.
    + rewrite (firstn_all2 cands) by lia.
      set (s1 := removeAll (map (pair space) cands) s).
      assert (Hsame : candidates spaces s1 = candidates spaces s).
      { apply candidates_same_entries. intros sp Hin.
        apply (entries_removeAll_other space).
        - intros x Hx. apply in_map_iff in Hx as (e & <- & _). reflexivity.
        - intros ->. contradiction. }
      rewrite (IH s1 (c + Z.of_nat (length cands)) Hnd'
                 (wf_removeAll _ _ Hwf) ltac:(lia)).
      replace (Z.to_nat (amount - (c + Z.of_nat (length cands))))
        with (n - length cands)%nat by lia.
      rewrite Hsame. unfold s1.
      rewrite removeAll_app, map_app, map_map. reflexivity.
Qed.

Lemma allSpaces_NoDup : NoDup allSpaces.
Proof.
  repeat constructor; cbn; intuition discriminate.
Qed.

(** [sendPackets] on well-formed maps: it returns, having retransmitted
    and removed the first [amount] ack-eliciting entries in the order
    Initial, Handshake, ApplicationData (all of them if there are
    fewer). *)
Lemma sendPackets_run amount s :
  wf s -> 0 < amount ->
  sendPackets amount s
  = Done tt (removeAll (probes amount s) s)
      (map (fun x => RETRANSMIT_PACKET (probePacket x)) (probes amount s)).
Proof.
  intros Hwf Hpos. unfold sendPackets, probes.
  rewrite (sendPackets_for_run amount allSpaces s 0 allSpaces_NoDup Hwf)
    by lia.
  rewrite Z.sub_0_r. reflexivity.
Qed.

(** ** The loops of [retransmitAllUnackedHandshakeData] *)

Lemma retransmissions_app l1 l2 :
  retransmissions (l1 ++ l2) = retransmissions l1 ++ retransmissions l2.
Proof. apply flat_map_app. Qed.

Lemma cryptoEntries_same_entries spaces s s' :
  (forall space, In space spaces -> entries space s' = entries space s) ->
  cryptoEntries spaces s' = cryptoEntries spaces s.
Proof.
  induction spaces as [|space spaces IH]; intros Hsame; [reflexivity|].
  cbn. rewrite (Hsame space) by now left.
  f_equal. apply IH. intros sp Hin. apply Hsame. now right.
Qed.

(** The inner [forEach], over what is left of the keys of a space. *)
Lemma retransmitHandshake_keys_run space :
  forall (rest pre : SentPackets) s,
    entries space s = pre ++ rest ->
    NoDup (sp_keys (pre ++ rest)) ->
    Forall key_is_number rest ->
    forEach (sp_keys rest) (fun key =>
      entry <- readSent space key ;;
      when (isHandshake (packet entry))
        (retransmitPacket entry ;;
         removeFromSentPackets space (packetNumber (packet entry)))) s
    = Done tt
        (removeAll (map (pair space) (filter carriesCrypto rest)) s)
        (retransmissions (map (pair space) (filter carriesCrypto rest))).
Proof.
  induction rest as [|[k v] rest IH]; intros pre s Hent Hnd Hok;
    [reflexivity|].
  assert (Hk : ~ In k (sp_keys pre)).
  { unfold sp_keys in Hnd. rewrite map_app in Hnd. cbn in Hnd.
    apply NoDup_remove_2 in Hnd. rewrite in_app_iff in Hnd.
    unfold sp_keys. tauto. }
  assert (Hl : sp_lookup k (entries space s) = Some v)
    by (rewrite Hent; now apply sp_lookup_middle).
  inversion Hok as [|? ? Hkv Hok']; subst. unfold key_is_number in Hkv.
  cbn in Hkv.
  cbn [sp_keys map fst forEach filter].
  change (map fst rest) with (sp_keys rest).
  change (carriesCrypto (k, v)) with (isHandshake (packet v)).
  unfold bind at 1.
  rewrite (bind_silent _ _ _ _ _ (readSent_run _ _ _ _ Hl)).
  destruct (isHandshake (packet v)) eqn:Hh; cbn [when].
  - set (s1 := removeFromSentPackets_state space k s).
    assert (Hent1 : entries space s1 = pre ++ rest).
    { unfold s1. rewrite entries_removeFromSentPackets_same, Hent.
      now apply (sp_delete_middle k v). }
    assert (Hnd1 : NoDup (sp_keys (pre ++ rest))).
    { unfold sp_keys in *. rewrite map_app in *. cbn in Hnd.
      now apply NoDup_remove_1 in Hnd. }
    assert (Hemit : retransmitPacket v s
                    = Done tt s (if isRetransmittable (packet v)
                                 then [RETRANSMIT_PACKET (packet v)] else [])).
    { unfold retransmitPacket, when.
      destruct (isRetransmittable (packet v)); reflexivity. }
    rewrite Hkv.
    rewrite (bind_Done _ _ _ _ _ _ _ _ _ Hemit
               (removeFromSentPackets_run space k s)).
    fold s1. rewrite (IH pre s1 Hent1 Hnd1 Hok').
    cbn. unfold probePacket. cbn. rewrite !app_nil_r. reflexivity.
  - cbn [ret].
    rewrite (IH (pre ++ [(k, v)]) s).
    + reflexivity.
    + rewrite Hent, <- app_assoc. reflexivity.
    + rewrite <- app_assoc. exact Hnd.
    + exact Hok'.
Qed.

Lemma retransmitHandshake_spaces_run :
  forall spaces s,
    NoDup spaces -> wf s ->
    forEach spaces (fun space =>
      keys <- gets (fun s => sp_keys (at_space space (sentPackets s))) ;;
      forEach keys (fun key =>
        entry <- readSent space key ;;
        when (isHandshake (packet entry))
          (retransmitPacket entry ;;
           removeFromSentPackets space (packetNumber (packet entry))))) s
    = Done tt (removeAll (cryptoEntries spaces s) s)
        (retransmissions (cryptoEntries spaces s)).
Proof.
  induction spaces as [|space spaces IH]; intros s Hnd Hwf; [reflexivity|].
  inversion Hnd as [|? ? Hnotin Hnd']; subst.
  cbn [forEach cryptoEntries flat_map].
  unfold bind at 1.
  rewrite (bind_silent _ _ s _ s eq_refl).
  change (at_space space (sentPackets s)) with (entries space s).
  rewrite (retransmitHandshake_keys_run space (entries space s) [] s
             eq_refl (proj1 (Hwf space)) (wf_key_is_number space s Hwf)).
  set (l := map (pair space) (filter carriesCrypto (entries space s))).
  set (s1 := removeAll l s).
  assert (Hsame : cryptoEntries spaces s1 = cryptoEntries spaces s).
  { apply cryptoEntries_same_entries. intros sp Hin.
    apply (entries_removeAll_other space).
    - intros x Hx. apply in_map_iff in Hx as (e & <- & _). reflexivity.
    - intros ->. contradiction. }
  rewrite (IH s1 Hnd' (wf_removeAll _ _ Hwf)), Hsame.
  unfold s1. rewrite removeAll_app, retransmissions_app. reflexivity.
Qed.

Lemma retransmitAllUnackedHandshakeData_run s :
  wf s ->
  retransmitAllUnackedHandshakeData s
  = Done tt (removeAll (cryptoEntries allSpaces s) s)
      (retransmissions (cryptoEntries allSpaces s)).
Proof.
  intros Hwf. apply retransmitHandshake_spaces_run;
    [apply allSpaces_NoDup | exact Hwf].
Qed.

(** ** The entry points as functions of the state *)

Lemma onPacketSent_run now basePacket s :
  onPacketSent now basePacket s
  = Done tt (onPacketSent_state now basePacket s) [].
Proof.
  unfold onPacketSent, onPacketSent_state, when.
  destruct (isHandshake basePacket), (isRetransmittable basePacket);
    repeat (unfold bind at 1; cbn [modify ret app]);
    rewrite setLossDetectionAlarm_run; unfold gets, entries;
    match goal with
    | |- context [sp_lookup ?k ?m] => destruct (sp_lookup k m)
    end; reflexivity.
Qed.

Lemma forEach_onSentPacketAcked_run l :
  forall s,
    forEach l onSentPacketAcked s = Done tt (ackAll_state l s) (ackAll_out l).
Proof.
  induction l as [|q l IH]; intros s; [reflexivity|].
  cbn [forEach ackAll_state ackAll_out fold_left flat_map].
  assert (Hq : onSentPacketAcked q s
               = Done tt
                   (removeFromSentPackets_state (findPacketSpaceFromPacket q)
                      (packetNumber q) s)
                   (if isRetransmittable q then [PACKET_ACKED q] else [])).
  { unfold onSentPacketAcked, when, bind.
    destruct (isRetransmittable q); cbn [emit ret];
      rewrite removeFromSentPackets_run; reflexivity. }
  apply (bind_Done _ _ _ _ _ _ _ _ _ Hq (IH _)).
Qed.

Section EntryPoints.

Context {C : Collaborators}.

Lemma updateRtt_run now ackFrame s :
  updateRtt now ackFrame s
  = Done tt (updateRtt_state now ackFrame s) (updateRtt_out ackFrame s).
Proof.
  unfold updateRtt, updateRtt_state, updateRtt_out, rttSample, bind, gets,
    entries.
  destruct (sp_lookup (getLargestAcknowledged ackFrame)
              (at_space (findPacketSpaceFromAckFrame ackFrame) (sentPackets s)))
    as [p|]; [|reflexivity].
  destruct (sent_isRetransmittable p); reflexivity.
Qed.

(** [onAckReceived] returns on every state. *)
Lemma onAckReceived_run now ackFrame s :
  onAckReceived now ackFrame s
  = Done tt (onAckReceived_state now ackFrame s) (onAckReceived_out ackFrame s).
Proof.
  unfold onAckReceived, onAckReceived_state, onAckReceived_out.
  set (space := findPacketSpaceFromAckFrame ackFrame).
  step_silent.
  set (s1 := set_largestAckedPacket _ s).
  assert (Hout : updateRtt_out ackFrame s = updateRtt_out ackFrame s1)
    by reflexivity.
  assert (Hacked : determineNewlyAckedPackets ackFrame s
                   = determineNewlyAckedPackets ackFrame
                       (updateRtt_state now ackFrame s1)).
  { unfold updateRtt_state. destruct (rttSample ackFrame s1); reflexivity. }
  rewrite Hout, Hacked.
  apply (bind_Done _ _ _ _ _ _ _ _ _ (updateRtt_run now ackFrame s1)).
  set (s2 := updateRtt_state now ackFrame s1).
  step_silent.
  rewrite <- (app_nil_r (ackAll_out _)).
  apply (bind_Done _ _ _ _ _ _ _ _ _ (forEach_onSentPacketAcked_run _ s2)).
  rewrite (bind_silent _ _ _ _ _ (detectLostPackets_run now space _)).
  step_silent. step_silent.
  apply setLossDetectionAlarm_run.
Qed.

(** The firing of the alarm returns on well-formed maps. *)
Lemma alarmTimeout_run now s :
  wf s ->
  alarmTimeout now s = Done tt (alarmTimeout_state s) (alarmTimeout_out s).
Proof.
  intros Hwf. unfold alarmTimeout, alarmTimeout_state, alarmTimeout_out.
  step_silent.
  set (s0 := set_lossDetectionAlarm AlarmIdle s).
  change (set_lossDetectionAlarm (Alarm_reset (lossDetectionAlarm s)) s)
    with s0.
  assert (Hwf0 : wf s0) by exact Hwf.
  unfold onLossDetectionAlarm.
  step_silent. step_silent.
  change (cryptoOutstanding s) with (cryptoOutstanding s0).
  change (getEarliestLossTime s) with (getEarliestLossTime s0).
  change (cryptoEntries allSpaces s) with (cryptoEntries allSpaces s0).
  change (probes 2 s) with (probes 2 s0).
  rewrite <- (app_nil_r (if 0 <? cryptoOutstanding s0 then _ else _)).
  eapply bind_Done; [|apply setLossDetectionAlarm_run].
  destruct (0 <? cryptoOutstanding s0).
  - rewrite <- (app_nil_r (retransmissions _)).
    eapply bind_Done;
      [apply (retransmitAllUnackedHandshakeData_run s0 Hwf0) | reflexivity].
  - destruct (Qnonzero (fst (getEarliestLossTime s0))).
    + apply detectLostPackets_run.
    + rewrite <- (app_nil_r (map _ _)).
      eapply bind_Done;
        [apply (sendPackets_run 2 s0 Hwf0); lia | reflexivity].
Qed.

End EntryPoints.

(** ** The RTT estimator is called for a stored, ack-eliciting largest
       acknowledged packet only (claim C7) *)

Lemma rttMeasurer_removeFromSentPackets space key s :
  rttMeasurer (removeFromSentPackets_state space key s) = rttMeasurer s.
Proof.
  unfold removeFromSentPackets_state.
  destruct (sp_lookup key (at_space space (sentPackets s))) as [e|];
    [|reflexivity].
  destruct (isRetransmittable (packet e)), (isHandshake (packet e)); reflexivity.
Qed.

Lemma rttMeasurer_ackAll l :
  forall s, rttMeasurer (ackAll_state l s) = rttMeasurer s.
Proof.
  induction l as [|q l IH]; intros s; [reflexivity|].
  cbn. rewrite IH. apply rttMeasurer_removeFromSentPackets.
Qed.

Lemma rttMeasurer_setLossDetectionAlarm s :
  rttMeasurer (setLossDetectionAlarm_state s) = rttMeasurer s.
Proof.
  unfold setLossDetectionAlarm_state.
  destruct (ackElicitingPacketsOutstanding s =? 0); [reflexivity|].
  destruct (lossDetectionAlarm s); reflexivity.
Qed.

Lemma ackAll_out_no_call l ackFrame p :
  ~ In (Call_updateRTT ackFrame p) (ackAll_out l).
Proof.
  unfold ackAll_out. rewrite in_flat_map. intros (q & _ & Hin).
  destruct (isRetransmittable q); cbn in Hin; intuition discriminate.
Qed.

(** C7: [onAckReceived] returns, and in its course the estimator is called
    if and only if the space of the frame holds a sent packet under the
    largest acknowledged number and that packet was recorded as
    retransmittable; the call is then made once, with the frame and that
    packet.  Otherwise, as for a duplicate ACK whose largest acknowledged
    packet is gone from the map, the state of the estimator is what it was. *)
Theorem rtt_update_iff_largest_stored_and_ack_eliciting {C : Collaborators}
    (now : Q) (ackFrame : AckFrame) (s : QuicLossDetection) :
  exists s' out,
    onAckReceived now ackFrame s = Done tt s' out
    /\ ((exists f p, In (Call_updateRTT f p) out)
        <-> (exists p,
               sp_lookup (getLargestAcknowledged ackFrame)
                 (entries (findPacketSpaceFromAckFrame ackFrame) s) = Some p
               /\ sent_isRetransmittable p = true))
    /\ (forall p,
          sp_lookup (getLargestAcknowledged ackFrame)
            (entries (findPacketSpaceFromAckFrame ackFrame) s) = Some p ->
          sent_isRetransmittable p = true ->
          (forall f q, In (Call_updateRTT f q) out -> f = ackFrame /\ q = p)
          /\ rttMeasurer s' = updateRTT now ackFrame p (rttMeasurer s))
    /\ (~ (exists p,
             sp_lookup (getLargestAcknowledged ackFrame)
               (entries (findPacketSpaceFromAckFrame ackFrame) s) = Some p
             /\ sent_isRetransmittable p = true) ->
        rttMeasurer s' = rttMeasurer s).
Proof.
  do 2 eexists. split; [apply onAckReceived_run|].
  assert (Hrtt : rttMeasurer (onAckReceived_state now ackFrame s)
                 = match rttSample ackFrame s with
                   | Some p => updateRTT now ackFrame p (rttMeasurer s)
                   | None => rttMeasurer s
                   end).
  { unfold onAckReceived_state.
    rewrite rttMeasurer_setLossDetectionAlarm. cbn.
    rewrite rttMeasurer_ackAll. unfold updateRtt_state.
    match goal with
    | |- context [rttSample ackFrame ?s1] =>
        change (rttSample ackFrame s1) with (rttSample ackFrame s)
    end.
    destruct (rttSample ackFrame s); reflexivity. }
  rewrite Hrtt. clear Hrtt.
  unfold onAckReceived_out, updateRtt_out, rttSample.
  destruct (sp_lookup (getLargestAcknowledged ackFrame)
              (entries (findPacketSpaceFromAckFrame ackFrame) s)) as [p0|].
  - destruct (sent_isRetransmittable p0) eqn:Hr.
    + split; [|split].
      * split; [intros _; now exists p0 |].
        intros _. exists ackFrame, p0. now left.
      * intros p [= <-] _. split; [|reflexivity].
        intros f q [[= <- <-]|Hin]; [now split|].
        now apply ackAll_out_no_call in Hin.
      * intros Hn. contradiction Hn. now exists p0.
    + split; [|split].
      * split.
        -- intros (f & q & Hin). now apply ackAll_out_no_call in Hin.
        -- intros (p & [= <-] & Hp). congruence.
      * intros p [= <-] Hp. congruence.
      * reflexivity.
  - split; [|split].
    + split.
      * intros (f & q & Hin). now apply ackAll_out_no_call in Hin.
      * intros (p & Hp & _). discriminate.
    + intros p Hp. discriminate.
    + reflexivity.
Qed.

(** ** [detectLostPackets] declares nothing lost (claim C1) *)

(** Whatever the state, [detectLostPackets] leaves the maps and the
    counters as they are and emits nothing; the loss time of the space is
    cleared and not computed again. *)
Lemma detectLostPackets_removes_nothing {C : Collaborators} now space s :
  exists s',
    detectLostPackets now space s = Done tt s' []
    /\ sentPackets s' = sentPackets s
    /\ ackElicitingPacketsOutstanding s' = ackElicitingPacketsOutstanding s
    /\ cryptoOutstanding s' = cryptoOutstanding s
    /\ at_space space (lossTime s') = 0%Q.
Proof.
  eexists. split; [apply detectLostPackets_run|]. cbn.
  repeat split. rewrite at_set_space. destruct space; reflexivity.
Qed.

(** C1, at the failing input: after the scenario, packet 0 was sent 140 ms
    ago, more than the loss delay of 112.5 ms, and its number is at most
    4 - 3; the ACK has been taken (packet 4 is acknowledged and gone), but
    packet 0 is still in the map of its space, no loss was announced and no
    loss time is set.  A further [detectLostPackets] changes nothing of
    this. *)
Theorem packet_below_threshold_not_declared_lost :
  exists s out,
    run_calls (C := specCollaborators) packetThresholdScenario
      (constructor (mkRTT 100 100 25 100 25))
    = Done tt s out
    /\ at_space ApplicationData (largestAckedPacket s) = 4
    /\ sp_keys (entries ApplicationData s) = [0; 1; 2; 3; 5]
    /\ (forall lost, ~ In (PACKETS_LOST lost) out)
    /\ In (PACKET_ACKED (dataPacket 4)) out
    /\ at_space ApplicationData (lossTime s) = 0%Q
    /\ (exists p,
          sp_lookup 0 (entries ApplicationData s) = Some p
          /\ (lossDelay (rttMeasurer s) <= 140 - time p)%Q
          /\ packetNumber (packet p)
             <= at_space ApplicationData (largestAckedPacket s) - kPacketThreshold)
    /\ exists s',
         detectLostPackets (collaborators := specCollaborators)
           140 ApplicationData s = Done tt s' []
         /\ sentPackets s' = sentPackets s.
Proof.
  eexists. eexists. split; [vm_compute; reflexivity|].
  split; [reflexivity|]. split; [reflexivity|].
  split; [intros lost [Hin|[Hin|[]]]; discriminate Hin|].
  split; [right; now left|].
  split; [reflexivity|].
  split.
  - eexists. split; [reflexivity|]. split; vm_compute; discriminate.
  - eexists. split; reflexivity.
Qed.

(** ** The counter of ack-eliciting packets (claim C5) *)

(** C5, at the failing input: an ack-eliciting packet is registered and the
    detector is reset.  The maps are empty, none of their packets is
    ack-eliciting, and the counter still says one. *)
Theorem counter_stale_after_reset :
  exists s out,
    run_calls (C := specCollaborators)
      [CallOnPacketSent 0 (dataPacket 0); CallReset] (constructor noSample)
    = Done tt s out
    /\ ackElicitingPacketsOutstanding s = 1
    /\ countAckEliciting s = 0
    /\ ~ counts s.
Proof.
  eexists. eexists. split; [vm_compute; reflexivity|].
  split; [reflexivity|]. split; [reflexivity|]. discriminate.
Qed.

(** The counter is also off after a packet number is registered twice: the
    second registration is refused by the map after the counter was
    raised. *)
Lemma counter_off_after_double_registration :
  exists s out,
    run_calls (C := specCollaborators)
      [CallOnPacketSent 0 (dataPacket 0); CallOnPacketSent 1 (dataPacket 0)]
      (constructor noSample)
    = Done tt s out
    /\ ackElicitingPacketsOutstanding s = 2
    /\ countAckEliciting s = 1.
Proof.
  eexists. eexists. split; [vm_compute; reflexivity|].
  split; reflexivity.
Qed.

(** ** Invariants that removals keep *)

Section Invariants.

(** A property of the maps and of the counter of ack-eliciting packets
    that [removeFromSentPackets] keeps. *)
Variable J : QuicLossDetection -> Prop.

Hypothesis J_frame :
  forall s s',
    sentPackets s' = sentPackets s ->
    ackElicitingPacketsOutstanding s' = ackElicitingPacketsOutstanding s ->
    J s -> J s'.

Hypothesis J_remove :
  forall space key s, J s -> J (removeFromSentPackets_state space key s).

Lemma removeAll_keeps l : forall s, J s -> J (removeAll l s).
Proof.
  induction l as [|x l IH]; intros s HJ; [exact HJ|].
  cbn. apply IH, J_remove, HJ.
Qed.

Lemma ackAll_keeps l : forall s, J s -> J (ackAll_state l s).
Proof.
  induction l as [|q l IH]; intros s HJ; [exact HJ|].
  cbn. apply IH, J_remove, HJ.
Qed.

Lemma setLossDetectionAlarm_keeps s : J s -> J (setLossDetectionAlarm_state s).
Proof.
  intros HJ. unfold setLossDetectionAlarm_state.
  destruct (ackElicitingPacketsOutstanding s =? 0);
    [now apply (J_frame s)|].
  destruct (lossDetectionAlarm s); [now apply (J_frame s) | exact HJ].
Qed.

Lemma onAckReceived_keeps {C : Collaborators} now ackFrame s :
  J s -> J (onAckReceived_state now ackFrame s).
Proof.
  intros HJ. unfold onAckReceived_state.
  apply setLossDetectionAlarm_keeps.
  match goal with
  | |- J (set_ptoCount _ (set_cryptoCount _ (set_lossTime _ ?s3))) =>
      apply (J_frame s3); [reflexivity | reflexivity |]
  end.
  apply ackAll_keeps. unfold updateRtt_state.
  match goal with
  | |- context [rttSample ackFrame ?s1] =>
      destruct (rttSample ackFrame s1); now apply (J_frame s)
  end.
Qed.

Lemma alarmTimeout_keeps s : J s -> J (alarmTimeout_state s).
Proof.
  intros HJ. unfold alarmTimeout_state.
  set (s0 := set_lossDetectionAlarm AlarmIdle s).
  assert (HJ0 : J s0) by now apply (J_frame s).
  apply setLossDetectionAlarm_keeps.
  destruct (0 <? cryptoOutstanding s0).
  - match goal with
    | |- J (set_cryptoCount _ ?s') =>
        apply (J_frame s'); [reflexivity | reflexivity |]
    end.
    now apply removeAll_keeps.
  - destruct (Qnonzero (fst (getEarliestLossTime s0))).
    + now apply (J_frame s0).
    + match goal with
      | |- J (set_ptoCount _ ?s') =>
          apply (J_frame s'); [reflexivity | reflexivity |]
      end.
      now apply removeAll_keeps.
Qed.

End Invariants.

(** *** Well-formed maps *)

Lemma wf_frame s s' : sentPackets s' = sentPackets s -> wf s -> wf s'.
Proof. intros E Hwf space. unfold entries. rewrite E. apply Hwf. Qed.

Lemma wf_constructor rtt : wf (constructor rtt).
Proof. intros []; split; constructor. Qed.

Lemma wf_onPacketSent now basePacket s :
  wf s -> wf (onPacketSent_state now basePacket s).
Proof.
  intros Hwf. unfold onPacketSent_state.
  set (s3 := setLossDetectionAlarm_state _).
  assert (Hwf3 : wf s3).
  { apply (setLossDetectionAlarm_keeps wf); [intros ? ? E _; now apply wf_frame|].
    destruct (isHandshake basePacket), (isRetransmittable basePacket);
      exact Hwf. }
  set (space := findPacketSpaceFromPacket basePacket).
  destruct (sp_lookup (packetNumber basePacket) (entries space s3)) eqn:Hl;
    [exact Hwf3|].
  apply sp_lookup_None_iff in Hl.
  intros space'. unfold entries. cbn. rewrite at_set_space.
  destruct (kPacketNumberSpace_eqb space space') eqn:E; [|apply Hwf3].
  apply kPacketNumberSpace_eqb_eq in E. subst space'.
  destruct (Hwf3 space) as [Hnd Hok]. split.
  - unfold sp_keys, sp_add. rewrite map_app. cbn.
    apply NoDup_app; [exact Hnd | repeat constructor; intros [] |].
    intros k Hin [<-|[]]. contradiction.
  - unfold sp_add. apply Forall_app. split; [exact Hok|].
    repeat constructor.
Qed.

Lemma wf_reset s :
  wf (set_sentPackets (mkPerSpace [] [] []) (set_lossDetectionAlarm AlarmIdle s)).
Proof. intros []; split; constructor. Qed.

Section Runs.

Context {C : Collaborators}.

(** Every call returns on well-formed maps, and leaves them well-formed. *)
Lemma run_call_wf c s :
  wf s -> exists s' out, run_call c s = Done tt s' out /\ wf s'.
Proof.
  intros Hwf. destruct c as [now p|now ackFrame|now|]; cbn [run_call].
  - do 2 eexists. split; [apply onPacketSent_run | now apply wf_onPacketSent].
  - do 2 eexists. split; [apply onAckReceived_run|].
    apply (onAckReceived_keeps wf);
      [intros ? ? E _; now apply wf_frame
      | intros; now apply wf_removeFromSentPackets | exact Hwf].
  - do 2 eexists. split; [now apply alarmTimeout_run|].
    apply (alarmTimeout_keeps wf);
      [intros ? ? E _; now apply wf_frame
      | intros; now apply wf_removeFromSentPackets | exact Hwf].
  - do 2 eexists. split; [apply reset_run | apply wf_reset].
Qed.

Lemma run_calls_wf calls :
  forall s, wf s -> exists s' out, run_calls calls s = Done tt s' out /\ wf s'.
Proof.
  induction calls as [|c calls IH]; intros s Hwf.
  - exists s, []. split; [reflexivity | exact Hwf].
  - destruct (run_call_wf c s Hwf) as (s1 & o1 & Hrun1 & Hwf1).
    destruct (IH s1 Hwf1) as (s2 & o2 & Hrun2 & Hwf2).
    exists s2, (o1 ++ o2). split; [|exact Hwf2].
    apply (bind_Done _ _ _ _ _ _ _ _ _ Hrun1 Hrun2).
Qed.

Lemma reachable_wf s : reachable s -> wf s.
Proof.
  intros (rtt & calls & out & Hrun).
  destruct (run_calls_wf calls _ (wf_constructor rtt)) as (s' & out' & Hrun' & Hwf).
  rewrite Hrun in Hrun'. now injection Hrun' as -> _.
Qed.

End Runs.

(** ** What the removal of probes does to maps and counters *)

Lemma In_firstn {A} (x : A) n l : In x (firstn n l) -> In x l.
Proof.
  intros Hin. rewrite <- (firstn_skipn n l). apply in_or_app. now left.
Qed.

Lemma candidates_In spaces s x :
  In x (candidates spaces s) ->
  In (snd x) (entries (fst x) s) /\ ackEliciting (snd x) = true.
Proof.
  unfold candidates. rewrite in_flat_map. intros (space & _ & Hin).
  apply in_map_iff in Hin as (e & <- & Hin).
  now apply filter_In in Hin.
Qed.

Lemma entries_removeAll_incl space e l :
  forall s, In e (entries space (removeAll l s)) -> In e (entries space s).
Proof.
  induction l as [|x l IH]; intros s Hin; [exact Hin|].
  cbn in Hin. apply IH in Hin. rewrite entries_removeFromSentPackets in Hin.
  destruct (kPacketNumberSpace_eqb (fst x) space); [|exact Hin].
  now apply sp_delete_In in Hin.
Qed.

(** The key of a removed entry is gone from the map of its space. *)
Lemma removed_key_gone x l :
  forall s, In x l ->
    ~ In (fst (snd x)) (sp_keys (entries (fst x) (removeAll l s))).
Proof.
  induction l as [|y l IH]; intros s Hin Hkey; [contradiction|].
  destruct Hin as [->|Hin]; [|exact (IH _ Hin Hkey)].
  cbn in Hkey. unfold sp_keys in Hkey.
  apply in_map_iff in Hkey as (e & Ekey & He).
  apply entries_removeAll_incl in He.
  rewrite entries_removeFromSentPackets_same in He.
  apply sp_delete_In in He as [_ Hne]. contradiction.
Qed.

(** A packet that was removed from well-formed maps is in none of them. *)
Lemma removed_packet_absent l s x :
  wf s -> In x l -> In (snd x) (entries (fst x) s) ->
  absent (probePacket x) (removeAll l s).
Proof.
  intros Hwf Hin Hentry space e He Hp.
  pose proof (removed_key_gone x l s Hin) as Hgone.
  assert (He0 : In e (entries space s)) by now apply entries_removeAll_incl in He.
  destruct (Hwf space) as [_ Hok]. rewrite Forall_forall in Hok.
  destruct (Hok e He0) as [Hkey Hspace].
  destruct (Hwf (fst x)) as [_ Hokx]. rewrite Forall_forall in Hokx.
  destruct (Hokx (snd x) Hentry) as [Hkeyx Hspacex].
  unfold probePacket in Hp. rewrite Hp in Hkey, Hspace.
  assert (Es : space = fst x) by congruence.
  rewrite Es in He.
  apply Hgone. rewrite <- Hkeyx, Hkey. unfold sp_keys. now apply in_map.
Qed.

Lemma removeAll_cons x l s :
  removeAll (x :: l) s
  = removeAll l (removeFromSentPackets_state (fst x) (fst (snd x)) s).
Proof. reflexivity. Qed.

(** What a removal that finds its entry does to the counters. *)
Lemma counters_removeFromSentPackets space key v s :
  sp_lookup key (entries space s) = Some v ->
  ackElicitingPacketsOutstanding (removeFromSentPackets_state space key s)
  = ackElicitingPacketsOutstanding s
    - (if isRetransmittable (packet v) then 1 else 0)
  /\ cryptoOutstanding (removeFromSentPackets_state space key s)
     = cryptoOutstanding s - (if isHandshake (packet v) then 1 else 0).
Proof.
  unfold removeFromSentPackets_state, entries. intros ->.
  destruct (isRetransmittable (packet v)), (isHandshake (packet v)); cbn; lia.
Qed.

(** The counters after the removal of the first entries, among those that
    are left of a space, that [f] selects. *)
Lemma counters_after_removals space (f : Z * SentPacket -> bool) :
  forall (rest pre : SentPackets) s n,
    entries space s = pre ++ rest ->
    NoDup (sp_keys (pre ++ rest)) ->
    ackElicitingPacketsOutstanding
      (removeAll (map (pair space) (firstn n (filter f rest))) s)
    = ackElicitingPacketsOutstanding s
      - Z.of_nat (length (filter ackEliciting (firstn n (filter f rest))))
    /\ cryptoOutstanding
         (removeAll (map (pair space) (firstn n (filter f rest))) s)
       = cryptoOutstanding s
         - Z.of_nat (length (filter carriesCrypto (firstn n (filter f rest)))).
Proof.
  induction rest as [|[k v] rest IH]; intros pre s n Hent Hnd.
  - cbn. rewrite firstn_nil. cbn. lia.
  - cbn [filter]. destruct (f (k, v)).
    + destruct n as [|n]; [cbn; lia|].
      cbn [firstn map]. rewrite removeAll_cons. cbn [fst snd].
      assert (Hk : ~ In k (sp_keys pre)).
      { unfold sp_keys in Hnd. rewrite map_app in Hnd. cbn in Hnd.
        apply NoDup_remove_2 in Hnd. rewrite in_app_iff in Hnd.
        unfold sp_keys. tauto. }
      assert (Hl : sp_lookup k (entries space s) = Some v)
        by (rewrite Hent; now apply sp_lookup_middle).
      destruct (counters_removeFromSentPackets space k v s Hl) as [Ha Hc].
      set (s1 := removeFromSentPackets_state space k s) in *.
      assert (Hent1 : entries space s1 = pre ++ rest).
      { unfold s1. rewrite entries_removeFromSentPackets_same, Hent.
        now apply (sp_delete_middle k v). }
      assert (Hnd1 : NoDup (sp_keys (pre ++ rest))).
      { unfold sp_keys in *. rewrite map_app in *. cbn in Hnd.
        now apply NoDup_remove_1 in Hnd. }
      destruct (IH pre s1 n Hent1 Hnd1) as [IHa IHc].
      rewrite IHa, IHc, Ha, Hc. cbn [filter].
      change (ackEliciting (k, v)) with (isRetransmittable (packet v)).
      change (carriesCrypto (k, v)) with (isHandshake (packet v)).
      destruct (isRetransmittable (packet v)), (isHandshake (packet v));
        cbn [length]; lia.
    + apply (IH (pre ++ [(k, v)]) s n).
      * rewrite Hent, <- app_assoc. reflexivity.
      * rewrite <- app_assoc. exact Hnd.
Qed.

Lemma filter_tagged space (g : Z * SentPacket -> bool) (m : SentPackets) :
  length (filter (fun x : kPacketNumberSpace * (Z * SentPacket) => g (snd x))
            (map (pair space) m))
  = length (filter g m).
Proof.
  induction m as [|e m IH]; [reflexivity|].
  cbn. destruct (g e); cbn; now rewrite IH.
Qed.

(** The counters after the removal of the first [n] candidates. *)
Lemma counters_after_probes :
  forall spaces s n,
    NoDup spaces -> wf s ->
    ackElicitingPacketsOutstanding (removeAll (firstn n (candidates spaces s)) s)
    = ackElicitingPacketsOutstanding s
      - Z.of_nat (length (firstn n (candidates spaces s)))
    /\ cryptoOutstanding (removeAll (firstn n (candidates spaces s)) s)
       = cryptoOutstanding s
         - Z.of_nat (length (filter (fun x => carriesCrypto (snd x))
                               (firstn n (candidates spaces s)))).
Proof.
  induction spaces as [|space spaces IH]; intros s n Hnd Hwf.
  - cbn. rewrite firstn_nil. cbn. lia.
  - inversion Hnd as [|? ? Hnotin Hnd']; subst.
    cbn [candidates flat_map].
    set (cands := filter ackEliciting (entries space s)).
    rewrite firstn_app, firstn_map, length_map, removeAll_app.
    set (s1 := removeAll (map (pair space) (firstn n cands)) s).
    assert (Hsame : candidates spaces s1 = candidates spaces s).
    { apply candidates_same_entries. intros sp Hin.
      apply (entries_removeAll_other space).
      - intros x Hx. apply in_map_iff in Hx as (e & <- & _). reflexivity.
      - intros ->. contradiction. }
    fold (candidates spaces s). rewrite <- Hsame.
    destruct (IH s1 (n - length cands)%nat Hnd' (wf_removeAll _ _ Hwf))
      as [IHa IHc].
    destruct (counters_after_removals space ackEliciting (entries space s) [] s n
                eq_refl (proj1 (Hwf space))) as [Ha Hc].
    fold cands in Ha, Hc. fold s1 in Ha, Hc.
    rewrite IHa, IHc, Ha, Hc.
    rewrite length_app, filter_app, length_app, length_map, filter_tagged.
    assert (Hall : filter ackEliciting (firstn n cands) = firstn n cands).
    { apply forallb_filter_id. apply forallb_forall. intros e He.
      apply In_firstn in He. unfold cands in He.
      now apply filter_In in He. }
    rewrite Hall. lia.
Qed.

(** *** A packet that is in no map stays out of the events *)

Lemma absent_frame p s s' :
  sentPackets s' = sentPackets s -> absent p s -> absent p s'.
Proof. intros E Ha space e. unfold entries. rewrite E. apply Ha. Qed.

Lemma absent_removeFromSentPackets p space key s :
  absent p s -> absent p (removeFromSentPackets_state space key s).
Proof.
  intros Ha space' e He. rewrite entries_removeFromSentPackets in He.
  destruct (kPacketNumberSpace_eqb space space'); [|now apply (Ha space')].
  apply sp_delete_In in He as [He _]. now apply (Ha space').
Qed.

Lemma absent_onPacketSent p now q s :
  ~ registers_again p (CallOnPacketSent now q) ->
  absent p s -> absent p (onPacketSent_state now q s).
Proof.
  intros Hnot Ha. unfold onPacketSent_state.
  set (s3 := setLossDetectionAlarm_state _).
  assert (Ha3 : absent p s3).
  { apply (setLossDetectionAlarm_keeps (absent p));
      [intros ? ? E _; now apply absent_frame|].
    destruct (isHandshake q), (isRetransmittable q); exact Ha. }
  set (space := findPacketSpaceFromPacket q).
  destruct (sp_lookup (packetNumber q) (entries space s3)); [exact Ha3|].
  intros space' e He. unfold entries in He. cbn in He.
  rewrite at_set_space in He.
  destruct (kPacketNumberSpace_eqb space space') eqn:E;
    [|now apply (Ha3 space')].
  apply kPacketNumberSpace_eqb_eq in E. subst space'.
  unfold sp_add in He. apply in_app_or in He as [He|[<-|[]]];
    [now apply (Ha3 space)|].
  cbn. intros ->. apply Hnot. cbn. split; reflexivity.
Qed.

Lemma determineNewlyAckedPackets_In ackFrame s q :
  In q (determineNewlyAckedPackets ackFrame s) ->
  exists space e, In e (entries space s) /\ packet (snd e) = q.
Proof.
  unfold determineNewlyAckedPackets. rewrite in_flat_map.
  intros (n & _ & Hin). apply in_flat_map in Hin as (space & _ & Hin).
  destruct (sp_lookup n (at_space space (sentPackets s))) as [v|] eqn:Hl;
    [|contradiction].
  destruct Hin as [<-|[]]. exists space, (n, v).
  split; [now apply sp_lookup_In | reflexivity].
Qed.

Lemma onAckReceived_out_spares {C : Collaborators} p ackFrame s :
  absent p s -> neither_acked_nor_lost p (onAckReceived_out ackFrame s).
Proof.
  intros Ha a Hin. unfold onAckReceived_out in Hin.
  apply in_app_or in Hin as [Hin|Hin].
  - unfold updateRtt_out in Hin.
    destruct (rttSample ackFrame s); [|contradiction].
    destruct Hin as [<-|[]]. split; [discriminate | intros ?; discriminate].
  - unfold ackAll_out in Hin. apply in_flat_map in Hin as (q & Hq & Hin).
    destruct (isRetransmittable q); [|contradiction].
    destruct Hin as [<-|[]]. split; [|intros ?; discriminate].
    intros [= ->].
    apply determineNewlyAckedPackets_In in Hq as (space & e & He & Hp).
    exact (Ha space e He Hp).
Qed.

Lemma alarmTimeout_out_retransmits s a :
  In a (alarmTimeout_out s) -> exists q, a = RETRANSMIT_PACKET q.
Proof.
  unfold alarmTimeout_out.
  destruct (0 <? cryptoOutstanding s).
  - unfold retransmissions. rewrite in_flat_map. intros (x & _ & Hin).
    destruct (isRetransmittable (probePacket x)); [|contradiction].
    destruct Hin as [<-|[]]. now eexists.
  - destruct (Qnonzero (fst (getEarliestLossTime s))); [contradiction|].
    rewrite in_map_iff. intros (x & <- & _). now eexists.
Qed.

Section RunsWithout.

Context {C : Collaborators}.

(** While no call registers the number of [p] in the space of [p] again,
    the calls return, [p] stays out of the maps and no event acknowledges
    it or declares it lost. *)
Lemma run_calls_spare p calls :
  forall s,
    wf s -> absent p s ->
    (forall c, In c calls -> ~ registers_again p c) ->
    exists s' out,
      run_calls calls s = Done tt s' out
      /\ wf s' /\ absent p s' /\ neither_acked_nor_lost p out.
Proof.
  induction calls as [|c calls IH]; intros s Hwf Ha Hnot.
  - exists s, []. split; [reflexivity|]. split; [exact Hwf|].
    split; [exact Ha | intros a []].
  - assert (Hc : exists s1 o1,
               run_call c s = Done tt s1 o1
               /\ wf s1 /\ absent p s1 /\ neither_acked_nor_lost p o1).
    { destruct (run_call_wf c s Hwf) as (s1 & o1 & Hrun & Hwf1).
      exists s1, o1. split; [exact Hrun|]. split; [exact Hwf1|].
      destruct c as [now q|now ackFrame|now|]; cbn [run_call] in Hrun.
      - rewrite onPacketSent_run in Hrun. injection Hrun as <- <-.
        split; [|intros ? []].
        apply absent_onPacketSent; [apply Hnot; now left | exact Ha].
      - rewrite onAckReceived_run in Hrun. injection Hrun as <- <-.
        split; [|now apply onAckReceived_out_spares].
        apply (onAckReceived_keeps (absent p));
          [intros ? ? E _; now apply absent_frame
          | intros; now apply absent_removeFromSentPackets | exact Ha].
      - rewrite (alarmTimeout_run now s Hwf) in Hrun. injection Hrun as <- <-.
        split.
        + apply (alarmTimeout_keeps (absent p));
            [intros ? ? E _; now apply absent_frame
            | intros; now apply absent_removeFromSentPackets | exact Ha].
        + intros a Hin. apply alarmTimeout_out_retransmits in Hin as (q & ->).
          split; [discriminate | intros ?; discriminate].
      - rewrite reset_run in Hrun. injection Hrun as <- <-.
        split; [|intros ? []].
        intros [] e []. }
    destruct Hc as (s1 & o1 & Hrun1 & Hwf1 & Ha1 & Ho1).
    destruct (IH s1 Hwf1 Ha1) as (s2 & o2 & Hrun2 & Hwf2 & Ha2 & Ho2).
    { intros c' Hin. apply Hnot. now right. }
    exists s2, (o1 ++ o2).
    split; [apply (bind_Done _ _ _ _ _ _ _ _ _ Hrun1 Hrun2)|].
    split; [exact Hwf2|]. split; [exact Ha2|].
    intros a Hin. apply in_app_or in Hin as [Hin|Hin]; auto.
Qed.

End RunsWithout.

(** *** The counter of ack-eliciting packets under removals *)

Lemma countAckEliciting_spaces s :
  countAckEliciting s
  = Z.of_nat (length (filter ackEliciting (entries Initial s))
              + length (filter ackEliciting (entries Handshake s))
              + length (filter ackEliciting (entries ApplicationData s))).
Proof.
  unfold countAckEliciting, entriesOf, allSpaces. cbn [flat_map].
  rewrite app_nil_r, !filter_app, !length_app, !filter_tagged.
  f_equal. lia.
Qed.

Lemma count_delete key v (m : SentPackets) :
  NoDup (sp_keys m) -> sp_lookup key m = Some v ->
  length (filter ackEliciting m)
  = (length (filter ackEliciting (sp_delete key m))
     + (if isRetransmittable (packet v) then 1 else 0))%nat.
Proof.
  intros Hnd Hl. apply sp_lookup_In in Hl.
  apply in_split in Hl as (pre & rest & ->).
  rewrite (sp_delete_middle key v pre rest Hnd), !filter_app, !length_app.
  cbn [filter]. change (ackEliciting (key, v)) with (isRetransmittable (packet v)).
  destruct (isRetransmittable (packet v)); cbn [length]; lia.
Qed.

(** On well-formed maps, a removal takes from the counter what it takes
    from the maps. *)
Lemma counts_removeFromSentPackets space key s :
  wf s /\ counts s ->
  wf (removeFromSentPackets_state space key s)
  /\ counts (removeFromSentPackets_state space key s).
Proof.
  intros [Hwf Hc]. split; [now apply wf_removeFromSentPackets|].
  unfold counts in *.
  destruct (sp_lookup key (entries space s)) as [v|] eqn:Hl.
  - destruct (counters_removeFromSentPackets space key v s Hl) as [-> _].
    rewrite Hc, !countAckEliciting_spaces, !entries_removeFromSentPackets.
    pose proof (count_delete key v _ (proj1 (Hwf space)) Hl) as Hd.
    destruct space; cbn [kPacketNumberSpace_eqb];
      destruct (isRetransmittable (packet v)); lia.
  - unfold removeFromSentPackets_state. unfold entries in Hl. rewrite Hl.
    exact Hc.
Qed.

Lemma counts_frame s s' :
  sentPackets s' = sentPackets s ->
  ackElicitingPacketsOutstanding s' = ackElicitingPacketsOutstanding s ->
  wf s /\ counts s -> wf s' /\ counts s'.
Proof.
  intros E Ea [Hwf Hc]. split; [now apply (wf_frame s)|].
  unfold counts, countAckEliciting, entriesOf, entries in *.
  rewrite E, Ea. exact Hc.
Qed.

Lemma countAckEliciting_none s :
  (forall space e, In e (entries space s) -> ackEliciting e = false) ->
  countAckEliciting s = 0.
Proof.
  intros Hnone. rewrite countAckEliciting_spaces.
  assert (Hz : forall space, filter ackEliciting (entries space s) = []).
  { intros space.
    destruct (filter ackEliciting (entries space s)) as [|e l] eqn:E;
      [reflexivity|].
    assert (Hin : In e (filter ackEliciting (entries space s)))
      by (rewrite E; now left).
    apply filter_In in Hin as [Hin Ht]. rewrite (Hnone space e Hin) in Ht.
    discriminate. }
  rewrite !Hz. reflexivity.
Qed.

(** On a detector in use whose counter agrees with the maps, the
    registration of a fresh number, an ACK and the firing of the alarm
    keep the agreement. *)
Lemma counts_kept {C : Collaborators} (c : Call) (s : QuicLossDetection) :
  wf s -> counts s ->
  match c with
  | CallOnPacketSent _ q =>
      sp_lookup (packetNumber q) (entries (findPacketSpaceFromPacket q) s) = None
  | CallReset => False
  | _ => True
  end ->
  exists s' out, run_call c s = Done tt s' out /\ wf s' /\ counts s'.
Proof.
  intros Hwf Hc Hcall.
  destruct c as [now q|now ackFrame|now|]; cbn [run_call]; [| | |contradiction].
  - do 2 eexists. split; [apply onPacketSent_run|].
    split; [now apply wf_onPacketSent|].
    unfold onPacketSent_state.
    set (s2 := if isRetransmittable q then _ else _).
    assert (E2 : sentPackets s2 = sentPackets s)
      by (unfold s2; destruct (isHandshake q), (isRetransmittable q);
          reflexivity).
    assert (Ea2 : ackElicitingPacketsOutstanding s2
                  = ackElicitingPacketsOutstanding s
                    + (if isRetransmittable q then 1 else 0))
      by (unfold s2; destruct (isHandshake q), (isRetransmittable q); cbn; lia).
    set (s3 := setLossDetectionAlarm_state s2).
    assert (E3 : sentPackets s3 = sentPackets s /\
                 ackElicitingPacketsOutstanding s3
                 = ackElicitingPacketsOutstanding s2).
    { unfold s3, setLossDetectionAlarm_state.
      destruct (ackElicitingPacketsOutstanding s2 =? 0); [now split|].
      destruct (lossDetectionAlarm s2); now split. }
    destruct E3 as [E3 Ea3].
    unfold entries in *. rewrite E3, Hcall.
    unfold counts. rewrite !countAckEliciting_spaces. unfold entries. cbn.
    rewrite Ea3, Ea2, Hc, countAckEliciting_spaces.
    unfold entries, sp_add.
    destruct (findPacketSpaceFromPacket q);
      cbn [set_space at_space atInitial atHandshake atApplicationData];
      rewrite filter_app, length_app; cbn [filter];
      change (ackEliciting (packetNumber q,
                mkSentPacket q now (isRetransmittable q)))
        with (isRetransmittable q);
      destruct (isRetransmittable q); cbn [length]; lia.
  - do 2 eexists. split; [apply onAckReceived_run|].
    apply (onAckReceived_keeps (fun s => wf s /\ counts s));
      [intros ? ? E Ea; now apply counts_frame
      | intros; now apply counts_removeFromSentPackets | now split].
  - do 2 eexists. split; [now apply alarmTimeout_run|].
    apply (alarmTimeout_keeps (fun s => wf s /\ counts s));
      [intros ? ? E Ea; now apply counts_frame
      | intros; now apply counts_removeFromSentPackets | now split].
Qed.

(** ** The firing of the alarm in PTO mode (claims C6 and C10) *)

Lemma no_loss_time_set s :
  (forall space, (at_space space (lossTime s) == 0)%Q) ->
  Qnonzero (fst (getEarliestLossTime s)) = false.
Proof.
  intros Hz. unfold getEarliestLossTime, Qnonzero. cbn [fold_left].
  rewrite (Qeq_eq_bool _ _ (Hz Handshake)). cbn [negb andb].
  rewrite (Qeq_eq_bool _ _ (Hz ApplicationData)). cbn [negb andb fst].
  now rewrite (Qeq_eq_bool _ _ (Hz Initial)).
Qed.

Lemma untouched_by_removeFromSentPackets space key s :
  lossDetectionAlarm (removeFromSentPackets_state space key s)
  = lossDetectionAlarm s
  /\ ptoCount (removeFromSentPackets_state space key s) = ptoCount s.
Proof.
  unfold removeFromSentPackets_state.
  destruct (sp_lookup key (at_space space (sentPackets s))) as [e|];
    [|now split].
  destruct (isRetransmittable (packet e)), (isHandshake (packet e)); now split.
Qed.

Lemma untouched_by_removeAll l :
  forall s,
    lossDetectionAlarm (removeAll l s) = lossDetectionAlarm s
    /\ ptoCount (removeAll l s) = ptoCount s.
Proof.
  induction l as [|x l IH]; intros s; [now split|].
  rewrite removeAll_cons.
  destruct (IH (removeFromSentPackets_state (fst x) (fst (snd x)) s))
    as [-> ->].
  apply untouched_by_removeFromSentPackets.
Qed.

(** [setLossDetectionAlarm] writes the alarm only; from an idle alarm, it
    leaves one running exactly when the counter of ack-eliciting packets
    is not zero. *)
Lemma setLossDetectionAlarm_state_fields s :
  ptoCount (setLossDetectionAlarm_state s) = ptoCount s
  /\ sentPackets (setLossDetectionAlarm_state s) = sentPackets s
  /\ ackElicitingPacketsOutstanding (setLossDetectionAlarm_state s)
     = ackElicitingPacketsOutstanding s
  /\ cryptoOutstanding (setLossDetectionAlarm_state s) = cryptoOutstanding s
  /\ (ackElicitingPacketsOutstanding s = 0 ->
      lossDetectionAlarm (setLossDetectionAlarm_state s) = AlarmIdle)
  /\ (lossDetectionAlarm s = AlarmIdle ->
      Alarm_isRunning (lossDetectionAlarm (setLossDetectionAlarm_state s))
      = negb (ackElicitingPacketsOutstanding s =? 0)).
Proof.
  unfold setLossDetectionAlarm_state.
  destruct (Z.eqb_spec (ackElicitingPacketsOutstanding s) 0) as [E|Hne].
  - repeat split.
  - destruct (lossDetectionAlarm s) eqn:Ea; cbn; rewrite ?Ea;
      repeat split; try contradiction; discriminate.
Qed.

Section ProbeTimeout.

Context {C : Collaborators}.

(** C6: when the alarm fires on a detector in use (well-formed maps) with
    no crypto packet outstanding and no loss time set, the detector emits
    a retransmission for each of the first two ack-eliciting sent packets
    in the order Initial, Handshake, ApplicationData, for all of them if
    they are fewer than two, and nothing else; it takes these packets out
    of the maps, adds one to [ptoCount], and ends with
    [setLossDetectionAlarm], which from the idle alarm of the firing
    leaves an alarm running exactly when ack-eliciting packets are still
    counted. *)
Theorem pto_sends_at_most_two_probes (now : Q) (s : QuicLossDetection) :
  wf s ->
  cryptoOutstanding s = 0 ->
  (forall space, (at_space space (lossTime s) == 0)%Q) ->
  let sent :=
    map (pair Initial) (filter ackEliciting (entries Initial s))
    ++ map (pair Handshake) (filter ackEliciting (entries Handshake s))
    ++ map (pair ApplicationData)
         (filter ackEliciting (entries ApplicationData s)) in
  let probed := firstn 2 sent in
  exists s',
    alarmTimeout now s
    = Done tt s' (map (fun x => RETRANSMIT_PACKET (probePacket x)) probed)
    /\ (length probed <= 2)%nat
    /\ length probed = Nat.min 2 (length sent)
    /\ ptoCount s' = ptoCount s + 1
    /\ s' = setLossDetectionAlarm_state
              (set_ptoCount (ptoCount s + 1)
                 (removeAll probed (set_lossDetectionAlarm AlarmIdle s)))
    /\ Alarm_isRunning (lossDetectionAlarm s')
       = negb (ackElicitingPacketsOutstanding s' =? 0).
Proof.
  intros Hwf Hcrypto Hloss sent probed.
  assert (Hsent : candidates allSpaces s = sent)
    by (unfold candidates, allSpaces, sent; cbn [flat_map];
        now rewrite app_nil_r).
  set (s0 := set_lossDetectionAlarm AlarmIdle s).
  assert (Hprobed : probes 2 s0 = probed)
    by (unfold probes, probed; now rewrite <- Hsent).
  assert (Hstate : alarmTimeout_state s
                   = setLossDetectionAlarm_state
                       (set_ptoCount (ptoCount s + 1) (removeAll probed s0))).
  { unfold alarmTimeout_state. fold s0.
    change (cryptoOutstanding s0) with (cryptoOutstanding s).
    rewrite Hcrypto. cbn [Z.ltb Z.compare].
    rewrite (no_loss_time_set s0 Hloss), Hprobed.
    rewrite (proj2 (untouched_by_removeAll probed s0)). reflexivity. }
  assert (Hout : alarmTimeout_out s
                 = map (fun x => RETRANSMIT_PACKET (probePacket x)) probed).
  { unfold alarmTimeout_out. rewrite Hcrypto. cbn [Z.ltb Z.compare].
    rewrite (no_loss_time_set s Hloss).
    change (probes 2 s) with (probes 2 s0). now rewrite Hprobed. }
  exists (alarmTimeout_state s).
  split; [rewrite <- Hout; now apply alarmTimeout_run|].
  split; [apply firstn_le_length|].
  split; [apply length_firstn|].
  rewrite Hstate.
  set (s1 := set_ptoCount (ptoCount s + 1) (removeAll probed s0)).
  destruct (setLossDetectionAlarm_state_fields s1)
    as (Hpto & _ & Hack & _ & _ & Hrun).
  split; [rewrite Hpto; reflexivity|].
  split; [reflexivity|].
  rewrite Hack. apply Hrun.
  transitivity (lossDetectionAlarm (removeAll probed s0)); [reflexivity|].
  rewrite (proj1 (untouched_by_removeAll probed s0)). reflexivity.
Qed.

(** What the firing of the alarm in PTO mode does to the packets it
    probes, on well-formed maps: every
    packet of a probe retransmission is gone from the maps afterwards;
    the two counters have fallen by the number of probes and by the number
    of probes with handshake data.  Whatever calls follow, as long as none
    registers the number of the probed packet in its space again, they
    return and no event acknowledges the packet or declares it lost.  If
    the counter of ack-eliciting packets has reached zero, the alarm is
    cancelled at the end of the firing; so it is, when the counter agreed
    with the maps before, if no ack-eliciting packet is left in the
    maps. *)
Lemma probed_packets_leave_the_maps (now : Q) (s : QuicLossDetection) :
  wf s ->
  cryptoOutstanding s = 0 ->
  (forall space, (at_space space (lossTime s) == 0)%Q) ->
  exists s' out,
    alarmTimeout now s = Done tt s' out
    /\ out = map (fun x => RETRANSMIT_PACKET (probePacket x)) (probes 2 s)
    /\ (forall p, In (RETRANSMIT_PACKET p) out -> absent p s')
    /\ ackElicitingPacketsOutstanding s'
       = ackElicitingPacketsOutstanding s - Z.of_nat (length (probes 2 s))
    /\ cryptoOutstanding s'
       = cryptoOutstanding s
         - Z.of_nat (length (filter (fun x => carriesCrypto (snd x)) (probes 2 s)))
    /\ (forall p calls,
          In (RETRANSMIT_PACKET p) out ->
          (forall c, In c calls -> ~ registers_again p c) ->
          exists s'' out',
            run_calls calls s' = Done tt s'' out'
            /\ neither_acked_nor_lost p out')
    /\ (ackElicitingPacketsOutstanding s' = 0 ->
        lossDetectionAlarm s' = AlarmIdle)
    /\ (counts s ->
        (forall space e, In e (entries space s') -> ackEliciting e = false) ->
        lossDetectionAlarm s' = AlarmIdle).
Proof.
  intros Hwf Hcrypto Hloss.
  set (s0 := set_lossDetectionAlarm AlarmIdle s).
  assert (Hwf0 : wf s0) by exact Hwf.
  set (s1 := set_ptoCount (ptoCount s + 1) (removeAll (probes 2 s) s0)).
  assert (Hstate : alarmTimeout_state s = setLossDetectionAlarm_state s1).
  { unfold alarmTimeout_state. fold s0.
    change (cryptoOutstanding s0) with (cryptoOutstanding s).
    rewrite Hcrypto. cbn [Z.ltb Z.compare].
    rewrite (no_loss_time_set s0 Hloss).
    change (probes 2 s0) with (probes 2 s).
    rewrite (proj2 (untouched_by_removeAll (probes 2 s) s0)). reflexivity. }
  assert (Hout : alarmTimeout_out s
                 = map (fun x => RETRANSMIT_PACKET (probePacket x)) (probes 2 s)).
  { unfold alarmTimeout_out. rewrite Hcrypto. cbn [Z.ltb Z.compare].
    now rewrite (no_loss_time_set s Hloss). }
  destruct (setLossDetectionAlarm_state_fields s1)
    as (_ & Hmaps & Hack & Hcr & Hcancel & _).
  assert (Hwf' : wf (alarmTimeout_state s)).
  { apply (alarmTimeout_keeps wf);
      [intros ? ? E _; now apply wf_frame
      | intros; now apply wf_removeFromSentPackets | exact Hwf]. }
  assert (Habsent : forall p,
            In (RETRANSMIT_PACKET p)
               (map (fun x => RETRANSMIT_PACKET (probePacket x)) (probes 2 s)) ->
            absent p (alarmTimeout_state s)).
  { intros p Hin. apply in_map_iff in Hin as (x & [= <-] & Hx).
    apply (absent_frame _ (removeAll (probes 2 s) s0));
      [rewrite Hstate, Hmaps; reflexivity|].
    apply removed_packet_absent; [exact Hwf0 | exact Hx |].
    apply In_firstn in Hx. now apply candidates_In in Hx. }
  destruct (counters_after_probes allSpaces s0 2 allSpaces_NoDup Hwf0)
    as [Hca Hcc].
  exists (alarmTimeout_state s), (alarmTimeout_out s).
  split; [now apply alarmTimeout_run|].
  rewrite Hout.
  split; [reflexivity|].
  split; [exact Habsent|].
  split; [rewrite Hstate, Hack; exact Hca|].
  split; [rewrite Hstate, Hcr; exact Hcc|].
  split.
  { intros p calls Hin Hnot.
    destruct (run_calls_spare p calls (alarmTimeout_state s) Hwf'
                (Habsent p Hin) Hnot) as (s'' & out' & Hrun & _ & _ & Hspare).
    now exists s'', out'. }
  split.
  { rewrite Hstate, Hack. exact Hcancel. }
  intros Hcounts Hnone.
  assert (HJ : wf (alarmTimeout_state s) /\ counts (alarmTimeout_state s)).
  { apply (alarmTimeout_keeps (fun s => wf s /\ counts s));
      [intros ? ? E Ea; now apply counts_frame
      | intros; now apply counts_removeFromSentPackets | now split]. }
  destruct HJ as [_ Hc']. unfold counts in Hc'.
  rewrite (countAckEliciting_none _ Hnone) in Hc'.
  rewrite Hstate in Hc' |- *. rewrite Hack in Hc'. now apply Hcancel.
Qed.

End ProbeTimeout.

Lemma probeState_wf : wf probeState.
Proof.
  intros []; (split; [|repeat constructor]); cbn;
    repeat (constructor; [cbn; intuition discriminate|]); constructor.
Defined.

Lemma probeState_reachable : reachable (C := specCollaborators) probeState.
Proof.
  exists (mkRTT 100 100 25 100 25),
    [CallOnPacketSent 0 (dataPacket 0); CallOnPacketSent 1 (ackOnlyPacket 1);
     CallOnPacketSent 2 (dataPacket 2); CallOnPacketSent 3 (dataPacket 3)],
    [].
  vm_compute. reflexivity.
Qed.

Lemma pto_sends_at_most_two_probes_witness :
  wf probeState
  /\ cryptoOutstanding probeState = 0
  /\ (forall space, (at_space space (lossTime probeState) == 0)%Q)
  /\ exists s',
       alarmTimeout (collaborators := specCollaborators) 300 probeState
       = Done tt s'
           [RETRANSMIT_PACKET (dataPacket 0); RETRANSMIT_PACKET (dataPacket 2)]
       /\ ptoCount s' = 1.
Proof.
  split; [exact probeState_wf|].
  split; [reflexivity|].
  split; [intros []; reflexivity|].
  destruct (pto_sends_at_most_two_probes (C := specCollaborators) 300
              probeState probeState_wf eq_refl
              (fun space => match space with
                            | Initial | Handshake | ApplicationData =>
                                Qeq_refl 0
                            end))
    as (s' & Hrun & _ & _ & Hpto & _).
  exists s'. split; [exact Hrun | exact Hpto].
Defined.

Lemma probed_packets_leave_the_maps_witness :
  wf probeState
  /\ cryptoOutstanding probeState = 0
  /\ (forall space, (at_space space (lossTime probeState) == 0)%Q)
  /\ exists s' out,
       alarmTimeout (collaborators := specCollaborators) 300 probeState
       = Done tt s' out
       /\ absent (dataPacket 2) s'
       /\ ackElicitingPacketsOutstanding s' = 1.
Proof.
  split; [exact probeState_wf|].
  split; [reflexivity|].
  split; [intros []; reflexivity|].
  destruct (probed_packets_leave_the_maps (C := specCollaborators) 300
              probeState probeState_wf eq_refl
              (fun space => match space with
                            | Initial | Handshake | ApplicationData =>
                                Qeq_refl 0
                            end))
    as (s' & out & Hrun & Hout & Habsent & Hack & _).
  exists s', out. split; [exact Hrun|]. split; [|exact Hack].
  apply Habsent. rewrite Hout. right. now left.
Defined.

(** C10, at the failing input: the packet number 0 is registered twice
    (or registered, the detector reset, and registered again) and the
    alarm fires in PTO mode.  The probe is the only packet of the maps
    and is removed, so no ack-eliciting packet is left; but the counter
    of ack-eliciting packets, raised twice and lowered once, still says
    one, and the closing [setLossDetectionAlarm] starts the alarm again,
    for 450 ms, instead of cancelling it. *)
Theorem probe_of_last_packet_leaves_alarm_running :
  (exists s out,
     run_calls (C := specCollaborators)
       [CallOnPacketSent 0 (dataPacket 0); CallOnPacketSent 1 (dataPacket 0);
        CallAlarmTimeout 226]
       (constructor (mkRTT 100 100 25 100 25))
     = Done tt s out
     /\ out = [RETRANSMIT_PACKET (dataPacket 0)]
     /\ sentPackets s = mkPerSpace [] [] []
     /\ countAckEliciting s = 0
     /\ ackElicitingPacketsOutstanding s = 1
     /\ lossDetectionAlarm s = AlarmRunning 450)
  /\ (exists s out,
        run_calls (C := specCollaborators)
          [CallOnPacketSent 0 (dataPacket 0); CallReset;
           CallOnPacketSent 1 (dataPacket 0); CallAlarmTimeout 226]
          (constructor (mkRTT 100 100 25 100 25))
        = Done tt s out
        /\ out = [RETRANSMIT_PACKET (dataPacket 0)]
        /\ sentPackets s = mkPerSpace [] [] []
        /\ countAckEliciting s = 0
        /\ ackElicitingPacketsOutstanding s = 1
        /\ lossDetectionAlarm s = AlarmRunning 450).
Proof.
  split; eexists; eexists; (split; [vm_compute; reflexivity|]);
    repeat split.
Qed.


(** * Further properties of the detector *)

(** ** The earliest loss time *)

Lemma Qnonzero_true (a : Q) : Qnonzero a = true <-> ~ (a == 0)%Q.
Proof.
  unfold Qnonzero. rewrite negb_true_iff. split.
  - intros Hf He. apply Qeq_bool_iff in He. congruence.
  - intros Hn. destruct (Qeq_bool a 0) eqn:E; [|reflexivity].
    apply Qeq_bool_iff in E. contradiction.
Qed.

Lemma Qnonzero_false (a : Q) : Qnonzero a = false <-> (a == 0)%Q.
Proof.
  unfold Qnonzero. rewrite negb_false_iff. apply Qeq_bool_iff.
Qed.

Lemma Qlt_bool_true (a b : Q) : Qlt_bool a b = true <-> (a < b)%Q.
Proof.
  unfold Qlt_bool. rewrite negb_true_iff. split.
  - intros Hf. apply Qnot_le_lt. intros Hle.
    apply Qle_bool_iff in Hle. congruence.
  - intros Hlt. destruct (Qle_bool b a) eqn:E; [|reflexivity].
    apply Qle_bool_iff in E. lra.
Qed.

Lemma Qlt_bool_false (a b : Q) : Qlt_bool a b = false <-> (b <= a)%Q.
Proof.
  unfold Qlt_bool. rewrite negb_false_iff. apply Qle_bool_iff.
Qed.

Lemma earlier_spec s acc pnSpace :
  let r := earlier s acc pnSpace in
  (r = acc \/ r = (at_space pnSpace (lossTime s), pnSpace))
  /\ ((fst acc == 0)%Q -> (at_space pnSpace (lossTime s) == 0)%Q -> r = acc)
  /\ (~ (fst acc == 0)%Q ->
      ~ (fst r == 0)%Q /\ (fst r <= fst acc)%Q)
  /\ (~ (at_space pnSpace (lossTime s) == 0)%Q ->
      ~ (fst r == 0)%Q /\ (fst r <= at_space pnSpace (lossTime s))%Q).
Proof.
  unfold earlier. set (lt := at_space pnSpace (lossTime s)).
  destruct (Qnonzero lt) eqn:Hnz; cbn [andb].
  - apply Qnonzero_true in Hnz.
    destruct (Qeq_bool (fst acc) 0) eqn:Hz; cbn [orb].
    + apply Qeq_bool_iff in Hz. cbn [fst].
      repeat split; intros; auto; try contradiction; lra.
    + assert (Hz' : ~ (fst acc == 0)%Q)
        by (intros He; apply Qeq_bool_iff in He; congruence).
      destruct (Qlt_bool lt (fst acc)) eqn:Hlt.
      * apply Qlt_bool_true in Hlt. cbn [fst].
        repeat split; intros; auto; try contradiction; lra.
      * apply Qlt_bool_false in Hlt.
        repeat split; intros; auto; try contradiction; lra.
  - apply Qnonzero_false in Hnz.
    repeat split; intros; auto; try contradiction; lra.
Qed.

(** X1: [getEarliestLossTime] returns a loss time together with the space
    it is the loss time of.  If no space has a loss time set, that is the
    unset time of the Initial space; otherwise the time returned is set and
    no set loss time of any space is earlier. *)
Theorem getEarliestLossTime_is_earliest_set (s : QuicLossDetection) :
  fst (getEarliestLossTime s)
  = at_space (snd (getEarliestLossTime s)) (lossTime s)
  /\ ((forall space, (at_space space (lossTime s) == 0)%Q) ->
      snd (getEarliestLossTime s) = Initial)
  /\ (forall space,
        ~ (at_space space (lossTime s) == 0)%Q ->
        ~ (fst (getEarliestLossTime s) == 0)%Q
        /\ (fst (getEarliestLossTime s) <= at_space space (lossTime s))%Q).
Proof.
  set (a0 := (at_space Initial (lossTime s), Initial)).
  set (a1 := earlier s a0 Handshake).
  set (a2 := earlier s a1 ApplicationData).
  assert (E : getEarliestLossTime s = a2) by reflexivity.
  rewrite E. clear E.
  pose proof (earlier_spec s a0 Handshake) as (H1c & H1z & H1a & H1l).
  pose proof (earlier_spec s a1 ApplicationData) as (H2c & H2z & H2a & H2l).
  fold a1 in H1c, H1z, H1a, H1l, H2c, H2z, H2a, H2l.
  fold a2 in H2c, H2z, H2a, H2l.
  clearbody a1 a2.
  assert (Hshape : forall a, a = a0 \/ a = (at_space Handshake (lossTime s), Handshake)
                             \/ a = (at_space ApplicationData (lossTime s), ApplicationData) ->
                   fst a = at_space (snd a) (lossTime s)).
  { intros a [->|[->| ->]]; reflexivity. }
  split; [|split].
  - apply Hshape. destruct H2c as [E2|E2]; rewrite E2; [|auto].
    destruct H1c as [E1|E1]; rewrite E1; auto.
  - intros Hz.
    rewrite (H2z ltac:(rewrite (H1z (Hz Initial) (Hz Handshake)); apply (Hz Initial))
                 (Hz ApplicationData)).
    rewrite (H1z (Hz Initial) (Hz Handshake)). reflexivity.
  - intros space Hnz. destruct space.
    + destruct (H1a Hnz) as [Hn1 Hl1]. destruct (H2a Hn1) as [Hn2 Hl2].
      split; [exact Hn2|]. change (fst a0) with (at_space Initial (lossTime s)) in Hl1.
      lra.
    + destruct (H1l Hnz) as [Hn1 Hl1]. destruct (H2a Hn1) as [Hn2 Hl2].
      split; [exact Hn2 | lra].
    + exact (H2l Hnz).
Qed.

(** ** The durations and the state of the alarm *)

Local Open Scope Q_scope.

Lemma two_power_succ (n : Z) : 2 ^ (n + 1) == 2 * 2 ^ n.
Proof.
  rewrite Qpower_plus by discriminate.
  change (2 ^ 1) with 2. apply Qmult_comm.
Qed.

Lemma two_power_positive (n : Z) : 0 < 2 ^ n.
Proof. apply Qpower_0_lt. reflexivity. Qed.

(** X2: the durations of the crypto retransmission alarm and of the PTO
    alarm are never below the granularity of 50 ms times two to the power
    of the count of the mode, hence positive, and one more in the count
    doubles them. *)
Theorem alarm_durations_back_off (s : QuicLossDetection) :
  cryptoAlarmDuration (set_cryptoCount (cryptoCount s + 1) s)
  == 2 * cryptoAlarmDuration s
  /\ ptoAlarmDuration (set_ptoCount (ptoCount s + 1) s)
     == 2 * ptoAlarmDuration s
  /\ kGranularity * 2 ^ cryptoCount s <= cryptoAlarmDuration s
  /\ kGranularity * 2 ^ ptoCount s <= ptoAlarmDuration s
  /\ 0 < cryptoAlarmDuration s
  /\ 0 < ptoAlarmDuration s.
Proof.
  unfold cryptoAlarmDuration, ptoAlarmDuration. cbn.
  set (base := if Qeq_bool (smoothedRtt (rttMeasurer s)) 0
               then kInitialRTT * 2 else smoothedRtt (rttMeasurer s) * 2).
  set (c := Qmax (base + maxAckDelay (rttMeasurer s)) kGranularity).
  set (p := Qmax (smoothedRtt (rttMeasurer s) + rttVar (rttMeasurer s) * 4
                  + maxAckDelay (rttMeasurer s)) kGranularity).
  assert (Hc : kGranularity <= c) by apply Q.le_max_r.
  assert (Hp : kGranularity <= p) by apply Q.le_max_r.
  assert (Hg : 0 < kGranularity) by reflexivity.
  pose proof (two_power_positive (cryptoCount s)) as Hcc.
  pose proof (two_power_positive (ptoCount s)) as Hpc.
  split; [rewrite two_power_succ; ring|].
  split; [rewrite two_power_succ; ring|].
  split; [apply Qmult_le_compat_r; [exact Hc | now apply Qlt_le_weak]|].
  split; [apply Qmult_le_compat_r; [exact Hp | now apply Qlt_le_weak]|].
  split; apply Qmult_lt_0_compat; try assumption; lra.
Qed.

Lemma ptoAlarmDuration_spec (s : QuicLossDetection) :
  ptoAlarmDuration s == ptoDuration_spec s.
Proof.
  unfold ptoAlarmDuration, ptoDuration_spec, kGranularity.
  apply Qmult_comp; [|reflexivity].
  apply Q.max_compat; [|reflexivity].
  apply Qplus_comp; [|reflexivity].
  apply Qplus_comp; [reflexivity | apply Qmult_comm].
Qed.

(** X3: when [setLossDetectionAlarm] runs with ack-eliciting packets
    counted, no crypto packet counted and the alarm idle, it starts the
    alarm: for the time from the last ack-eliciting transmission to the
    earliest loss time if a loss time is set, and otherwise for the PTO,
    [max(smoothedRtt + 4 * rttVar + maxAckDelay, 50) * 2^ptoCount]. *)
Theorem alarm_modes_without_crypto (s : QuicLossDetection) :
  ackElicitingPacketsOutstanding s <> 0%Z ->
  cryptoOutstanding s = 0%Z ->
  lossDetectionAlarm s = AlarmIdle ->
  exists s' d,
    setLossDetectionAlarm s = Done tt s' []
    /\ s' = set_lossDetectionAlarm (AlarmRunning d) s
    /\ (~ fst (getEarliestLossTime s) == 0 ->
        d == fst (getEarliestLossTime s) - timeOfLastSentAckElicitingPacket s)
    /\ (fst (getEarliestLossTime s) == 0 -> d == ptoDuration_spec s).
Proof.
  intros Hack Hcrypto Hidle.
  exists (setLossDetectionAlarm_state s), (fst (alarmDurationAndTime s)).
  split; [apply setLossDetectionAlarm_run|].
  unfold setLossDetectionAlarm_state.
  destruct (Z.eqb_spec (ackElicitingPacketsOutstanding s) 0) as [E|_];
    [contradiction|].
  rewrite Hidle. split; [reflexivity|].
  unfold alarmDurationAndTime. rewrite Hcrypto. cbn [Z.eqb negb].
  destruct (Qnonzero (fst (getEarliestLossTime s))) eqn:Hnz; cbn [fst].
  - apply Qnonzero_true in Hnz. split; [reflexivity | contradiction].
  - apply Qnonzero_false in Hnz.
    split; [contradiction | intros _; apply ptoAlarmDuration_spec].
Qed.

Local Close Scope Q_scope.

Lemma alarm_modes_without_crypto_witness :
  ackElicitingPacketsOutstanding (set_lossDetectionAlarm AlarmIdle probeState) <> 0
  /\ cryptoOutstanding (set_lossDetectionAlarm AlarmIdle probeState) = 0
  /\ lossDetectionAlarm (set_lossDetectionAlarm AlarmIdle probeState) = AlarmIdle
  /\ exists s' d,
       setLossDetectionAlarm (set_lossDetectionAlarm AlarmIdle probeState)
       = Done tt s' []
       /\ (d == 225)%Q.
Proof.
  split; [discriminate|]. split; [reflexivity|]. split; [reflexivity|].
  destruct (alarm_modes_without_crypto
              (set_lossDetectionAlarm AlarmIdle probeState))
    as (s' & d & Hrun & _ & _ & Hpto);
    [discriminate | reflexivity | reflexivity |].
  exists s', d. split; [exact Hrun|].
  rewrite Hpto; reflexivity.
Defined.

(** Whatever the state, [setLossDetectionAlarm] leaves the alarm running
    exactly when ack-eliciting packets are counted. *)
Lemma setLossDetectionAlarm_state_running s :
  Alarm_isRunning (lossDetectionAlarm (setLossDetectionAlarm_state s))
  = negb (ackElicitingPacketsOutstanding (setLossDetectionAlarm_state s) =? 0).
Proof.
  unfold setLossDetectionAlarm_state.
  destruct (Z.eqb_spec (ackElicitingPacketsOutstanding s) 0) as [E|Hne].
  - cbn. rewrite E. reflexivity.
  - destruct (lossDetectionAlarm s) eqn:Ea; cbn; rewrite ?Ea;
      destruct (Z.eqb_spec (ackElicitingPacketsOutstanding s) 0);
      try contradiction; reflexivity.
Qed.

Lemma onPacketSent_state_alarm now q s :
  exists s3,
    Alarm_isRunning (lossDetectionAlarm s3)
    = negb (ackElicitingPacketsOutstanding s3 =? 0)
    /\ lossDetectionAlarm (onPacketSent_state now q s) = lossDetectionAlarm s3
    /\ ackElicitingPacketsOutstanding (onPacketSent_state now q s)
       = ackElicitingPacketsOutstanding s3.
Proof.
  unfold onPacketSent_state.
  match goal with
  | |- context [setLossDetectionAlarm_state ?s2] =>
      exists (setLossDetectionAlarm_state s2);
      split; [apply setLossDetectionAlarm_state_running|];
      destruct (sp_lookup (packetNumber q)
                  (entries (findPacketSpaceFromPacket q)
                     (setLossDetectionAlarm_state s2)));
      split; reflexivity
  end.
Qed.

(** X4: once [onPacketSent], [onAckReceived] or the firing of the alarm
    has returned, the alarm is running exactly when the counter of
    ack-eliciting packets is not zero; once [reset] has returned the alarm
    is idle, whatever the counter says. *)
Theorem alarm_runs_iff_ack_eliciting_counted {C : Collaborators}
    (c : Call) (s : QuicLossDetection) :
  wf s ->
  exists s' out,
    run_call c s = Done tt s' out
    /\ match c with
       | CallReset => lossDetectionAlarm s' = AlarmIdle
       | _ => Alarm_isRunning (lossDetectionAlarm s')
              = negb (ackElicitingPacketsOutstanding s' =? 0)
       end.
Proof.
  intros Hwf. destruct c as [now q|now ackFrame|now|]; cbn [run_call].
  - do 2 eexists. split; [apply onPacketSent_run|].
    destruct (onPacketSent_state_alarm now q s) as (s3 & H3 & -> & ->).
    exact H3.
  - do 2 eexists. split; [apply onAckReceived_run|].
    apply setLossDetectionAlarm_state_running.
  - do 2 eexists. split; [now apply alarmTimeout_run|].
    apply setLossDetectionAlarm_state_running.
  - do 2 eexists. split; [apply reset_run | reflexivity].
Qed.

Lemma alarm_runs_iff_ack_eliciting_counted_witness :
  wf probeState
  /\ exists s' out,
       run_call (C := specCollaborators)
         (CallOnAckReceived 10 (mkAckFrame 3 (Some ONE_RTT) [0; 2; 3] 0))
         probeState
       = Done tt s' out
       /\ Alarm_isRunning (lossDetectionAlarm s') = false.
Proof.
  split; [exact probeState_wf|].
  destruct (alarm_runs_iff_ack_eliciting_counted (C := specCollaborators)
              (CallOnAckReceived 10 (mkAckFrame 3 (Some ONE_RTT) [0; 2; 3] 0))
              probeState probeState_wf)
    as (s' & out & Hrun & Halarm).
  exists s', out. split; [exact Hrun|].
  rewrite Halarm. cbn [run_call] in Hrun.
  vm_compute in Hrun. injection Hrun as <- _. reflexivity.
Defined.

(** ** [onPacketSent] and the maps *)

Lemma sp_lookup_add_other key key' v (m : SentPackets) :
  key' <> key -> sp_lookup key' (sp_add key v m) = sp_lookup key' m.
Proof.
  intros Hne. unfold sp_add.
  induction m as [|[k w] m IH]; cbn.
  - destruct (Z.eqb_spec key key'); [congruence | reflexivity].
  - destruct (k =? key'); [reflexivity | exact IH].
Qed.

Lemma sp_lookup_add_same key v (m : SentPackets) :
  sp_lookup key m = None -> sp_lookup key (sp_add key v m) = Some v.
Proof.
  intros Hl. apply sp_lookup_None_iff in Hl.
  unfold sp_add. now apply sp_lookup_middle.
Qed.

(** The state of [onPacketSent] before it looks the number up: the
    counters and the times are written, the maps are not. *)
Lemma onPacketSent_state_shape now q s :
  exists s3,
    onPacketSent_state now q s
    = match sp_lookup (packetNumber q)
              (entries (findPacketSpaceFromPacket q) s3) with
      | Some _ => s3
      | None =>
          set_sentPackets
            (set_space (findPacketSpaceFromPacket q)
               (sp_add (packetNumber q)
                  (mkSentPacket q now (isRetransmittable q))
                  (entries (findPacketSpaceFromPacket q) s3))
               (sentPackets s3)) s3
      end
    /\ sentPackets s3 = sentPackets s
    /\ ackElicitingPacketsOutstanding s3
       = ackElicitingPacketsOutstanding s
         + (if isRetransmittable q then 1 else 0)
    /\ cryptoOutstanding s3
       = cryptoOutstanding s + (if isHandshake q then 1 else 0)
    /\ timeOfLastSentAckElicitingPacket s3
       = (if isRetransmittable q then now
          else timeOfLastSentAckElicitingPacket s)
    /\ timeOfLastSentCryptoPacket s3
       = (if isHandshake q then now else timeOfLastSentCryptoPacket s).
Proof.
  unfold onPacketSent_state.
  match goal with
  | |- context [setLossDetectionAlarm_state ?s2] =>
      exists (setLossDetectionAlarm_state s2);
      split; [reflexivity|];
      unfold setLossDetectionAlarm_state;
      destruct (ackElicitingPacketsOutstanding s2 =? 0);
      [|destruct (lossDetectionAlarm s2)];
      destruct (isHandshake q), (isRetransmittable q); cbn;
      repeat split; lia
  end.
Qed.

(** X5: [onPacketSent] of a packet whose number its space does not hold
    emits nothing and stores the packet under its number, after the
    entries the space has, with the time of the call and the packet's
    answer to [isRetransmittable]; every other number of every space is
    found as before.  The two counters rise by one if the packet is
    ack-eliciting, respectively carries handshake data. *)
Theorem onPacketSent_stores_fresh_packet (now : Q) (q : BasePacket)
    (s : QuicLossDetection) :
  sp_lookup (packetNumber q) (entries (findPacketSpaceFromPacket q) s) = None ->
  exists s',
    onPacketSent now q s = Done tt s' []
    /\ sp_lookup (packetNumber q) (entries (findPacketSpaceFromPacket q) s')
       = Some (mkSentPacket q now (isRetransmittable q))
    /\ entries (findPacketSpaceFromPacket q) s'
       = entries (findPacketSpaceFromPacket q) s
         ++ [(packetNumber q, mkSentPacket q now (isRetransmittable q))]
    /\ (forall space key,
          space <> findPacketSpaceFromPacket q \/ key <> packetNumber q ->
          sp_lookup key (entries space s') = sp_lookup key (entries space s))
    /\ ackElicitingPacketsOutstanding s'
       = ackElicitingPacketsOutstanding s
         + (if isRetransmittable q then 1 else 0)
    /\ cryptoOutstanding s'
       = cryptoOutstanding s + (if isHandshake q then 1 else 0).
Proof.
  intros Hfresh.
  exists (onPacketSent_state now q s). split; [apply onPacketSent_run|].
  destruct (onPacketSent_state_shape now q s)
    as (s3 & -> & Hmaps & Hack & Hcrypto & _).
  unfold entries in *. rewrite Hmaps, Hfresh. cbn.
  rewrite Hack, Hcrypto.
  set (space := findPacketSpaceFromPacket q) in *.
  split; [rewrite at_set_space;
          replace (kPacketNumberSpace_eqb space space) with true
            by (destruct space; reflexivity);
          now apply sp_lookup_add_same|].
  split; [rewrite at_set_space;
          replace (kPacketNumberSpace_eqb space space) with true
            by (destruct space; reflexivity);
          reflexivity|].
  split; [|split; reflexivity].
  intros space' key Hother. rewrite at_set_space.
  destruct (kPacketNumberSpace_eqb space space') eqn:E; [|reflexivity].
  apply kPacketNumberSpace_eqb_eq in E. subst space'.
  apply sp_lookup_add_other. destruct Hother; congruence.
Qed.

Lemma onPacketSent_stores_fresh_packet_witness :
  sp_lookup (packetNumber (dataPacket 7))
    (entries (findPacketSpaceFromPacket (dataPacket 7)) probeState) = None
  /\ exists s',
       onPacketSent 9 (dataPacket 7) probeState = Done tt s' []
       /\ sp_lookup 7 (entries ApplicationData s')
          = Some (mkSentPacket (dataPacket 7) 9 true).
Proof.
  split; [reflexivity|].
  destruct (onPacketSent_stores_fresh_packet 9 (dataPacket 7) probeState
              eq_refl) as (s' & Hrun & Hl & _).
  exists s'. split; [exact Hrun | exact Hl].
Defined.

(** X6: [onPacketSent] of a packet whose number its space already holds
    stores nothing: the maps are as before, with the entry that was there
    and its time.  The counters have nevertheless risen as for a packet
    that is stored, and the times of the last transmissions are those of
    the call. *)
Theorem onPacketSent_refuses_known_number (now : Q) (q : BasePacket)
    (s : QuicLossDetection) (stored : SentPacket) :
  sp_lookup (packetNumber q) (entries (findPacketSpaceFromPacket q) s)
  = Some stored ->
  exists s',
    onPacketSent now q s = Done tt s' []
    /\ sentPackets s' = sentPackets s
    /\ ackElicitingPacketsOutstanding s'
       = ackElicitingPacketsOutstanding s
         + (if isRetransmittable q then 1 else 0)
    /\ cryptoOutstanding s'
       = cryptoOutstanding s + (if isHandshake q then 1 else 0)
    /\ timeOfLastSentAckElicitingPacket s'
       = (if isRetransmittable q then now
          else timeOfLastSentAckElicitingPacket s)
    /\ timeOfLastSentCryptoPacket s'
       = (if isHandshake q then now else timeOfLastSentCryptoPacket s).
Proof.
  intros Hknown.
  exists (onPacketSent_state now q s). split; [apply onPacketSent_run|].
  destruct (onPacketSent_state_shape now q s)
    as (s3 & -> & Hmaps & Hack & Hcrypto & Hta & Htc).
  unfold entries in *. rewrite Hmaps, Hknown.
  repeat split; assumption.
Qed.

Lemma onPacketSent_refuses_known_number_witness :
  sp_lookup (packetNumber (dataPacket 2))
    (entries (findPacketSpaceFromPacket (dataPacket 2)) probeState)
  = Some (mkSentPacket (dataPacket 2) 2 true)
  /\ exists s',
       onPacketSent 9 (dataPacket 2) probeState = Done tt s' []
       /\ sentPackets s' = sentPackets probeState
       /\ ackElicitingPacketsOutstanding s' = 4.
Proof.
  split; [reflexivity|].
  destruct (onPacketSent_refuses_known_number 9 (dataPacket 2) probeState _
              eq_refl) as (s' & Hrun & Hmaps & Hack & _).
  exists s'. split; [exact Hrun|]. split; [exact Hmaps | exact Hack].
Defined.

(** ** [onAckReceived] and the maps *)

Lemma ackAll_as_removeAll l :
  forall s, ackAll_state l s = removeAll (map removalOf l) s.
Proof.
  induction l as [|q l IH]; intros s; [reflexivity|].
  cbn [ackAll_state fold_left map]. rewrite removeAll_cons.
  rewrite <- IH. reflexivity.
Qed.

(** Removals write the maps and the two counters of outstanding packets,
    and nothing else. *)
Lemma removeFromSentPackets_state_touches space key s :
  exists m a c,
    removeFromSentPackets_state space key s
    = set_sentPackets m
        (set_ackElicitingPacketsOutstanding a (set_cryptoOutstanding c s)).
Proof.
  unfold removeFromSentPackets_state.
  destruct (sp_lookup key (at_space space (sentPackets s))) as [e|].
  - exists (set_space space
              (sp_delete key (at_space space (sentPackets s))) (sentPackets s)),
      (if isRetransmittable (packet e)
       then ackElicitingPacketsOutstanding s - 1
       else ackElicitingPacketsOutstanding s),
      (if isHandshake (packet e)
       then cryptoOutstanding s - 1 else cryptoOutstanding s).
    destruct s, (isRetransmittable (packet e)), (isHandshake (packet e));
      reflexivity.
  - exists (sentPackets s), (ackElicitingPacketsOutstanding s),
      (cryptoOutstanding s). destruct s; reflexivity.
Qed.

Lemma removeAll_touches l :
  forall s, exists m a c,
    removeAll l s
    = set_sentPackets m
        (set_ackElicitingPacketsOutstanding a (set_cryptoOutstanding c s)).
Proof.
  induction l as [|x l IH]; intros s.
  - exists (sentPackets s), (ackElicitingPacketsOutstanding s),
      (cryptoOutstanding s). destruct s; reflexivity.
  - rewrite removeAll_cons.
    destruct (removeFromSentPackets_state_touches (fst x) (fst (snd x)) s)
      as (m1 & a1 & c1 & ->).
    destruct (IH (set_sentPackets m1
                    (set_ackElicitingPacketsOutstanding a1
                       (set_cryptoOutstanding c1 s)))) as (m & a & c & ->).
    exists m, a, c. reflexivity.
Qed.

Lemma In_sp_lookup key v (m : SentPackets) :
  NoDup (sp_keys m) -> In (key, v) m -> sp_lookup key m = Some v.
Proof.
  intros Hnd Hin. apply in_split in Hin as (pre & rest & ->).
  apply sp_lookup_middle.
  unfold sp_keys in Hnd. rewrite map_app in Hnd. cbn in Hnd.
  apply NoDup_remove_2 in Hnd. rewrite in_app_iff in Hnd.
  unfold sp_keys. tauto.
Qed.

(** An entry stays when no removal names its space and key. *)
Lemma entry_survives_removeAll space e l :
  forall s,
    In e (entries space s) ->
    (forall x, In x l -> fst x = space -> fst (snd x) <> fst e) ->
    In e (entries space (removeAll l s)).
Proof.
  induction l as [|x l IH]; intros s Hin Hother; [exact Hin|].
  rewrite removeAll_cons. apply IH.
  - rewrite entries_removeFromSentPackets.
    destruct (kPacketNumberSpace_eqb (fst x) space) eqn:E; [|exact Hin].
    apply kPacketNumberSpace_eqb_eq in E.
    unfold sp_delete. apply filter_In. split; [exact Hin|].
    apply negb_true_iff. apply Z.eqb_neq. intros Heq.
    apply (Hother x (or_introl eq_refl) E). congruence.
  - intros y Hy. apply Hother. now right.
Qed.

(** On well-formed maps, the packets an ACK frame acknowledges are those
    stored under the numbers of the frame, in the space of their type. *)
Lemma determineNewlyAckedPackets_wf ackFrame s q :
  wf s ->
  In q (determineNewlyAckedPackets ackFrame s) ->
  In (packetNumber q) (determineAckedPacketNumbers ackFrame)
  /\ exists v,
       sp_lookup (packetNumber q) (entries (findPacketSpaceFromPacket q) s)
       = Some v
       /\ packet v = q.
Proof.
  intros Hwf. unfold determineNewlyAckedPackets. rewrite in_flat_map.
  intros (n & Hn & Hin). apply in_flat_map in Hin as (space & _ & Hin).
  destruct (sp_lookup n (at_space space (sentPackets s))) as [v|] eqn:Hl;
    [|contradiction].
  destruct Hin as [<-|[]].
  pose proof (sp_lookup_In _ _ _ Hl) as Hv.
  destruct (Hwf space) as [_ Hok]. rewrite Forall_forall in Hok.
  destruct (Hok _ Hv) as [Hkey Hspace]. cbn in Hkey, Hspace.
  rewrite Hkey, Hspace. split; [exact Hn|]. now exists v.
Qed.

Lemma determineNewlyAckedPackets_complete ackFrame s n space v :
  In n (determineAckedPacketNumbers ackFrame) ->
  sp_lookup n (entries space s) = Some v ->
  In (packet v) (determineNewlyAckedPackets ackFrame s).
Proof.
  intros Hn Hl. unfold determineNewlyAckedPackets.
  apply in_flat_map. exists n. split; [exact Hn|].
  apply in_flat_map. exists space. split; [destruct space; cbn; tauto|].
  unfold entries in Hl. rewrite Hl. now left.
Qed.

Section AckProperties.

Context {C : Collaborators}.

(** The state of [onAckReceived] in terms of removals: [s2] is the state
    once the largest acknowledged number and the estimator are written. *)
Lemma onAckReceived_state_shape now ackFrame s :
  exists s2 m a c,
    sentPackets s2 = sentPackets s
    /\ ackElicitingPacketsOutstanding s2 = ackElicitingPacketsOutstanding s
    /\ cryptoOutstanding s2 = cryptoOutstanding s
    /\ removeAll (map removalOf (determineNewlyAckedPackets ackFrame s)) s2
       = set_sentPackets m
           (set_ackElicitingPacketsOutstanding a (set_cryptoOutstanding c s2))
    /\ sentPackets (onAckReceived_state now ackFrame s) = m
    /\ ackElicitingPacketsOutstanding (onAckReceived_state now ackFrame s) = a
    /\ cryptoOutstanding (onAckReceived_state now ackFrame s) = c
    /\ cryptoCount (onAckReceived_state now ackFrame s) = 0
    /\ ptoCount (onAckReceived_state now ackFrame s) = 0
    /\ largestAckedPacket (onAckReceived_state now ackFrame s)
       = set_space (findPacketSpaceFromAckFrame ackFrame)
           (Z.max (getLargestAcknowledged ackFrame)
              (at_space (findPacketSpaceFromAckFrame ackFrame)
                 (largestAckedPacket s)))
           (largestAckedPacket s)
    /\ at_space (findPacketSpaceFromAckFrame ackFrame)
         (lossTime (onAckReceived_state now ackFrame s)) = 0%Q.
Proof.
  unfold onAckReceived_state.
  set (space := findPacketSpaceFromAckFrame ackFrame).
  set (s1 := set_largestAckedPacket _ s).
  set (s2 := updateRtt_state now ackFrame s1).
  assert (Hs2 : sentPackets s2 = sentPackets s
                /\ ackElicitingPacketsOutstanding s2
                   = ackElicitingPacketsOutstanding s
                /\ cryptoOutstanding s2 = cryptoOutstanding s
                /\ largestAckedPacket s2 = largestAckedPacket s1).
  { unfold s2, updateRtt_state. destruct (rttSample ackFrame s1);
      repeat split. }
  destruct Hs2 as (Hm & Ha & Hc & Hl).
  assert (Hacked : determineNewlyAckedPackets ackFrame s2
                   = determineNewlyAckedPackets ackFrame s)
    by (unfold determineNewlyAckedPackets; now rewrite Hm).
  rewrite Hacked, ackAll_as_removeAll.
  destruct (removeAll_touches
              (map removalOf (determineNewlyAckedPackets ackFrame s)) s2)
    as (m & a & c & Hr).
  exists s2, m, a, c. rewrite Hr.
  split; [exact Hm|]. split; [exact Ha|]. split; [exact Hc|].
  split; [reflexivity|].
  match goal with
  | |- context [setLossDetectionAlarm_state ?t] =>
      destruct (setLossDetectionAlarm_state_fields t)
        as (Hpto & Hmaps & Hack & Hcr & _);
      assert (Hrest : cryptoCount (setLossDetectionAlarm_state t) = cryptoCount t
                      /\ largestAckedPacket (setLossDetectionAlarm_state t)
                         = largestAckedPacket t
                      /\ lossTime (setLossDetectionAlarm_state t) = lossTime t)
        by (unfold setLossDetectionAlarm_state;
            destruct (ackElicitingPacketsOutstanding t =? 0);
            [|destruct (lossDetectionAlarm t)]; repeat split)
  end.
  destruct Hrest as (Hcc & Hla & Hlt).
  rewrite Hpto, Hmaps, Hack, Hcr, Hcc, Hla, Hlt. cbn.
  rewrite Hl. repeat split.
  rewrite at_set_space. destruct space; reflexivity.
Qed.

(** X7: once [onAckReceived] has returned on well-formed maps, no number
    of the frame is left in any of the three maps, whatever the space of
    the frame. *)
Theorem acked_numbers_leave_every_map (now : Q) (ackFrame : AckFrame)
    (s : QuicLossDetection) :
  wf s ->
  exists s' out,
    onAckReceived now ackFrame s = Done tt s' out
    /\ forall n space,
         In n (determineAckedPacketNumbers ackFrame) ->
         sp_lookup n (entries space s') = None.
Proof.
  intros Hwf. do 2 eexists. split; [apply onAckReceived_run|].
  destruct (onAckReceived_state_shape now ackFrame s)
    as (s2 & m & a & c & Hm2 & _ & _ & Hr & Hm & _).
  intros n space Hn. apply sp_lookup_None_iff. intros Hkey.
  unfold sp_keys in Hkey. apply in_map_iff in Hkey as ((k & v) & Ek & He).
  cbn in Ek. subst k.
  assert (He' : In (n, v)
                  (entries space
                     (removeAll
                        (map removalOf
                           (determineNewlyAckedPackets ackFrame s)) s2)))
    by (rewrite Hr; unfold entries in *; cbn; now rewrite <- Hm).
  assert (He2 : In (n, v) (entries space s2))
    by now apply entries_removeAll_incl in He'.
  assert (Hes : In (n, v) (entries space s))
    by (unfold entries in *; now rewrite <- Hm2).
  destruct (Hwf space) as [Hnd Hok]. rewrite Forall_forall in Hok.
  destruct (Hok _ Hes) as [Hkey Hspace]. cbn in Hkey, Hspace.
  pose proof (In_sp_lookup n v _ Hnd Hes) as Hl.
  pose proof (determineNewlyAckedPackets_complete ackFrame s n space v Hn Hl)
    as Hacked.
  apply (removed_key_gone (removalOf (packet v))
           (map removalOf (determineNewlyAckedPackets ackFrame s)) s2
           (in_map removalOf _ _ Hacked)).
  unfold removalOf. cbn [fst snd]. rewrite Hkey, Hspace.
  unfold sp_keys. apply in_map_iff. now exists (n, v).
Qed.

(** X8: on well-formed maps [onAckReceived] takes out of the maps only
    what the frame names: an entry whose number is not among the numbers
    of the frame is still in its map afterwards.  Every packet-acked event
    is for an ack-eliciting packet that was stored under a number of the
    frame, and no other kind of event is emitted. *)
Theorem ack_spares_unnamed_packets (now : Q) (ackFrame : AckFrame)
    (s : QuicLossDetection) :
  wf s ->
  exists s' out,
    onAckReceived now ackFrame s = Done tt s' out
    /\ (forall space e,
          In e (entries space s) ->
          ~ In (fst e) (determineAckedPacketNumbers ackFrame) ->
          In e (entries space s'))
    /\ (forall a, In a out ->
          (exists f p, a = Call_updateRTT f p)
          \/ exists q,
               a = PACKET_ACKED q
               /\ isRetransmittable q = true
               /\ In (packetNumber q) (determineAckedPacketNumbers ackFrame)
               /\ exists v,
                    sp_lookup (packetNumber q)
                      (entries (findPacketSpaceFromPacket q) s) = Some v
                    /\ packet v = q).
Proof.
  intros Hwf. do 2 eexists. split; [apply onAckReceived_run|].
  destruct (onAckReceived_state_shape now ackFrame s)
    as (s2 & m & a & c & Hm2 & _ & _ & Hr & Hm & _).
  split.
  - intros space e He Hnot.
    assert (He2 : In e (entries space s2))
      by (unfold entries in *; now rewrite Hm2).
    pose proof (entry_survives_removeAll space e
                  (map removalOf (determineNewlyAckedPackets ackFrame s))
                  s2 He2) as Hstay.
    rewrite Hr in Hstay. unfold entries in *. cbn in Hstay. rewrite Hm.
    apply Hstay. intros x Hx _ Hkey.
    apply in_map_iff in Hx as (q & <- & Hq).
    apply (determineNewlyAckedPackets_wf ackFrame s q Hwf) in Hq as [Hn _].
    cbn in Hkey. apply Hnot. now rewrite <- Hkey.
  - intros act Hin. unfold onAckReceived_out in Hin.
    apply in_app_or in Hin as [Hin|Hin].
    + left. unfold updateRtt_out in Hin.
      destruct (rttSample ackFrame s); [|contradiction].
      destruct Hin as [<-|[]]. now do 2 eexists.
    + right. unfold ackAll_out in Hin.
      apply in_flat_map in Hin as (q & Hq & Hin).
      destruct (isRetransmittable q) eqn:Hr'; [|contradiction].
      destruct Hin as [<-|[]]. exists q.
      split; [reflexivity|]. split; [exact Hr'|].
      now apply determineNewlyAckedPackets_wf.
Qed.

(** X9: the largest acknowledged number of the space of an ACK frame
    never falls: after [onAckReceived] it is the larger of what it was and
    of the largest number of the frame, and the other spaces keep theirs.
    The counts of crypto retransmissions and of PTOs are zero and the
    loss time of the space is unset, whatever the frame acknowledged. *)
Theorem ack_raises_largest_and_clears_counts (now : Q) (ackFrame : AckFrame)
    (s : QuicLossDetection) :
  exists s' out,
    onAckReceived now ackFrame s = Done tt s' out
    /\ (forall space,
          at_space space (largestAckedPacket s)
          <= at_space space (largestAckedPacket s'))
    /\ at_space (findPacketSpaceFromAckFrame ackFrame) (largestAckedPacket s')
       = Z.max (getLargestAcknowledged ackFrame)
           (at_space (findPacketSpaceFromAckFrame ackFrame)
              (largestAckedPacket s))
    /\ (forall space,
          space <> findPacketSpaceFromAckFrame ackFrame ->
          at_space space (largestAckedPacket s')
          = at_space space (largestAckedPacket s))
    /\ cryptoCount s' = 0 /\ ptoCount s' = 0
    /\ at_space (findPacketSpaceFromAckFrame ackFrame) (lossTime s') = 0%Q.
Proof.
  do 2 eexists. split; [apply onAckReceived_run|].
  destruct (onAckReceived_state_shape now ackFrame s)
    as (s2 & m & a & c & _ & _ & _ & _ & _ & _ & _ & Hcc & Hpc & Hla & Hlt).
  rewrite Hla, Hcc, Hpc, Hlt.
  set (space0 := findPacketSpaceFromAckFrame ackFrame).
  split; [|split; [|split]].
  - intros space. rewrite at_set_space.
    destruct (kPacketNumberSpace_eqb space0 space) eqn:E; [|lia].
    apply kPacketNumberSpace_eqb_eq in E. subst space. lia.
  - rewrite at_set_space. destruct space0; reflexivity.
  - intros space Hne. rewrite at_set_space.
    destruct (kPacketNumberSpace_eqb space0 space) eqn:E; [|reflexivity].
    apply kPacketNumberSpace_eqb_eq in E. congruence.
  - repeat split.
Qed.

(** X10: an ACK frame none of whose numbers is in any map, and whose
    largest number is not in the map of its space (a duplicate ACK),
    emits nothing, calls the estimator not at all and leaves the maps,
    the two counters of outstanding packets and the estimator as they
    were; the counts of crypto retransmissions and of PTOs are set to
    zero all the same. *)
Theorem duplicate_ack_only_clears_counts (now : Q) (ackFrame : AckFrame)
    (s : QuicLossDetection) :
  (forall n space,
     In n (determineAckedPacketNumbers ackFrame) ->
     sp_lookup n (entries space s) = None) ->
  sp_lookup (getLargestAcknowledged ackFrame)
    (entries (findPacketSpaceFromAckFrame ackFrame) s) = None ->
  exists s',
    onAckReceived now ackFrame s = Done tt s' []
    /\ sentPackets s' = sentPackets s
    /\ ackElicitingPacketsOutstanding s' = ackElicitingPacketsOutstanding s
    /\ cryptoOutstanding s' = cryptoOutstanding s
    /\ rttMeasurer s' = rttMeasurer s
    /\ cryptoCount s' = 0 /\ ptoCount s' = 0.
Proof.
  intros Hnone Hlargest.
  assert (Hacked : determineNewlyAckedPackets ackFrame s = []).
  { destruct (determineNewlyAckedPackets ackFrame s) as [|q l] eqn:E;
      [reflexivity|].
    assert (Hq : In q (determineNewlyAckedPackets ackFrame s))
      by (rewrite E; now left).
    unfold determineNewlyAckedPackets in Hq.
    apply in_flat_map in Hq as (n & Hn & Hin).
    apply in_flat_map in Hin as (space & _ & Hin).
    pose proof (Hnone n space Hn) as Hl. unfold entries in Hl.
    rewrite Hl in Hin. contradiction. }
  assert (Hsample : rttSample ackFrame s = None)
    by (unfold rttSample; now rewrite Hlargest).
  exists (onAckReceived_state now ackFrame s).
  split.
  - rewrite onAckReceived_run. unfold onAckReceived_out, updateRtt_out.
    rewrite Hsample, Hacked. reflexivity.
  - destruct (onAckReceived_state_shape now ackFrame s)
      as (s2 & m & a & c & Hm2 & Ha2 & Hc2 & Hr & Hm & Ha & Hc & Hcc & Hpc & _).
    rewrite Hacked in Hr. cbn in Hr.
    assert (Em : sentPackets s2 = m) by (rewrite Hr at 1; reflexivity).
    assert (Ea : ackElicitingPacketsOutstanding s2 = a)
      by (rewrite Hr at 1; reflexivity).
    assert (Ec : cryptoOutstanding s2 = c) by (rewrite Hr at 1; reflexivity).
    rewrite Hm, Ha, Hc, Hcc, Hpc, <- Em, <- Ea, <- Ec, Hm2, Ha2, Hc2.
    repeat split.
    unfold onAckReceived_state.
    rewrite rttMeasurer_setLossDetectionAlarm. cbn.
    rewrite rttMeasurer_ackAll. unfold updateRtt_state.
    match goal with
    | |- context [rttSample ackFrame ?s1] =>
        change (rttSample ackFrame s1) with (rttSample ackFrame s)
    end.
    rewrite Hsample. reflexivity.
Qed.

End AckProperties.

Lemma acked_numbers_leave_every_map_witness :
  wf probeState
  /\ exists s' out,
       onAckReceived (collaborators := specCollaborators) 10
         (mkAckFrame 2 (Some ONE_RTT) [1; 2] 0) probeState
       = Done tt s' out
       /\ sp_lookup 2 (entries ApplicationData s') = None.
Proof.
  split; [exact probeState_wf|].
  destruct (acked_numbers_leave_every_map (C := specCollaborators) 10
              (mkAckFrame 2 (Some ONE_RTT) [1; 2] 0) probeState probeState_wf)
    as (s' & out & Hrun & Hgone).
  exists s', out. split; [exact Hrun|].
  apply Hgone. right. now left.
Defined.

Lemma ack_spares_unnamed_packets_witness :
  wf probeState
  /\ exists s' out,
       onAckReceived (collaborators := specCollaborators) 10
         (mkAckFrame 2 (Some ONE_RTT) [1; 2] 0) probeState
       = Done tt s' out
       /\ In (3, mkSentPacket (dataPacket 3) 3 true) (entries ApplicationData s').
Proof.
  split; [exact probeState_wf|].
  destruct (ack_spares_unnamed_packets (C := specCollaborators) 10
              (mkAckFrame 2 (Some ONE_RTT) [1; 2] 0) probeState probeState_wf)
    as (s' & out & Hrun & Hstay & _).
  exists s', out. split; [exact Hrun|].
  apply Hstay.
  - cbn. tauto.
  - cbn. intros [H|[H|[]]]; discriminate H.
Defined.

Lemma duplicate_ack_only_clears_counts_witness :
  (forall n space,
     In n (determineAckedPacketNumbers (mkAckFrame 9 (Some ONE_RTT) [8; 9] 0)) ->
     sp_lookup n (entries space probeState) = None)
  /\ sp_lookup 9 (entries ApplicationData probeState) = None
  /\ exists s',
       onAckReceived (collaborators := specCollaborators) 10
         (mkAckFrame 9 (Some ONE_RTT) [8; 9] 0) probeState
       = Done tt s' []
       /\ sentPackets s' = sentPackets probeState.
Proof.
  assert (Hnone : forall n space,
            In n (determineAckedPacketNumbers
                    (mkAckFrame 9 (Some ONE_RTT) [8; 9] 0)) ->
            sp_lookup n (entries space probeState) = None).
  { intros n space [<-|[<-|[]]]; destruct space; reflexivity. }
  split; [exact Hnone|]. split; [reflexivity|].
  destruct (duplicate_ack_only_clears_counts (C := specCollaborators) 10
              (mkAckFrame 9 (Some ONE_RTT) [8; 9] 0) probeState Hnone eq_refl)
    as (s' & Hrun & Hmaps & _).
  exists s'. split; [exact Hrun | exact Hmaps].
Defined.

(** ** The counters never fall below what the maps hold *)

Lemma count_spaces (g : Z * SentPacket -> bool) s :
  length (filter (fun x : kPacketNumberSpace * (Z * SentPacket) => g (snd x))
            (entriesOf allSpaces s))
  = (length (filter g (entries Initial s))
     + length (filter g (entries Handshake s))
     + length (filter g (entries ApplicationData s)))%nat.
Proof.
  unfold entriesOf, allSpaces. cbn [flat_map].
  rewrite app_nil_r, !filter_app, !length_app, !filter_tagged. lia.
Qed.

Lemma count_delete_by (g : Z * SentPacket -> bool) key v (m : SentPackets) :
  NoDup (sp_keys m) -> sp_lookup key m = Some v ->
  length (filter g m)
  = (length (filter g (sp_delete key m)) + (if g (key, v) then 1 else 0))%nat.
Proof.
  intros Hnd Hl. apply sp_lookup_In in Hl.
  apply in_split in Hl as (pre & rest & ->).
  rewrite (sp_delete_middle key v pre rest Hnd), !filter_app, !length_app.
  cbn [filter]. destruct (g (key, v)); cbn [length]; lia.
Qed.

(** On well-formed maps a removal takes from each counter what it takes
    from the maps. *)
Lemma excess_removeFromSentPackets space key s :
  wf s ->
  excessAckEliciting (removeFromSentPackets_state space key s)
  = excessAckEliciting s
  /\ excessCrypto (removeFromSentPackets_state space key s) = excessCrypto s.
Proof.
  intros Hwf. unfold excessAckEliciting, excessCrypto, countAckEliciting,
    countCrypto.
  destruct (sp_lookup key (entries space s)) as [v|] eqn:Hl.
  - destruct (counters_removeFromSentPackets space key v s Hl) as [-> ->].
    rewrite !count_spaces, !entries_removeFromSentPackets.
    pose proof (count_delete_by ackEliciting key v _ (proj1 (Hwf space)) Hl)
      as Ha.
    pose proof (count_delete_by carriesCrypto key v _ (proj1 (Hwf space)) Hl)
      as Hc.
    change (ackEliciting (key, v)) with (isRetransmittable (packet v)) in Ha.
    change (carriesCrypto (key, v)) with (isHandshake (packet v)) in Hc.
    destruct space; cbn [kPacketNumberSpace_eqb];
      destruct (isRetransmittable (packet v)), (isHandshake (packet v)); lia.
  - unfold removeFromSentPackets_state. unfold entries in Hl. rewrite Hl.
    split; reflexivity.
Qed.

Lemma excess_removeAll l :
  forall s, wf s ->
    excessAckEliciting (removeAll l s) = excessAckEliciting s
    /\ excessCrypto (removeAll l s) = excessCrypto s.
Proof.
  induction l as [|x l IH]; intros s Hwf; [now split|].
  rewrite removeAll_cons.
  destruct (IH _ (wf_removeFromSentPackets (fst x) (fst (snd x)) s Hwf))
    as [-> ->].
  now apply excess_removeFromSentPackets.
Qed.

Lemma excess_same_fields s s' :
  sentPackets s' = sentPackets s ->
  ackElicitingPacketsOutstanding s' = ackElicitingPacketsOutstanding s ->
  cryptoOutstanding s' = cryptoOutstanding s ->
  excessAckEliciting s' = excessAckEliciting s
  /\ excessCrypto s' = excessCrypto s.
Proof.
  intros Hm Ha Hc.
  unfold excessAckEliciting, excessCrypto, countAckEliciting, countCrypto,
    entriesOf, entries.
  rewrite Hm, Ha, Hc. split; reflexivity.
Qed.

(** The maps and the two counters after the firing of the alarm are those
    after the removal of a list of entries, which depends on the mode. *)
Lemma alarmTimeout_state_shape s :
  exists l,
    (l = cryptoEntries allSpaces s \/ l = [] \/ l = probes 2 s)
    /\ sentPackets (alarmTimeout_state s) = sentPackets (removeAll l s)
    /\ ackElicitingPacketsOutstanding (alarmTimeout_state s)
       = ackElicitingPacketsOutstanding (removeAll l s)
    /\ cryptoOutstanding (alarmTimeout_state s)
       = cryptoOutstanding (removeAll l s).
Proof.
  unfold alarmTimeout_state.
  set (s0 := set_lossDetectionAlarm AlarmIdle s).
  assert (Hsame : forall l,
            sentPackets (removeAll l s0) = sentPackets (removeAll l s)
            /\ ackElicitingPacketsOutstanding (removeAll l s0)
               = ackElicitingPacketsOutstanding (removeAll l s)
            /\ cryptoOutstanding (removeAll l s0)
               = cryptoOutstanding (removeAll l s)).
  { intros l. unfold s0. clear s0. revert s.
    induction l as [|x l IH]; intros s; [repeat split|].
    rewrite !removeAll_cons.
    assert (E : removeFromSentPackets_state (fst x) (fst (snd x))
                  (set_lossDetectionAlarm AlarmIdle s)
                = set_lossDetectionAlarm AlarmIdle
                    (removeFromSentPackets_state (fst x) (fst (snd x)) s)).
    { unfold removeFromSentPackets_state. cbn.
      destruct (sp_lookup (fst (snd x)) (at_space (fst x) (sentPackets s)))
        as [e|]; [|reflexivity].
      destruct (isRetransmittable (packet e)), (isHandshake (packet e));
        reflexivity. }
    rewrite E. apply IH. }
  match goal with
  | |- context [setLossDetectionAlarm_state ?t] =>
      destruct (setLossDetectionAlarm_state_fields t)
        as (_ & Hmaps & Hack & Hcr & _)
  end.
  rewrite Hmaps, Hack, Hcr.
  destruct (0 <? cryptoOutstanding s0).
  - exists (cryptoEntries allSpaces s). split; [now left|].
    change (cryptoEntries allSpaces s0) with (cryptoEntries allSpaces s).
    apply Hsame.
  - destruct (Qnonzero (fst (getEarliestLossTime s0))).
    + exists []. split; [right; now left | repeat split].
    + exists (probes 2 s). split; [right; now right|].
      change (probes 2 s0) with (probes 2 s). apply Hsame.
Qed.

Lemma onPacketSent_refuses_known_number_aux now q s old :
  sp_lookup (packetNumber q) (entries (findPacketSpaceFromPacket q) s)
  = Some old ->
  sentPackets (onPacketSent_state now q s) = sentPackets s
  /\ ackElicitingPacketsOutstanding (onPacketSent_state now q s)
     = ackElicitingPacketsOutstanding s
       + (if isRetransmittable q then 1 else 0)
  /\ cryptoOutstanding (onPacketSent_state now q s)
     = cryptoOutstanding s + (if isHandshake q then 1 else 0).
Proof.
  intros Hknown.
  destruct (onPacketSent_state_shape now q s)
    as (s3 & -> & Hmaps & Hack & Hcrypto & _).
  unfold entries in *. rewrite Hmaps, Hknown. repeat split; assumption.
Qed.

Lemma counts_excess_fresh now q s :
  sp_lookup (packetNumber q) (entries (findPacketSpaceFromPacket q) s) = None ->
  excessAckEliciting (onPacketSent_state now q s) = excessAckEliciting s
  /\ excessCrypto (onPacketSent_state now q s) = excessCrypto s.
Proof.
  intros Hfresh.
  destruct (onPacketSent_state_shape now q s)
    as (s3 & -> & Hmaps & Hack & Hcrypto & _).
  unfold entries in *. rewrite Hmaps, Hfresh.
  unfold excessAckEliciting, excessCrypto, countAckEliciting, countCrypto.
  rewrite !count_spaces. unfold entries. cbn.
  rewrite Hack, Hcrypto. unfold sp_add.
  destruct (findPacketSpaceFromPacket q);
    cbn [set_space at_space atInitial atHandshake atApplicationData];
    rewrite !filter_app, !length_app; cbn [filter];
    change (ackEliciting (packetNumber q,
              mkSentPacket q now (isRetransmittable q)))
      with (isRetransmittable q);
    change (carriesCrypto (packetNumber q,
              mkSentPacket q now (isRetransmittable q)))
      with (isHandshake q);
    destruct (isRetransmittable q), (isHandshake q); cbn [length]; lia.
Qed.

Section InUse.

Context {C : Collaborators}.

Lemma inUse_constructor rtt : inUse (constructor rtt).
Proof.
  split; [apply wf_constructor|]. split; [discriminate|].
  split; [discriminate | now left].
Qed.

(** Every call keeps what holds of a detector in use; only a second
    registration of a number and [reset] let a counter exceed the maps. *)
Lemma run_call_inUse c s :
  inUse s -> exists s' out, run_call c s = Done tt s' out /\ inUse s'.
Proof.
  intros (Hwf & Ha & Hc & _).
  destruct (run_call_wf c s Hwf) as (s' & out & Hrun & Hwf').
  exists s', out. split; [exact Hrun|]. split; [exact Hwf'|].
  destruct c as [now q|now ackFrame|now|]; cbn [run_call] in Hrun.
  - rewrite onPacketSent_run in Hrun. injection Hrun as <- _.
    destruct (onPacketSent_state_alarm now q s) as (s3' & H3 & Hal & Hac).
    split; [|split; [|left; now rewrite Hal, Hac]].
    + destruct (sp_lookup (packetNumber q)
                  (entries (findPacketSpaceFromPacket q) s)) as [old|] eqn:Hl.
      * destruct (onPacketSent_refuses_known_number_aux now q s old Hl)
          as (Hm & Hac' & _).
        unfold excessAckEliciting in *. rewrite Hac'.
        unfold countAckEliciting, entriesOf, entries in *. rewrite Hm.
        destruct (isRetransmittable q); lia.
      * destruct (counts_excess_fresh now q s Hl) as [-> _]. exact Ha.
    + destruct (sp_lookup (packetNumber q)
                  (entries (findPacketSpaceFromPacket q) s)) as [old|] eqn:Hl.
      * destruct (onPacketSent_refuses_known_number_aux now q s old Hl)
          as (Hm & _ & Hcr').
        unfold excessCrypto in *. rewrite Hcr'.
        unfold countCrypto, entriesOf, entries in *. rewrite Hm.
        destruct (isHandshake q); lia.
      * destruct (counts_excess_fresh now q s Hl) as [_ ->]. exact Hc.
  - rewrite onAckReceived_run in Hrun. injection Hrun as <- _.
    destruct (onAckReceived_state_shape now ackFrame s)
      as (s2 & m & a & c & Hm2 & Ha2 & Hc2 & Hr & Hm & Hac & Hcr & _).
    assert (Hwf2 : wf s2) by now apply (wf_frame s).
    destruct (excess_removeAll
                (map removalOf (determineNewlyAckedPackets ackFrame s)) s2 Hwf2)
      as [Ea Ec].
    destruct (excess_same_fields s s2 Hm2 Ha2 Hc2) as [Ea2 Ec2].
    destruct (excess_same_fields
                (removeAll (map removalOf
                              (determineNewlyAckedPackets ackFrame s)) s2)
                (onAckReceived_state now ackFrame s))
      as [Ea3 Ec3]; [rewrite Hr, Hm | rewrite Hr, Hac | rewrite Hr, Hcr | ];
      try reflexivity.
    split; [lia|]. split; [lia|].
    left. apply setLossDetectionAlarm_state_running.
  - rewrite (alarmTimeout_run now s Hwf) in Hrun. injection Hrun as <- _.
    destruct (alarmTimeout_state_shape s) as (l & _ & Hm & Hac & Hcr).
    destruct (excess_same_fields _ _ Hm Hac Hcr) as [Ea Ec].
    destruct (excess_removeAll l s Hwf) as [Ea' Ec'].
    split; [lia|]. split; [lia|].
    left. apply setLossDetectionAlarm_state_running.
  - rewrite reset_run in Hrun. injection Hrun as <- _.
    unfold excessAckEliciting, excessCrypto, countAckEliciting, countCrypto in *.
    cbn. split; [lia|]. split; [lia|]. right. intros []; reflexivity.
Qed.

Lemma run_calls_inUse calls :
  forall s, inUse s ->
    exists s' out, run_calls calls s = Done tt s' out /\ inUse s'.
Proof.
  induction calls as [|c calls IH]; intros s Hs.
  - exists s, []. split; [reflexivity | exact Hs].
  - destruct (run_call_inUse c s Hs) as (s1 & o1 & Hrun1 & Hs1).
    destruct (IH s1 Hs1) as (s2 & o2 & Hrun2 & Hs2).
    exists s2, (o1 ++ o2). split; [|exact Hs2].
    apply (bind_Done _ _ _ _ _ _ _ _ _ Hrun1 Hrun2).
Qed.

Lemma reachable_inUse s : reachable s -> inUse s.
Proof.
  intros (rtt & calls & out & Hrun).
  destruct (run_calls_inUse calls _ (inUse_constructor rtt))
    as (s' & out' & Hrun' & Hs).
  rewrite Hrun in Hrun'. now injection Hrun' as -> _.
Qed.

End InUse.

Lemma in_flight_counted (g : Z * SentPacket -> bool) s space e :
  In e (entries space s) -> g e = true ->
  (1 <= length (filter (fun x : kPacketNumberSpace * (Z * SentPacket) =>
                          g (snd x)) (entriesOf allSpaces s)))%nat.
Proof.
  intros Hin Hg. rewrite count_spaces.
  assert (Hf : In e (filter g (entries space s)))
    by (apply filter_In; now split).
  destruct space;
    match goal with
    | H : In e (filter g ?m) |- _ =>
        destruct (filter g m); [contradiction | cbn [length]; lia]
    end.
Qed.

(** X11: in every state that calls make of a new detector, the maps
    hold no number twice and every packet under its own number in the
    space of its type, and neither counter of outstanding packets is
    below what the maps hold: at least
    as many ack-eliciting packets are counted as the maps hold, and at
    least as many crypto packets as the maps hold packets with handshake
    data.  In particular neither counter is negative. *)
Theorem counters_never_undercount {C : Collaborators} (s : QuicLossDetection) :
  reachable s ->
  wf s
  /\ countAckEliciting s <= ackElicitingPacketsOutstanding s
  /\ countCrypto s <= cryptoOutstanding s
  /\ 0 <= ackElicitingPacketsOutstanding s
  /\ 0 <= cryptoOutstanding s.
Proof.
  intros Hr. destruct (reachable_inUse s Hr) as (Hwf & Ha & Hc & _).
  split; [exact Hwf|].
  unfold excessAckEliciting, excessCrypto, countAckEliciting, countCrypto in *.
  lia.
Qed.

Lemma counters_never_undercount_witness :
  reachable (C := specCollaborators) probeState
  /\ countAckEliciting probeState <= ackElicitingPacketsOutstanding probeState.
Proof.
  split; [exact probeState_reachable|].
  apply (proj2 (counters_never_undercount (C := specCollaborators) probeState
                  probeState_reachable)).
Defined.

(** X12: in every state that calls make of a new detector, the alarm is
    running whenever one of the maps holds an ack-eliciting packet, and
    crypto packets are counted whenever one of the maps holds a packet
    with handshake data, so that the next firing of the alarm retransmits
    the handshake data. *)
Theorem alarm_runs_while_ack_eliciting_in_flight {C : Collaborators}
    (s : QuicLossDetection) :
  reachable s ->
  (ackElicitingInFlight s ->
   Alarm_isRunning (lossDetectionAlarm s) = true)
  /\ (cryptoInFlight s -> 0 < cryptoOutstanding s).
Proof.
  intros Hr. destruct (reachable_inUse s Hr) as (_ & Ha & Hc & Halarm).
  unfold excessAckEliciting, excessCrypto, countAckEliciting, countCrypto in *.
  split.
  - intros (space & e & Hin & He).
    pose proof (in_flight_counted ackEliciting s space e Hin He) as Hcount.
    destruct Halarm as [-> | Hempty].
    + destruct (Z.eqb_spec (ackElicitingPacketsOutstanding s) 0);
        [lia | reflexivity].
    + rewrite Hempty in Hin. contradiction.
  - intros (space & e & Hin & He).
    pose proof (in_flight_counted carriesCrypto s space e Hin He) as Hcount.
    lia.
Qed.

Lemma alarm_runs_while_ack_eliciting_in_flight_witness :
  reachable (C := specCollaborators) probeState
  /\ ackElicitingInFlight probeState
  /\ Alarm_isRunning (lossDetectionAlarm probeState) = true.
Proof.
  assert (Hflight : ackElicitingInFlight probeState).
  { exists ApplicationData, (0, mkSentPacket (dataPacket 0) 0 true).
    split; [now left | reflexivity]. }
  split; [exact probeState_reachable|]. split; [exact Hflight|].
  apply (alarm_runs_while_ack_eliciting_in_flight (C := specCollaborators)
           probeState probeState_reachable).
  exact Hflight.
Defined.

(** ** No loss is ever declared *)

Lemma lossTime_removeAll l s : lossTime (removeAll l s) = lossTime s.
Proof. destruct (removeAll_touches l s) as (m & a & c & ->). reflexivity. Qed.

Lemma lossTime_setLossDetectionAlarm s :
  lossTime (setLossDetectionAlarm_state s) = lossTime s.
Proof.
  unfold setLossDetectionAlarm_state.
  destruct (ackElicitingPacketsOutstanding s =? 0); [reflexivity|].
  destruct (lossDetectionAlarm s); reflexivity.
Qed.

Lemma lossTime_onPacketSent now q s :
  lossTime (onPacketSent_state now q s) = lossTime s.
Proof.
  unfold onPacketSent_state.
  match goal with
  | |- context [setLossDetectionAlarm_state ?s2] =>
      destruct (sp_lookup (packetNumber q)
                  (entries (findPacketSpaceFromPacket q)
                     (setLossDetectionAlarm_state s2))); cbn;
      rewrite lossTime_setLossDetectionAlarm;
      destruct (isHandshake q), (isRetransmittable q); reflexivity
  end.
Qed.

Lemma set_space_noLossTime space : set_space space 0%Q noLossTime = noLossTime.
Proof. destruct space; reflexivity. Qed.

Section NoLoss.

Context {C : Collaborators}.

Lemma lossTime_onAckReceived now ackFrame s :
  lossTime (onAckReceived_state now ackFrame s)
  = set_space (findPacketSpaceFromAckFrame ackFrame) 0%Q (lossTime s).
Proof.
  unfold onAckReceived_state.
  rewrite lossTime_setLossDetectionAlarm. cbn.
  rewrite ackAll_as_removeAll, lossTime_removeAll.
  unfold updateRtt_state.
  match goal with
  | |- context [rttSample ackFrame ?s1] =>
      destruct (rttSample ackFrame s1); reflexivity
  end.
Qed.

Lemma lossTime_alarmTimeout s :
  lossTime s = noLossTime -> lossTime (alarmTimeout_state s) = noLossTime.
Proof.
  intros Hz. unfold alarmTimeout_state.
  rewrite lossTime_setLossDetectionAlarm.
  set (s0 := set_lossDetectionAlarm AlarmIdle s).
  assert (Hq : Qnonzero (fst (getEarliestLossTime s0)) = false).
  { apply no_loss_time_set. intros space.
    change (lossTime s0) with (lossTime s). rewrite Hz.
    destruct space; reflexivity. }
  rewrite Hq.
  destruct (0 <? cryptoOutstanding s0); cbn [lossTime set_cryptoCount set_ptoCount];
    now rewrite lossTime_removeAll.
Qed.

Lemma run_calls_declare_no_loss calls :
  forall s,
    wf s -> lossTime s = noLossTime ->
    exists s' out,
      run_calls calls s = Done tt s' out
      /\ wf s' /\ lossTime s' = noLossTime
      /\ forall lost, ~ In (PACKETS_LOST lost) out.
Proof.
  induction calls as [|c calls IH]; intros s Hwf Hz.
  - exists s, []. split; [reflexivity|]. split; [exact Hwf|].
    split; [exact Hz | intros lost []].
  - assert (Hc : exists s1 o1,
               run_call c s = Done tt s1 o1
               /\ wf s1 /\ lossTime s1 = noLossTime
               /\ forall lost, ~ In (PACKETS_LOST lost) o1).
    { destruct (run_call_wf c s Hwf) as (s1 & o1 & Hrun & Hwf1).
      exists s1, o1. split; [exact Hrun|]. split; [exact Hwf1|].
      destruct c as [now q|now ackFrame|now|]; cbn [run_call] in Hrun.
      - rewrite onPacketSent_run in Hrun. injection Hrun as <- <-.
        split; [now rewrite lossTime_onPacketSent | intros lost []].
      - rewrite onAckReceived_run in Hrun. injection Hrun as <- <-.
        split; [rewrite lossTime_onAckReceived, Hz;
                apply set_space_noLossTime|].
        intros lost Hin. unfold onAckReceived_out in Hin.
        apply in_app_or in Hin as [Hin|Hin].
        + unfold updateRtt_out in Hin.
          destruct (rttSample ackFrame s); [|contradiction].
          destruct Hin as [Hin|[]]. discriminate Hin.
        + unfold ackAll_out in Hin.
          apply in_flat_map in Hin as (q & _ & Hin).
          destruct (isRetransmittable q); [|contradiction].
          destruct Hin as [Hin|[]]. discriminate Hin.
      - rewrite (alarmTimeout_run now s Hwf) in Hrun. injection Hrun as <- <-.
        split; [now apply lossTime_alarmTimeout|].
        intros lost Hin.
        apply alarmTimeout_out_retransmits in Hin as (q & Hq). discriminate Hq.
      - rewrite reset_run in Hrun. injection Hrun as <- <-.
        split; [exact Hz | intros lost []]. }
    destruct Hc as (s1 & o1 & Hrun1 & Hwf1 & Hz1 & Ho1).
    destruct (IH s1 Hwf1 Hz1) as (s2 & o2 & Hrun2 & Hwf2 & Hz2 & Ho2).
    exists s2, (o1 ++ o2).
    split; [apply (bind_Done _ _ _ _ _ _ _ _ _ Hrun1 Hrun2)|].
    split; [exact Hwf2|]. split; [exact Hz2|].
    intros lost Hin. apply in_app_or in Hin as [Hin|Hin];
      [exact (Ho1 lost Hin) | exact (Ho2 lost Hin)].
Qed.

(** X13: whatever calls a new detector receives, they all return, no
    packets-lost event is among the events they emit and no loss time is
    set at the end: [detectLostPackets], the only place that announces a
    loss or sets a loss time, iterates over the keys of the method
    [sendPackets], of which there are none.  The alarm is therefore never
    armed for a time threshold. *)
Theorem no_loss_is_ever_declared (rtt : RTTMeasurement) (calls : list Call) :
  exists s out,
    run_calls calls (constructor rtt) = Done tt s out
    /\ (forall lost, ~ In (PACKETS_LOST lost) out)
    /\ lossTime s = noLossTime
    /\ Qnonzero (fst (getEarliestLossTime s)) = false.
Proof.
  destruct (run_calls_declare_no_loss calls (constructor rtt)
              (wf_constructor rtt) eq_refl)
    as (s & out & Hrun & _ & Hz & Hout).
  exists s, out. split; [exact Hrun|]. split; [exact Hout|].
  split; [exact Hz|].
  apply no_loss_time_set. intros space. rewrite Hz. destruct space; reflexivity.
Qed.

End NoLoss.

(** ** The firing of the alarm in crypto retransmission mode *)

Lemma cryptoEntries_In spaces s x :
  In x (cryptoEntries spaces s) ->
  In (snd x) (entries (fst x) s) /\ carriesCrypto (snd x) = true.
Proof.
  unfold cryptoEntries. rewrite in_flat_map. intros (space & _ & Hin).
  apply in_map_iff in Hin as (e & <- & Hin).
  now apply filter_In in Hin.
Qed.

Lemma In_cryptoEntries space e s :
  In e (entries space s) -> carriesCrypto e = true ->
  In (space, e) (cryptoEntries allSpaces s).
Proof.
  intros Hin He. unfold cryptoEntries. apply in_flat_map.
  exists space. split; [destruct space; cbn; tauto|].
  apply in_map. apply filter_In. now split.
Qed.

Lemma same_key_same_entry (m : SentPackets) e e' :
  NoDup (sp_keys m) -> In e m -> In e' m -> fst e = fst e' -> e = e'.
Proof.
  intros Hnd He He' Hk. destruct e as [k v], e' as [k' v']. cbn in Hk.
  subst k'. apply (In_sp_lookup k v m Hnd) in He.
  apply (In_sp_lookup k v' m Hnd) in He'. congruence.
Qed.

Lemma countCrypto_none s :
  (forall space e, In e (entries space s) -> carriesCrypto e = false) ->
  countCrypto s = 0.
Proof.
  intros Hnone. unfold countCrypto. rewrite count_spaces.
  assert (Hz : forall space, filter carriesCrypto (entries space s) = []).
  { intros space.
    destruct (filter carriesCrypto (entries space s)) as [|e l] eqn:E;
      [reflexivity|].
    assert (Hin : In e (filter carriesCrypto (entries space s)))
      by (rewrite E; now left).
    apply filter_In in Hin as [Hin Ht]. rewrite (Hnone space e Hin) in Ht.
    discriminate. }
  now rewrite !Hz.
Qed.

Lemma cryptoCount_removeAll l s : cryptoCount (removeAll l s) = cryptoCount s.
Proof. destruct (removeAll_touches l s) as (m & a & c & ->). reflexivity. Qed.

Lemma cryptoCount_setLossDetectionAlarm s :
  cryptoCount (setLossDetectionAlarm_state s) = cryptoCount s.
Proof.
  unfold setLossDetectionAlarm_state.
  destruct (ackElicitingPacketsOutstanding s =? 0); [reflexivity|].
  destruct (lossDetectionAlarm s); reflexivity.
Qed.

Lemma In_retransmissions p l :
  In (RETRANSMIT_PACKET p) (retransmissions l)
  <-> exists x, In x l /\ probePacket x = p /\ isRetransmittable p = true.
Proof.
  unfold retransmissions. rewrite in_flat_map. split.
  - intros (x & Hx & Hin).
    destruct (isRetransmittable (probePacket x)) eqn:E; [|contradiction].
    destruct Hin as [Hin|[]]. injection Hin as <-. now exists x.
  - intros (x & Hx & <- & Hr). exists x. split; [exact Hx|].
    rewrite Hr. now left.
Qed.

Section CryptoTimeout.

Context {C : Collaborators}.

(** X14: when the alarm fires while crypto packets are counted, on
    well-formed maps, the firing returns; it asks for the retransmission
    of exactly the stored packets that carry handshake data and are
    retransmittable; afterwards no packet with handshake data is left in
    the maps, every other packet is still there, the counter of crypto
    retransmissions has gone up by one and the counter of probe timeouts
    is unchanged, and the counter of crypto packets has fallen by the
    number of packets with handshake data the maps held. *)
Theorem crypto_timeout_retransmits_handshake_data (now : Q)
    (s : QuicLossDetection) :
  wf s ->
  0 < cryptoOutstanding s ->
  exists s' out,
    alarmTimeout now s = Done tt s' out
    /\ (forall p,
          In (RETRANSMIT_PACKET p) out
          <-> exists space e,
                In e (entries space s) /\ packet (snd e) = p
                /\ isHandshake p = true /\ isRetransmittable p = true)
    /\ (forall a, In a out -> exists p, a = RETRANSMIT_PACKET p)
    /\ (forall space e, In e (entries space s') -> carriesCrypto e = false)
    /\ (forall space e,
          In e (entries space s) -> carriesCrypto e = false ->
          In e (entries space s'))
    /\ cryptoCount s' = cryptoCount s + 1
    /\ ptoCount s' = ptoCount s
    /\ cryptoOutstanding s' = cryptoOutstanding s - countCrypto s.
Proof.
  intros Hwf Hcrypto.
  set (s0 := set_lossDetectionAlarm AlarmIdle s).
  set (l := cryptoEntries allSpaces s).
  assert (Hwf0 : wf s0) by exact Hwf.
  assert (Hstate : alarmTimeout_state s
                   = setLossDetectionAlarm_state
                       (set_cryptoCount (cryptoCount s + 1) (removeAll l s0))).
  { unfold alarmTimeout_state. fold s0.
    change (cryptoOutstanding s0) with (cryptoOutstanding s).
    apply Z.ltb_lt in Hcrypto. rewrite Hcrypto.
    change (cryptoEntries allSpaces s0) with l.
    now rewrite cryptoCount_removeAll. }
  assert (Hout : alarmTimeout_out s = retransmissions l).
  { unfold alarmTimeout_out. apply Z.ltb_lt in Hcrypto. now rewrite Hcrypto. }
  set (s1 := set_cryptoCount (cryptoCount s + 1) (removeAll l s0)) in Hstate.
  destruct (setLossDetectionAlarm_state_fields s1)
    as (Hpto & Hmaps & _ & Hcr & _).
  assert (Hentries : forall space,
            entries space (alarmTimeout_state s)
            = entries space (removeAll l s0)).
  { intros space. rewrite Hstate. unfold entries. now rewrite Hmaps. }
  assert (Hnone : forall space e,
            In e (entries space (alarmTimeout_state s)) ->
            carriesCrypto e = false).
  { intros space e Hin. rewrite Hentries in Hin.
    destruct (carriesCrypto e) eqn:He; [|reflexivity]. exfalso.
    assert (Hin0 : In e (entries space s))
      by (apply entries_removeAll_incl in Hin; exact Hin).
    apply (removed_key_gone (space, e) l s0 (In_cryptoEntries _ _ _ Hin0 He)).
    cbn [fst snd]. unfold sp_keys. now apply in_map. }
  exists (alarmTimeout_state s), (alarmTimeout_out s).
  split; [now apply alarmTimeout_run|].
  split.
  { intros p. rewrite Hout, In_retransmissions. split.
    - intros (x & Hx & Hp & Hr).
      apply cryptoEntries_In in Hx as [Hx Hc].
      exists (fst x), (snd x). split; [exact Hx|].
      split; [exact Hp|]. split; [|exact Hr].
      rewrite <- Hp. exact Hc.
    - intros (space & e & Hin & Hp & Hh & Hr).
      exists (space, e). split; [|split; [exact Hp | exact Hr]].
      apply In_cryptoEntries; [exact Hin|].
      unfold carriesCrypto. now rewrite Hp. }
  split.
  { intros a Hin. now apply alarmTimeout_out_retransmits in Hin. }
  split; [exact Hnone|].
  split.
  { intros space e Hin He. rewrite Hentries.
    apply entry_survives_removeAll; [exact Hin|].
    intros x Hx Hspace Hkey.
    apply cryptoEntries_In in Hx as [Hx Hc]. rewrite Hspace in Hx.
    rewrite (same_key_same_entry _ _ _ (proj1 (Hwf space)) Hx Hin Hkey) in Hc.
    congruence. }
  split; [rewrite Hstate, cryptoCount_setLossDetectionAlarm; reflexivity|].
  split.
  { rewrite Hstate, Hpto.
    transitivity (ptoCount (removeAll l s0)); [reflexivity|].
    now rewrite (proj2 (untouched_by_removeAll l s0)). }
  pose proof (countCrypto_none _ Hnone) as Hzero.
  destruct (excess_removeAll l s0 Hwf0) as [_ Hex].
  unfold excessCrypto in Hex.
  assert (Hcount : countCrypto (alarmTimeout_state s)
                   = countCrypto (removeAll l s0)).
  { unfold countCrypto, entriesOf, allSpaces. cbn [flat_map].
    now rewrite !Hentries. }
  rewrite Hstate, Hcr.
  change (cryptoOutstanding s1) with (cryptoOutstanding (removeAll l s0)).
  change (cryptoOutstanding s0) with (cryptoOutstanding s) in Hex.
  change (countCrypto s0) with (countCrypto s) in Hex.
  lia.
Qed.

End CryptoTimeout.

Lemma crypto_timeout_retransmits_handshake_data_witness :
  wf handshakeState
  /\ 0 < cryptoOutstanding handshakeState
  /\ exists s' out,
       alarmTimeout (collaborators := specCollaborators) 300 handshakeState
       = Done tt s' out
       /\ cryptoCount s' = cryptoCount handshakeState + 1.
Proof.
  assert (Hwf : wf handshakeState).
  { intros []; (split; [|repeat constructor]); cbn;
      repeat (constructor; [cbn; intuition discriminate|]); constructor. }
  split; [exact Hwf|]. split; [reflexivity|].
  destruct (crypto_timeout_retransmits_handshake_data
              (C := specCollaborators) 300 handshakeState Hwf eq_refl)
    as (s' & out & Hrun & _ & _ & _ & _ & Hcount & _).
  exists s', out. split; [exact Hrun | exact Hcount].
Defined.

(** ** [sendPackets] for any number of probes *)

Lemma candidates_length s :
  Z.of_nat (length (candidates allSpaces s)) = countAckEliciting s.
Proof.
  rewrite countAckEliciting_spaces. unfold candidates, allSpaces.
  cbn [flat_map]. rewrite app_nil_r, !length_app, !length_map. lia.
Qed.

(** X15: on well-formed maps, [sendPackets] with a positive amount
    returns; it asks for the retransmission of the first [amount]
    ack-eliciting packets in the order of the spaces Initial, Handshake,
    ApplicationData and of their maps, or of all of them when the maps
    hold fewer; the maps lose exactly these packets, the counter of
    ack-eliciting packets falls by their number, and the alarm and the
    counter of probe timeouts are not touched. *)
Theorem sendPackets_takes_first_ack_eliciting (amount : Z)
    (s : QuicLossDetection) :
  wf s ->
  0 < amount ->
  exists s',
    sendPackets amount s
    = Done tt s' (map (fun x => RETRANSMIT_PACKET (probePacket x))
                    (probes amount s))
    /\ Z.of_nat (length (probes amount s))
       = Z.min amount (countAckEliciting s)
    /\ (forall space e,
          In e (entries space s')
          <-> In e (entries space s) /\ ~ In (space, e) (probes amount s))
    /\ ackElicitingPacketsOutstanding s'
       = ackElicitingPacketsOutstanding s
         - Z.of_nat (length (probes amount s))
    /\ lossDetectionAlarm s' = lossDetectionAlarm s
    /\ ptoCount s' = ptoCount s.
Proof.
  intros Hwf Hpos. exists (removeAll (probes amount s) s).
  split; [now apply sendPackets_run|].
  split.
  { unfold probes. rewrite length_firstn, <- candidates_length. lia. }
  split.
  { intros space e. split.
    - intros Hin. split; [now apply entries_removeAll_incl in Hin|].
      intros Hprobe.
      apply (removed_key_gone (space, e) (probes amount s) s Hprobe).
      cbn [fst snd]. unfold sp_keys. now apply in_map.
    - intros [Hin Hnot]. apply entry_survives_removeAll; [exact Hin|].
      intros x Hx Hspace Hkey. apply Hnot.
      pose proof Hx as Hx'. unfold probes in Hx'. apply In_firstn in Hx'.
      apply candidates_In in Hx' as [Hx' _]. rewrite Hspace in Hx'.
      rewrite <- (same_key_same_entry _ _ _ (proj1 (Hwf space)) Hx' Hin Hkey),
        <- Hspace.
      destruct x; exact Hx. }
  split.
  { unfold probes.
    apply (counters_after_probes allSpaces s _ allSpaces_NoDup Hwf). }
  apply untouched_by_removeAll.
Qed.

Lemma sendPackets_takes_first_ack_eliciting_witness :
  wf probeState
  /\ 0 < 1
  /\ exists s',
       sendOnePacket probeState
       = Done tt s' [RETRANSMIT_PACKET (dataPacket 0)]
       /\ ackElicitingPacketsOutstanding s' = 2.
Proof.
  split; [exact probeState_wf|]. split; [reflexivity|].
  destruct (sendPackets_takes_first_ack_eliciting 1 probeState probeState_wf
              eq_refl)
    as (s' & Hrun & _ & _ & Hack & _).
  exists s'. split; [exact Hrun | exact Hack].
Defined.

(** ** The header handler beyond the version gate *)

Section HandlerReturns.

Context {H : HeaderCollaborators}.

(** X17: a version negotiation header passes through [handle] as it
    came: the connection, the header and the offset are returned
    unchanged, on a server as on a client, and nothing is decoded. *)
Theorem version_negotiation_header_passes_through (connection : Connection)
    (header : Header) (offset : Z) (msg : list Z)
    (encryptingEndpoint : EndpointType) :
  getHeaderType header = VersionNegotiationHeader ->
  handle connection header offset msg encryptingEndpoint
  = Returned connection header offset.
Proof.
  intros Ht. unfold handle, handle_decoded. rewrite Ht. reflexivity.
Qed.




End HandlerReturns.

Lemma version_negotiation_header_passes_through_witness :
  getHeaderType (mkHeader VersionNegotiationHeader LongHeaderType_Initial
                   2 100 false 0 1)
  = VersionNegotiationHeader
  /\ handle (headerCollaborators := exampleHeaderCollaborators)
       (serverConnection SERVER_HELLO)
       (mkHeader VersionNegotiationHeader LongHeaderType_Initial
          2 100 false 0 1) 20 [8] Client
     = Returned (serverConnection SERVER_HELLO)
         (mkHeader VersionNegotiationHeader LongHeaderType_Initial
            2 100 false 0 1) 20.
Proof.
  split; [reflexivity|].
  apply (version_negotiation_header_passes_through
           (H := exampleHeaderCollaborators)).
  reflexivity.
Defined.



(** ** The header handler on shared objects *)

Lemma getValue_setValue_same pn value heap :
  getValue pn (setValue pn value heap) = value.
Proof. unfold getValue, setValue. cbn. now rewrite Nat.eqb_refl. Qed.

Lemma getValue_setValue_other r pn value heap :
  r <> pn -> getValue r (setValue pn value heap) = getValue r heap.
Proof.
  intros Hne. unfold getValue, setValue. cbn.
  destruct (Nat.eqb_spec r pn); [contradiction | reflexivity].
Qed.

Lemma getValue_newPacketNumber value heap :
  getValue (fst (newPacketNumber value heap)) (snd (newPacketNumber value heap))
  = value.
Proof. unfold getValue, newPacketNumber. cbn. now rewrite Nat.eqb_refl. Qed.

Lemma getValue_newPacketNumber_other r value heap :
  (r < allocated heap)%nat ->
  getValue r (snd (newPacketNumber value heap)) = getValue r heap.
Proof.
  intros Hlt. unfold getValue, newPacketNumber. cbn.
  destruct (Nat.eqb_spec r (allocated heap)); [lia | reflexivity].
Qed.

Lemma at_set_space_same {A} space (x : A) (a : PerSpace A) :
  at_space space (set_space space x a) = x.
Proof. destruct space; reflexivity. Qed.

Lemma at_set_space_other {A} space space' (x : A) (a : PerSpace A) :
  space' <> space -> at_space space' (set_space space x a) = at_space space' a.
Proof.
  intros Hne. destruct space, space'; try reflexivity;
    contradiction Hne; reflexivity.
Qed.

Lemma handleShortHeaderObject_fields connection shortHeader highest :
  endpointTypeOf (handleShortHeaderObject connection shortHeader highest)
  = endpointTypeOf connection
  /\ handshakeStateOf (handleShortHeaderObject connection shortHeader highest)
     = handshakeStateOf connection
  /\ connectionVersionOf (handleShortHeaderObject connection shortHeader highest)
     = connectionVersionOf connection
  /\ highestReceivedObject
       (handleShortHeaderObject connection shortHeader highest)
     = highestReceivedObject connection.
Proof. unfold handleShortHeaderObject. destruct highest; repeat split. Qed.

Section ObjectHandlerProperties.

Context {H : HeaderCollaborators}.
Context {O : ObjectCollaborators}.

(** What [adjustRemotePacketNumber] writes. *)
Lemma adjustRemotePacketNumber_spec pnSpace heap connection header :
  (packetNumberOf header < allocated heap)%nat ->
  (forall space pn,
     at_space space (highestReceivedObject connection) = Some pn ->
     (pn < allocated heap)%nat) ->
  let r := adjustRemotePacketNumber pnSpace heap connection header in
  let heap' := fst (fst r) in
  let connection' := snd (fst r) in
  endpointTypeOf connection' = endpointTypeOf connection
  /\ handshakeStateOf connection' = handshakeStateOf connection
  /\ connectionVersionOf connection' = connectionVersionOf connection
  /\ connectionSpinBitOf connection' = connectionSpinBitOf connection
  /\ (forall space, space <> pnSpace ->
        at_space space (highestReceivedObject connection')
        = at_space space (highestReceivedObject connection))
  /\ (forall pn, (pn < allocated heap)%nat -> pn <> packetNumberOf header ->
        getValue pn heap' = getValue pn heap)
  /\ (at_space pnSpace (highestReceivedObject connection) = None ->
      at_space pnSpace (highestReceivedObject connection')
      = Some (packetNumberOf header)
      /\ heap' = heap /\ snd r = true)
  /\ (forall highest,
        at_space pnSpace (highestReceivedObject connection) = Some highest ->
        let adjustedNumber :=
          adjustNumber (getValue highest heap)
            (getValue (packetNumberOf header) heap)
            (packetNumberSizeOf header) in
        getValue (packetNumberOf header) heap' = adjustedNumber
        /\ snd r = (getValue highest heap <? adjustedNumber)
        /\ exists highest',
             at_space pnSpace (highestReceivedObject connection')
             = Some highest'
             /\ (if getValue highest heap <? adjustedNumber
                 then getValue highest' heap' = adjustedNumber
                 else highest' = highest)).
Proof.
  intros Hheader Hspaces r heap' connection'.
  unfold adjustRemotePacketNumber in r.
  destruct (at_space pnSpace (highestReceivedObject connection))
    as [highest|] eqn:Hbefore.
  - set (adjustedNumber :=
           adjustNumber (getValue highest heap)
             (getValue (packetNumberOf header) heap)
             (packetNumberSizeOf header)) in *.
    destruct (getValue highest heap <? adjustedNumber) eqn:Hlt;
      subst r heap' connection'; cbn [fst snd newPacketNumber].
    + repeat (split; [reflexivity|]).
      split; [intros space Hne;
              cbn [highestReceivedObject setHighestReceivedObject];
              now apply at_set_space_other|].
      split.
      { intros pn Hpn Hne. rewrite getValue_setValue_other by exact Hne.
        now apply (getValue_newPacketNumber_other pn adjustedNumber heap). }
      split; [discriminate|].
      intros h [= <-]. cbv zeta. fold adjustedNumber. rewrite Hlt.
      split; [apply getValue_setValue_same|].
      split; [reflexivity|].
      exists (allocated heap).
      cbn [highestReceivedObject setHighestReceivedObject].
      rewrite at_set_space_same.
      split; [reflexivity|].
      rewrite getValue_setValue_other by lia.
      apply (getValue_newPacketNumber adjustedNumber heap).
    + repeat (split; [reflexivity|]).
      split; [intros pn _ Hne; now apply getValue_setValue_other|].
      split; [discriminate|].
      intros h [= <-]. cbv zeta. fold adjustedNumber. rewrite Hlt.
      split; [apply getValue_setValue_same|].
      split; [reflexivity|].
      exists highest. split; [exact Hbefore | reflexivity].
  - subst r heap' connection'. cbn [fst snd].
    repeat (split; [reflexivity|]).
    split; [intros space Hne;
            cbn [highestReceivedObject setHighestReceivedObject];
            now apply at_set_space_other|].
    split; [reflexivity|].
    split; [|discriminate].
    intros _. cbn [highestReceivedObject setHighestReceivedObject].
    rewrite at_set_space_same. repeat split.
Qed.

(** What a call that returns on a header other than a version negotiation
    header has done. *)
Lemma handleObject_decoded_returned heap connection header offset msg
    encryptingEndpoint heap' connection' header' offset' :
  handleObject_decoded heap connection header offset msg encryptingEndpoint
  = ObjectReturned heap' connection' header' offset' ->
  headerTypeOf header <> VersionNegotiationHeader ->
  let t := actualPacketType (headerOf heap header) in
  let sourceStart := Z.of_nat (length (parsedBuffer header)) - 4 in
  exists pn d,
    0 <= sourceStart
    /\ pnDecrypt t (connectionOf heap connection)
         (skipn (Z.to_nat sourceStart) (parsedBuffer header))
         (headerOf heap header)
         (parsedBuffer header ++ slice_from offset msg) encryptingEndpoint
       = Some pn
    /\ VLIE_decodePn pn = Some d
    /\ let heap1 := setValue (packetNumberOf header) (fst d) heap in
       let header1 :=
         setParsedBuffer
           (firstn (Z.to_nat sourceStart) (parsedBuffer header)
            ++ toBuffer (fst d) (snd d)) header in
       let r :=
         adjustRemotePacketNumber (packetNumberSpaceOfType t) heap1
           connection header1 in
       hasEncryptionContext (connectionOf heap1 connection) t = true
       /\ heap' = fst (fst r)
       /\ offset' = offset - 4 + snd d
       /\ header'
          = match headerTypeOf header with
            | LongHeader =>
                setPayloadLengthOf (payloadLengthOf header - snd d) header1
            | _ => header1
            end
       /\ connection'
          = match headerTypeOf header with
            | ShortHeader =>
                handleShortHeaderObject (snd (fst r)) header1 (snd r)
            | _ => snd (fst r)
            end.
Proof.
  intros Hrun Hne t sourceStart. unfold handleObject_decoded in Hrun.
  fold t sourceStart in Hrun.
  destruct (HeaderType_eqb (headerTypeOf header) VersionNegotiationHeader)
    eqn:Hvn.
  { destruct (headerTypeOf header); try discriminate Hvn.
    contradiction Hne; reflexivity. }
  destruct (Z.ltb_spec sourceStart 0) as [Hshort|Hlong];
    [discriminate Hrun|].
  destruct (pnDecrypt t (connectionOf heap connection)
              (skipn (Z.to_nat sourceStart) (parsedBuffer header))
              (headerOf heap header)
              (parsedBuffer header ++ slice_from offset msg)
              encryptingEndpoint) as [pn|] eqn:Hpn; [|discriminate Hrun].
  destruct (VLIE_decodePn pn) as [d|] eqn:Hd; [|discriminate Hrun].
  exists pn, d. split; [exact Hlong|]. split; [reflexivity|].
  split; [exact Hd|]. cbv zeta.
  destruct (hasEncryptionContext
              (connectionOf (setValue (packetNumberOf header) (fst d) heap)
                 connection) t) eqn:Hctx; [|discriminate Hrun].
  split; [reflexivity|].
  destruct (adjustRemotePacketNumber (packetNumberSpaceOfType t)
              (setValue (packetNumberOf header) (fst d) heap) connection
              (setParsedBuffer
                 (firstn (Z.to_nat sourceStart) (parsedBuffer header)
                  ++ toBuffer (fst d) (snd d)) header))
    as [[heap2 connection2] b] eqn:Hadjust.
  cbn [headerTypeOf setParsedBuffer] in Hrun. cbn [fst snd].
  destruct (headerTypeOf header); injection Hrun as <- <- <- <-;
    repeat split.
Qed.


(** The version gate of [handle]: where it throws, and the connection
    behind it. *)
Lemma handleObject_gate heap connection header offset msg encryptingEndpoint :
  let atGate :=
    headerTypeOf header = LongHeader
    /\ endpointTypeOf connection = Server
    /\ validateVersion (connectionVersionOf connection) (headerOf heap header)
       = None in
  (atGate /\ exists e,
     handleObject heap connection header offset msg encryptingEndpoint
     = ObjectThrew (ThrownByHandler e) heap connection header offset)
  \/ (~ atGate /\ exists connection1,
        handleObject heap connection header offset msg encryptingEndpoint
        = handleObject_decoded heap connection1 header offset msg
            encryptingEndpoint
        /\ highestReceivedObject connection1
           = highestReceivedObject connection
        /\ connectionOf heap connection1
           = afterVersionGate (connectionOf heap connection)
               (headerOf heap header)).
Proof.
  intros atGate. subst atGate.
  unfold handleObject, handleClientVersion, afterVersionGate.
  cbn [getHeaderType headerOf getEndpointType connectionOf connectionVersion
       getPacketType getHandshakeState].
  destruct (headerTypeOf header) eqn:Ht;
    cbn [HeaderType_eqb andb];
    try (right; split; [intros (E & _); discriminate E|];
         exists connection; repeat split).
  destruct (endpointTypeOf connection) eqn:Hep;
    try (right; split; [intros (_ & E & _); discriminate E|];
         exists connection; repeat split).
  destruct (validateVersion (connectionVersionOf connection)
              (headerOf heap header)) as [v|] eqn:Hv.
  - right. split; [intros (_ & _ & E); discriminate E|].
    exists (setVersionOf v connection). repeat split.
  - left. split; [repeat split|].
    destruct (packetTypeOf header); [eexists; reflexivity| | |];
      destruct (_ || _); eexists; reflexivity.
Qed.


(** X18: when [handle] returns on a header that is not a version
    negotiation header, it has written no [PacketNumber] object that
    existed but the one of the header, and every packet number space
    other than that of the packet has the highest received number it
    had.  A space without a highest received number takes the
    [PacketNumber] object of the header itself.  A highest received
    number that is another object than the one of the header never
    falls, and where it rises it is the number the header carries.  A
    highest received number that is the object of the header, as when
    the header that set it is handled again, becomes the number the
    header carries, whatever it was: it can fall. *)
Theorem highest_received_number_falls_only_when_shared (heap : Heap)
    (connection : ConnectionObject) (header : HeaderObject) (offset : Z)
    (msg : list Z) (encryptingEndpoint : EndpointType)
    (heap' : Heap) (connection' : ConnectionObject) (header' : HeaderObject)
    (offset' : Z) :
  handleObject heap connection header offset msg encryptingEndpoint
  = ObjectReturned heap' connection' header' offset' ->
  headerTypeOf header <> VersionNegotiationHeader ->
  created heap connection header ->
  let pnSpace :=
    packetNumberSpaceOfType (actualPacketType (headerOf heap header)) in
  packetNumberOf header' = packetNumberOf header
  /\ (forall pn, (pn < allocated heap)%nat -> pn <> packetNumberOf header ->
        getValue pn heap' = getValue pn heap)
  /\ (forall space, space <> pnSpace ->
        at_space space (highestReceivedObject connection')
        = at_space space (highestReceivedObject connection))
  /\ (at_space pnSpace (highestReceivedObject connection) = None ->
      at_space pnSpace (highestReceivedObject connection')
      = Some (packetNumberOf header))
  /\ (forall highest,
        at_space pnSpace (highestReceivedObject connection) = Some highest ->
        highest <> packetNumberOf header ->
        exists highest',
          at_space pnSpace (highestReceivedObject connection')
          = Some highest'
          /\ getValue highest heap <= getValue highest' heap'
          /\ (getValue highest heap < getValue highest' heap' ->
              getValue highest' heap' = getValue (packetNumberOf header) heap'))
  /\ (at_space pnSpace (highestReceivedObject connection)
      = Some (packetNumberOf header) ->
      exists highest',
        at_space pnSpace (highestReceivedObject connection') = Some highest'
        /\ getValue highest' heap' = getValue (packetNumberOf header) heap').
Proof.
  intros Hrun Hne [Hheader Hspaces] pnSpace.
  destruct (handleObject_gate heap connection header offset msg
              encryptingEndpoint)
    as [[_ [e He]] | [_ (connection1 & Hdec & Hhrn & _)]];
    [rewrite He in Hrun; discriminate Hrun|].
  rewrite Hdec in Hrun. rewrite <- Hhrn in *. clear Hdec Hhrn connection.
  destruct (handleObject_decoded_returned _ _ _ _ _ _ _ _ _ _ Hrun Hne)
    as (pn & d & _ & _ & _ & Hshape).
  cbv zeta in Hshape. fold pnSpace in Hshape.
  set (heap1 := setValue (packetNumberOf header) (fst d) heap) in Hshape.
  set (header1 := setParsedBuffer _ header) in Hshape.
  destruct Hshape as (_ & -> & _ & -> & ->).
  assert (Hheader1 : (packetNumberOf header1 < allocated heap1)%nat)
    by exact Hheader.
  assert (Hspaces1 : forall space r,
            at_space space (highestReceivedObject connection1) = Some r ->
            (r < allocated heap1)%nat) by exact Hspaces.
  destruct (adjustRemotePacketNumber_spec pnSpace heap1 connection1 header1
              Hheader1 Hspaces1)
    as (_ & _ & _ & _ & Hother & Hvalues & Hnone & Hsome).
  set (r := adjustRemotePacketNumber pnSpace heap1 connection1 header1) in *.
  assert (Hhrn : highestReceivedObject
                   match headerTypeOf header with
                   | ShortHeader =>
                       handleShortHeaderObject (snd (fst r)) header1 (snd r)
                   | _ => snd (fst r)
                   end
                 = highestReceivedObject (snd (fst r))).
  { destruct (headerTypeOf header); try reflexivity.
    apply handleShortHeaderObject_fields. }
  rewrite Hhrn.
  split; [destruct (headerTypeOf header); reflexivity|].
  split.
  { intros q Hq Hqne. rewrite (Hvalues q Hq Hqne).
    now apply getValue_setValue_other. }
  split; [exact Hother|].
  split; [intros Hbefore; now apply Hnone|].
  split.
  - intros highest Hbefore Hdiff.
    destruct (Hsome highest Hbefore) as (Hpn & _ & highest' & Hafter & Hcase).
    cbv zeta in Hpn, Hcase. change (packetNumberOf header1)
      with (packetNumberOf header) in Hpn, Hcase.
    assert (Hsame : getValue highest heap1 = getValue highest heap)
      by now apply getValue_setValue_other.
    rewrite Hsame in Hpn, Hcase.
    exists highest'. split; [exact Hafter|].
    destruct (Z.ltb_spec (getValue highest heap)
                (adjustNumber (getValue highest heap)
                   (getValue (packetNumberOf header) heap1)
                   (packetNumberSizeOf header1))) as [Hlt|Hge].
    + rewrite Hcase, Hpn. split; [lia | reflexivity].
    + subst highest'.
      rewrite (Hvalues highest (Hspaces _ _ Hbefore) Hdiff), Hsame.
      split; lia.
  - intros Hbefore.
    destruct (Hsome _ Hbefore) as (Hpn & _ & highest' & Hafter & Hcase).
    cbv zeta in Hpn, Hcase. change (packetNumberOf header1)
      with (packetNumberOf header) in Hpn, Hcase.
    exists highest'. split; [exact Hafter|].
    destruct (_ <? _); [now rewrite Hcase, Hpn | now subst highest'].
Qed.

End ObjectHandlerProperties.


Lemma highest_received_number_falls_only_when_shared_witness :
  handleObject (headerCollaborators := exampleHeaderCollaborators)
    (objectCollaborators := exampleObjectCollaborators)
    heapOfFirstPacket clientConnectionObject
    (firstShortHeader [64; 3; 0; 0; 0]) 20 [] Server
  = ObjectReturned (setValue 0 3 (setValue 0 3 heapOfFirstPacket))
      clientConnectionObject (firstShortHeader [64; 3]) 17
  /\ headerTypeOf (firstShortHeader [64; 3; 0; 0; 0])
     <> VersionNegotiationHeader
  /\ created heapOfFirstPacket clientConnectionObject
       (firstShortHeader [64; 3; 0; 0; 0])
  /\ getValue 0 heapOfFirstPacket = 7
  /\ getValue 0 (setValue 0 3 (setValue 0 3 heapOfFirstPacket)) = 3
  /\ exists highest',
       at_space ApplicationData (highestReceivedObject clientConnectionObject)
       = Some highest'
       /\ getValue highest' (setValue 0 3 (setValue 0 3 heapOfFirstPacket))
          = getValue 0 (setValue 0 3 (setValue 0 3 heapOfFirstPacket)).
Proof.
  assert (Hrun : handleObject (headerCollaborators := exampleHeaderCollaborators)
                   (objectCollaborators := exampleObjectCollaborators)
                   heapOfFirstPacket clientConnectionObject
                   (firstShortHeader [64; 3; 0; 0; 0]) 20 [] Server
                 = ObjectReturned
                     (setValue 0 3 (setValue 0 3 heapOfFirstPacket))
                     clientConnectionObject (firstShortHeader [64; 3]) 17)
    by (vm_compute; reflexivity).
  assert (Hne : headerTypeOf (firstShortHeader [64; 3; 0; 0; 0])
                <> VersionNegotiationHeader) by discriminate.
  assert (Hcreated : created heapOfFirstPacket clientConnectionObject
                       (firstShortHeader [64; 3; 0; 0; 0])).
  { split; [cbn; lia|].
    intros [] pn; cbn; intros E; try discriminate E.
    injection E as <-. lia. }
  split; [exact Hrun|]. split; [exact Hne|]. split; [exact Hcreated|].
  split; [reflexivity|]. split; [reflexivity|].
  apply (proj2 (proj2 (proj2 (proj2 (proj2
           (highest_received_number_falls_only_when_shared
              (H := exampleHeaderCollaborators)
              (O := exampleObjectCollaborators)
              _ _ _ _ _ _ _ _ _ _ Hrun Hne Hcreated)))))).
  reflexivity.
Defined.

(** ** The handler on values, as the handler on objects that share none *)

Lemma perSpace_ext {A} (a b : PerSpace A) :
  (forall space, at_space space a = at_space space b) -> a = b.
Proof.
  intros Hext. destruct a as [a1 a2 a3], b as [b1 b2 b3].
  pose proof (Hext Initial) as E1. pose proof (Hext Handshake) as E2.
  pose proof (Hext ApplicationData) as E3. cbn in E1, E2, E3. congruence.
Qed.

Lemma at_space_valuesOf heap space a :
  at_space space (valuesOf heap a)
  = option_map (fun pn => getValue pn heap) (at_space space a).
Proof. destruct space; reflexivity. Qed.

Lemma kPacketNumberSpace_eq_dec (a b : kPacketNumberSpace) : a = b \/ a <> b.
Proof. destruct a, b; (now left) || (right; discriminate). Qed.

Section HandlerOnValues.

Context {H : HeaderCollaborators}.

(** The result of [handle_decoded], written out. *)
Lemma handle_decoded_result connection header offset msg encryptingEndpoint :
  getHeaderType header <> VersionNegotiationHeader ->
  let pnSpace := packetNumberSpaceOfType (actualPacketType header) in
  let d := decodePn (actualPacketType header) connection header msg
             encryptingEndpoint in
  let before := at_space pnSpace (highestReceivedNumber connection) in
  let pn := match before with
            | None => fst d
            | Some highest =>
                adjustNumber highest (fst d) (getPacketNumberSize header)
            end in
  let rises := match before with
               | None => true
               | Some highest => highest <? pn
               end in
  let connection1 :=
    if rises then setHighestReceivedNumber pnSpace pn connection
    else connection in
  handle_decoded connection header offset msg encryptingEndpoint
  = Returned
      (match getHeaderType header with
       | ShortHeader =>
           handleShortHeader connection1 (setPacketNumber pn header) rises
       | _ => connection1
       end)
      (match getHeaderType header with
       | LongHeader =>
           setPayloadLength (getPayloadLength header - snd d)
             (setPacketNumber pn header)
       | _ => setPacketNumber pn header
       end)
      (offset - 4 + snd d).
Proof.
  intros Hne pnSpace d before pn rises connection1.
  unfold handle_decoded. fold pnSpace. fold d.
  destruct (getHeaderType header) eqn:Ht; [| |contradiction Hne; reflexivity];
    cbn [HeaderType_eqb]; subst connection1 rises pn before;
    (destruct (at_space pnSpace (highestReceivedNumber connection))
       as [hi|] eqn:Hbefore;
     [cbn [getPacketNumber getPacketNumberSize setPacketNumber];
      destruct (hi <? adjustNumber hi (fst d) (getPacketNumberSize header))|]);
    cbn; rewrite Ht; reflexivity.
Qed.

Lemma handle_behind_the_gate connection header offset msg encryptingEndpoint :
  ~ (getHeaderType header = LongHeader
     /\ getEndpointType connection = Server
     /\ validateVersion (connectionVersion connection) header = None) ->
  handle connection header offset msg encryptingEndpoint
  = handle_decoded (afterVersionGate connection header) header offset msg
      encryptingEndpoint.
Proof.
  intros Hgate. unfold handle, handleClientVersion, afterVersionGate.
  destruct (getHeaderType header); cbn [HeaderType_eqb andb];
    try reflexivity.
  destruct (getEndpointType connection); try reflexivity.
  destruct (validateVersion (connectionVersion connection) header);
    [reflexivity|].
  contradiction Hgate. repeat split.
Qed.

Context {O : ObjectCollaborators}.

(** A call of [handle] that returns, on a header whose [PacketNumber]
    object is not the highest received one of a space, is the call of
    [handle] above on the values of the objects: the definition above is
    that of the runs in which the parsed buffer has four bytes or more,
    no collaborator throws and the header shares no object with the
    spaces. *)
Lemma handle_is_handleObject_without_sharing heap connection header offset msg
    encryptingEndpoint heap' connection' header' offset' :
  handleObject heap connection header offset msg encryptingEndpoint
  = ObjectReturned heap' connection' header' offset' ->
  created heap connection header ->
  (forall space,
     at_space space (highestReceivedObject connection)
     <> Some (packetNumberOf header)) ->
  let t := actualPacketType (headerOf heap header) in
  let connection1 :=
    afterVersionGate (connectionOf heap connection) (headerOf heap header) in
  let sourceStart := Z.of_nat (length (parsedBuffer header)) - 4 in
  (forall pn d,
     pnDecrypt t connection1
       (skipn (Z.to_nat sourceStart) (parsedBuffer header))
       (headerOf heap header)
       (parsedBuffer header ++ slice_from offset msg) encryptingEndpoint
     = Some pn ->
     VLIE_decodePn pn = Some d ->
     decodePn t connection1 (headerOf heap header) msg encryptingEndpoint = d) ->
  handle (connectionOf heap connection) (headerOf heap header) offset msg
    encryptingEndpoint
  = Returned (connectionOf heap' connection') (headerOf heap' header') offset'.
Proof.
  intros Hrun [Hheader Hspaces] Hshare t connection1 sourceStart Hagree.
  destruct (handleObject_gate heap connection header offset msg
              encryptingEndpoint)
    as [[_ [e He]] | [Hgate (c1 & Hdec & Hhrn & Hview)]];
    [rewrite He in Hrun; discriminate Hrun|].
  rewrite Hdec in Hrun. clear Hdec.
  rewrite (handle_behind_the_gate (connectionOf heap connection)
             (headerOf heap header) offset msg encryptingEndpoint Hgate).
  fold connection1 in Hview |- *.
  destruct (HeaderType_eqb (headerTypeOf header) VersionNegotiationHeader)
    eqn:Hvn.
  { unfold handleObject_decoded in Hrun. rewrite Hvn in Hrun.
    injection Hrun as <- <- <- <-.
    unfold handle_decoded. cbn [getHeaderType headerOf]. rewrite Hvn.
    now rewrite Hview. }
  assert (Hne : headerTypeOf header <> VersionNegotiationHeader)
    by (intros E; rewrite E in Hvn; discriminate Hvn).
  destruct (handleObject_decoded_returned _ _ _ _ _ _ _ _ _ _ Hrun Hne)
    as (pn & d & _ & Hpn & Hd & Hshape).
  fold t sourceStart in Hpn. rewrite Hview in Hpn.
  pose proof (Hagree pn d Hpn Hd) as Hdecoded.
  cbv zeta in Hshape. fold t in Hshape.
  set (pnSpace := packetNumberSpaceOfType t) in *.
  set (heap1 := setValue (packetNumberOf header) (fst d) heap) in Hshape.
  set (header1 := setParsedBuffer _ header) in Hshape.
  destruct Hshape as (_ & -> & -> & -> & ->).
  assert (Hheader1 : (packetNumberOf header1 < allocated heap1)%nat)
    by exact Hheader.
  assert (Hspaces1 : forall space r,
            at_space space (highestReceivedObject c1) = Some r ->
            (r < allocated heap1)%nat)
    by (rewrite Hhrn; exact Hspaces).
  destruct (adjustRemotePacketNumber_spec pnSpace heap1 c1 header1
              Hheader1 Hspaces1)
    as (Hep & Hst & Hver & Hspin & Hother & Hvalues & Hnone & Hsome).
  set (r := adjustRemotePacketNumber pnSpace heap1 c1 header1) in *.
  rewrite (handle_decoded_result connection1 (headerOf heap header) offset msg
             encryptingEndpoint Hne).
  change (actualPacketType (headerOf heap header)) with t.
  fold pnSpace. rewrite Hdecoded.
  assert (Hold : forall space q,
            at_space space (highestReceivedObject c1) = Some q ->
            getValue q (fst (fst r)) = getValue q heap).
  { intros space q Hq.
    assert (Hqne : q <> packetNumberOf header)
      by (intros ->; rewrite Hhrn in Hq; exact (Hshare space Hq)).
    rewrite (Hvalues q (Hspaces1 _ _ Hq) Hqne).
    now apply getValue_setValue_other. }
  assert (Hbefore : at_space pnSpace (highestReceivedNumber connection1)
                    = option_map (fun q => getValue q heap)
                        (at_space pnSpace (highestReceivedObject c1))).
  { rewrite <- Hview. apply at_space_valuesOf. }
  rewrite Hbefore.
  set (pnv := match
                option_map (fun q => getValue q heap)
                  (at_space pnSpace (highestReceivedObject c1))
              with
              | Some highest =>
                  adjustNumber highest (fst d)
                    (getPacketNumberSize (headerOf heap header))
              | None => fst d
              end).
  set (rises := match
                  option_map (fun q => getValue q heap)
                    (at_space pnSpace (highestReceivedObject c1))
                with
                | Some highest => highest <? pnv
                | None => true
                end).
  assert (Hfacts :
            getValue (packetNumberOf header) (fst (fst r)) = pnv
            /\ snd r = rises
            /\ valuesOf (fst (fst r)) (highestReceivedObject (snd (fst r)))
               = if rises
                 then set_space pnSpace (Some pnv)
                        (valuesOf heap (highestReceivedObject c1))
                 else valuesOf heap (highestReceivedObject c1)).
  { assert (Hrest : forall space, space <> pnSpace ->
              at_space space
                (valuesOf (fst (fst r)) (highestReceivedObject (snd (fst r))))
              = at_space space (valuesOf heap (highestReceivedObject c1))).
    { intros space Hsp. rewrite !at_space_valuesOf, (Hother space Hsp).
      destruct (at_space space (highestReceivedObject c1)) as [q|] eqn:Hq;
        [|reflexivity].
      cbn. f_equal. exact (Hold space q Hq). }
    subst pnv rises.
    destruct (at_space pnSpace (highestReceivedObject c1)) as [highest|]
      eqn:Hhi; cbn [option_map].
    - destruct (Hsome highest eq_refl) as (Hp & Hb & highest' & Hafter & Hcase).
      cbv zeta in Hp, Hb, Hcase.
      assert (Hself : getValue (packetNumberOf header1) heap1 = fst d)
        by apply getValue_setValue_same.
      assert (Hhighest : getValue highest heap1 = getValue highest heap).
      { apply getValue_setValue_other. intros ->.
        rewrite Hhrn in Hhi. exact (Hshare pnSpace Hhi). }
      rewrite Hself, Hhighest in Hp, Hb, Hcase.
      change (packetNumberSizeOf header1)
        with (getPacketNumberSize (headerOf heap header)) in Hp, Hb, Hcase.
      split; [exact Hp|]. split; [exact Hb|].
      apply perSpace_ext. intros space.
      destruct (kPacketNumberSpace_eq_dec space pnSpace) as [->|Hsp].
      + rewrite at_space_valuesOf, Hafter. cbn [option_map].
        destruct (getValue highest heap <? _).
        * now rewrite at_set_space_same, Hcase.
        * subst highest'. rewrite at_space_valuesOf, Hhi. cbn [option_map].
          f_equal. exact (Hold pnSpace highest Hhi).
      + rewrite (Hrest space Hsp).
        destruct (getValue highest heap <? _);
          [now rewrite at_set_space_other | reflexivity].
    - destruct (Hnone eq_refl) as (Hafter & Hheap & Hb).
      split; [rewrite Hheap; apply getValue_setValue_same|].
      split; [exact Hb|].
      apply perSpace_ext. intros space.
      destruct (kPacketNumberSpace_eq_dec space pnSpace) as [->|Hsp].
      + rewrite at_space_valuesOf, Hafter, at_set_space_same.
        cbn [option_map]. f_equal. rewrite Hheap.
        apply getValue_setValue_same.
      + rewrite (Hrest space Hsp). now rewrite at_set_space_other. }
  destruct Hfacts as (Hpnv & Hrises & Hhighest).
  assert (Hc2 : connectionOf (fst (fst r)) (snd (fst r))
                = if rises
                  then setHighestReceivedNumber pnSpace pnv connection1
                  else connection1).
  { unfold connectionOf. rewrite Hep, Hst, Hver, Hspin, Hhighest.
    rewrite <- Hview. destruct rises; reflexivity. }
  f_equal.
  - cbn [getHeaderType headerOf].
    destruct (headerTypeOf header); try (symmetry; exact Hc2).
    rewrite <- Hc2, <- Hrises.
    unfold handleShortHeader, handleShortHeaderObject, connectionOf.
    destruct (snd r); reflexivity.
  - cbn [getHeaderType headerOf].
    destruct (headerTypeOf header); unfold headerOf;
      cbn [packetNumberOf setPayloadLengthOf setParsedBuffer header1
           headerTypeOf packetTypeOf versionOf payloadLengthOf spinBitOf
           packetNumberSizeOf];
      subst header1; cbn [packetNumberOf setParsedBuffer];
      rewrite Hpnv; reflexivity.
Qed.

End HandlerOnValues.


(** ** The HTTP/3 response *)

Lemma Http3_filled_refuses calls :
  forall r,
    Http3.ready r = true ->
    Http3.content r <> None \/ Http3.filePath r <> None ->
    Http3.run_calls calls r = (map (fun _ => false) calls, r).
Proof.
  induction calls as [|c calls IH]; intros r Hready Hset; [reflexivity|].
  assert (Hcall : Http3.run_call c r = (false, r)).
  { destruct c as [b|path]; cbn.
    - unfold Http3.send.
      destruct (Http3.content r), (Http3.filePath r); try reflexivity.
      destruct Hset as [E|E]; contradiction E; reflexivity.
    - unfold Http3.sendFile. now rewrite Hready. }
  cbn [Http3.run_calls map]. rewrite Hcall, (IH r Hready Hset). reflexivity.
Qed.

(** X20: the first call of [send] or [sendFile] on a new response
    succeeds and every later one is refused and changes nothing: the
    results are [true] followed by [false] only; the response is ready
    as soon as one call was made; and it holds the buffer of the first
    call, if that was a [send], or the path of the first call, if that
    was a [sendFile], never both. *)
Theorem first_content_of_a_response_wins (calls : list Http3.Call) :
  let (results, r) := Http3.run_calls calls Http3.new in
  results = match calls with
            | [] => []
            | _ :: rest => true :: map (fun _ => false) rest
            end
  /\ Http3.isReady r = match calls with [] => false | _ :: _ => true end
  /\ Http3.getContent r
     = match calls with Http3.CallSend c :: _ => Some c | _ => None end
  /\ Http3.getFilePath r
     = match calls with
       | Http3.CallSendFile path :: _ => Some path
       | _ => None
       end.
Proof.
  destruct calls as [|c calls]; [cbn; repeat split|].
  cbn [Http3.run_calls].
  destruct c as [b|path]; cbn [Http3.run_call];
    unfold Http3.send, Http3.sendFile; cbn.
  - rewrite Http3_filled_refuses;
      [repeat split | reflexivity | left; discriminate].
  - rewrite Http3_filled_refuses;
      [repeat split | reflexivity | right; discriminate].
Qed.

(** X21: [parsePath] gives a path that does not end in a slash, which
    is the given path or the given path with [index.html] appended;
    parsing a parsed path changes nothing. *)
Theorem parsePath_never_ends_with_slash (path : list ascii) :
  Http3.endsWithSlash (Http3.parsePath path) = false
  /\ Http3.parsePath (Http3.parsePath path) = Http3.parsePath path
  /\ (Http3.parsePath path = path
      \/ Http3.parsePath path = path ++ Http3.index_html).
Proof.
  assert (Hno : Http3.endsWithSlash (Http3.parsePath path) = false).
  { unfold Http3.parsePath.
    destruct (Http3.endsWithSlash path) eqn:E; [|exact E].
    unfold Http3.endsWithSlash. rewrite rev_app_distr. reflexivity. }
  split; [exact Hno|]. split.
  - unfold Http3.parsePath at 1. now rewrite Hno.
  - unfold Http3.parsePath. destruct (Http3.endsWithSlash path); auto.
Qed.
